(** * yiwang: spaced-repetition task tracker

    A shallow embedding of the Go packages [tasks] (stage ladder and task
    state machine) and [api] (request handlers), with the parts of the Go
    standard library they call ([time], [strings], [errors], [encoding/hex]).

    Conventions of the embedding:
    - a Go [string] is a sequence of bytes: [String.string];
    - a Go [int] is a 64-bit two's-complement integer: [Z] with [int_wrap]
      written where the code does arithmetic on it;
    - [time.Time] is the instant, in nanoseconds relative to Go's zero time
      (January 1, year 1, 00:00:00 UTC), which may be negative; it stands
      for a second count that fits an int64 and a nanosecond count below
      one second, and [Add] saturates the second count as Go's does; the
      monotonic-clock reading and the location pointer are not modelled;
    - a method with a pointer receiver [func (t *Task) M(..)] is a function
      from the task before the call to the task after it;
    - a run-time panic (index out of range) is the [Panic] outcome. *)

From Stdlib Require Import ZArith List String Ascii Bool Lia.
Import ListNotations.
Local Open Scope string_scope.
Local Open Scope Z_scope.

(** ** Outcomes of a call *)

(** Go [error] values met in the program. [ErrNotFound] is the sentinel of
    package [store], compared by identity with [errors.Is]; [errors_New] is a
    value built by [errors.New]; [ErrExternal] is an error handed back by a
    library (database driver, random source). *)
Inductive error : Type :=
| ErrNotFound
| errors_New (msg : string)
| ErrExternal (msg : string).

Definition Error (e : error) : string :=
  match e with
  | ErrNotFound => "task not found"
  | errors_New msg => msg
  | ErrExternal msg => msg
  end.

Definition error_is_NotFound (e : error) : bool :=
  match e with ErrNotFound => true | _ => false end.

Inductive result (A : Type) : Type :=
| Ok (a : A)
| Err (e : error)
| Panic (msg : string).
Arguments Ok {A} a.
Arguments Err {A} e.
Arguments Panic {A} msg.

Definition bind {A B : Type} (r : result A) (k : A -> result B) : result B :=
  match r with
  | Ok a => k a
  | Err e => Err e
  | Panic m => Panic m
  end.

Declare Scope result_scope.
Delimit Scope result_scope with result.
Notation "x <- c ;; k" := (bind c (fun x => k))
  (at level 61, c at next level, right associativity) : result_scope.

(** ** Machine integers *)

Definition int_wrap (z : Z) : Z := (z + 2 ^ 63) mod 2 ^ 64 - 2 ^ 63.

(** ** Package time *)

Module time.

Definition Duration : Type := Z.
Definition Time : Type := Z.

Definition Nanosecond : Duration := 1.
Definition Second : Duration := 1000000000 * Nanosecond.
Definition Minute : Duration := 60 * Second.
Definition Hour : Duration := 60 * Minute.

(** [time.Time{}] *)
Definition zero : Time := 0.

Definition IsZero (t : Time) : bool := t =? 0.

(** A [Time] holds a count of seconds, an int64, and a count of nanoseconds
    within the second. *)
Definition nsPerSec : Z := 1000000000.
Definition maxSec : Z := 2 ^ 63 - 1.
Definition sec (t : Time) : Z := t / nsPerSec.
Definition nsec (t : Time) : Z := t mod nsPerSec.
Definition at_ (s n : Z) : Time := s * nsPerSec + n.

(** The instants a [Time] can hold. *)
Definition inRange (t : Time) : Prop := - 2 ^ 63 <= sec t <= maxSec.

(** [t.addSec(d)]: the sum of the second counts wraps as an int64 does; a
    sum that went the wrong way is replaced by the end of the range. *)
Definition addSec (s d : Z) : Z :=
  let sum := int_wrap (s + d) in
  if Bool.eqb (s <? sum) (0 <? d) then sum
  else if 0 <? d then maxSec
  else - maxSec.

(** [t.Add(d)]: the duration is split into seconds and nanoseconds, both
    rounded toward zero, the nanoseconds are brought back within the second,
    and the seconds are added by [addSec]. *)
Definition Add (t : Time) (d : Duration) : Time :=
  let dsec := Z.quot d nsPerSec in
  let n := nsec t + Z.rem d nsPerSec in
  if nsPerSec <=? n then at_ (addSec (sec t) (dsec + 1)) (n - nsPerSec)
  else if n <? 0 then at_ (addSec (sec t) (dsec - 1)) (n + nsPerSec)
  else at_ (addSec (sec t) dsec) n.

(** [t.After(u)]: t is strictly later than u. *)
Definition After (t u : Time) : bool := u <? t.

End time.

(** ** Package strings *)

Module strings.

Definition byte_val (c : ascii) : Z := Z.of_N (N_of_ascii c).

(** The UTF-8 encodings of the runes for which [unicode.IsSpace] holds:
    U+0009..U+000D, U+0020, U+0085, U+00A0, U+1680, U+2000..U+200A,
    U+2028, U+2029, U+202F, U+205F, U+3000. *)
Definition isSpaceRune (bs : list Z) : bool :=
  match bs with
  | [c] => ((9 <=? c) && (c <=? 13)) || (c =? 32)
  | [194; c] => (c =? 133) || (c =? 160)
  | [225; 154; 128] => true
  | [226; 128; c] =>
      ((128 <=? c) && (c <=? 138)) || (c =? 168) || (c =? 169) || (c =? 175)
  | [226; 129; 159] => true
  | [227; 128; 128] => true
  | _ => false
  end.

(** Width in bytes of the white-space rune that starts [s], 0 if [s] does
    not start with one. *)
Definition spaceWidth (s : list Z) : nat :=
  if isSpaceRune (firstn 1 s) then 1%nat
  else if isSpaceRune (firstn 2 s) then 2%nat
  else if isSpaceRune (firstn 3 s) then 3%nat
  else 0%nat.

Fixpoint trimLeft (fuel : nat) (s : list Z) : list Z :=
  match fuel with
  | O => s
  | S fuel' =>
      match spaceWidth s with
      | O => s
      | w => trimLeft fuel' (skipn w s)
      end
  end.

(** The same from the right end, on the reversed byte sequence. *)
Definition spaceWidthLast (r : list Z) : nat :=
  if isSpaceRune (rev (firstn 1 r)) then 1%nat
  else if isSpaceRune (rev (firstn 2 r)) then 2%nat
  else if isSpaceRune (rev (firstn 3 r)) then 3%nat
  else 0%nat.

Fixpoint trimRightRev (fuel : nat) (r : list Z) : list Z :=
  match fuel with
  | O => r
  | S fuel' =>
      match spaceWidthLast r with
      | O => r
      | w => trimRightRev fuel' (skipn w r)
      end
  end.

Definition bytes (s : string) : list Z := map byte_val (list_ascii_of_string s).
Definition of_bytes (bs : list Z) : string :=
  string_of_list_ascii (map (fun b => ascii_of_N (Z.to_N b)) bs).

(** [strings.TrimSpace]: all leading and trailing white space removed, as
    defined by Unicode. *)
Definition TrimSpace (s : string) : string :=
  let l := trimLeft (String.length s) (bytes s) in
  of_bytes (rev (trimRightRev (List.length l) (rev l))).

Definition isASCII (s : string) : bool :=
  forallb (fun b => b <? 128) (bytes s).

Definition lowerByte (b : Z) : Z :=
  if (65 <=? b) && (b <=? 90) then b + 32 else b.

Section ToLower.
(** [strings.Map(unicode.ToLower, s)], the path taken for a string with
    a byte outside ASCII; it depends on the Unicode case tables. *)
Variable mapUnicodeToLower : string -> string.

Definition ToLower (s : string) : string :=
  if isASCII s then of_bytes (map lowerByte (bytes s))
  else mapUnicodeToLower s.
End ToLower.

End strings.

(** ** Package encoding/hex *)

Module hex.

Definition hextable : string := "0123456789abcdef".

Definition digit (n : Z) : ascii :=
  match String.get (Z.to_nat n) hextable with
  | Some c => c
  | None => "0"%char
  end.

Fixpoint encode (src : list Z) : list ascii :=
  match src with
  | [] => []
  | v :: rest => digit (Z.shiftr v 4) :: digit (Z.land v 15) :: encode rest
  end.

Definition EncodeToString (src : list Z) : string :=
  string_of_list_ascii (encode src).

End hex.

(** ** Package tasks *)

Module tasks.
Import time.
Local Open Scope result_scope.

(** *** The stage ladder *)

Definition StageDurations : list Duration :=
  [ 5 * Minute;
    10 * Minute;
    25 * Minute;
    Hour;
    6 * Hour;
    24 * Hour;
    48 * Hour;
    168 * Hour ].

Definition TotalStages : Z := Z.of_nat (List.length StageDurations).

(** The index expression [StageDurations[i]]: Go panics when [i] is
    negative or not below the length. *)
Definition index (l : list Duration) (i : Z) : result Duration :=
  if (0 <=? i) && (i <? Z.of_nat (List.length l)) then
    match nth_error l (Z.to_nat i) with
    | Some d => Ok d
    | None => Panic "index out of range"
    end
  else Panic "index out of range".

(** *** The task entity *)

Record Task : Type := mkTask {
  ID : string;
  Question : string;
  Answer : string;
  Stage : Z;
  NextReviewAt : Time;
  CreatedAt : Time;
  UpdatedAt : Time;
  CompletedAt : option Time
}.

(** What [rand.Read(b[:])] did: filled the buffer, or failed. *)
Inductive RandRead : Type :=
| RandFilled (bs : list Z)
| RandFailed (msg : string).

Definition generateID (r : RandRead) : result string :=
  match r with
  | RandFailed msg => Err (ErrExternal msg)
  | RandFilled bs =>
      (* [var b [12]byte]: twelve bytes, zero where the source gave none *)
      let b := firstn 12 (map (fun v => v mod 256) bs ++ repeat 0 12) in
      Ok (hex.EncodeToString b)
  end.

Definition required : error := errors_New "question and answer are required".

Definition NewTask (question answer : string) (now : Time) (r : RandRead)
  : result Task :=
  let q := strings.TrimSpace question in
  let a := strings.TrimSpace answer in
  if String.eqb q "" || String.eqb a "" then Err required
  else
    id <- generateID r ;;
    d <- index StageDurations 0 ;;
    Ok {| ID := id;
          Question := q;
          Answer := a;
          Stage := 0;
          CreatedAt := now;
          UpdatedAt := now;
          NextReviewAt := Add now d;
          CompletedAt := None |}.

Definition isSet (c : option Time) : bool :=
  match c with Some _ => true | None => false end.

Definition Status (t : Task) (now : Time) : string :=
  if isSet (CompletedAt t) || (TotalStages <=? Stage t) then "done"
  else if negb (After (NextReviewAt t) now) then "ready"
  else "pending".

Definition MarkRemembered (now : Time) (t : Task) : result Task :=
  if isSet (CompletedAt t) then Ok t
  else if int_wrap (TotalStages - 1) <=? Stage t then
    Ok {| ID := ID t;
          Question := Question t;
          Answer := Answer t;
          Stage := TotalStages;
          NextReviewAt := zero;
          CreatedAt := CreatedAt t;
          UpdatedAt := now;
          CompletedAt := Some now |}
  else
    let stage' := int_wrap (Stage t + 1) in
    d <- index StageDurations stage' ;;
    Ok {| ID := ID t;
          Question := Question t;
          Answer := Answer t;
          Stage := stage';
          NextReviewAt := Add now d;
          CreatedAt := CreatedAt t;
          UpdatedAt := now;
          CompletedAt := CompletedAt t |}.

Definition MarkForgot (now : Time) (t : Task) : result Task :=
  d <- index StageDurations 0 ;;
  Ok {| ID := ID t;
        Question := Question t;
        Answer := Answer t;
        Stage := 0;
        NextReviewAt := Add now d;
        CreatedAt := CreatedAt t;
        UpdatedAt := now;
        CompletedAt := None |}.

(** The task after the call, and the error returned ([None] is Go's
    [nil]). *)
Definition UpdateContent (question answer : string) (t : Task)
  : Task * option error :=
  let q := strings.TrimSpace question in
  let a := strings.TrimSpace answer in
  if String.eqb q "" || String.eqb a "" then (t, Some required)
  else
    ({| ID := ID t;
        Question := q;
        Answer := a;
        Stage := Stage t;
        NextReviewAt := NextReviewAt t;
        CreatedAt := CreatedAt t;
        UpdatedAt := UpdatedAt t;
        CompletedAt := CompletedAt t |}, None).

(** [MarkRemembered] applied once per element of [nows], in order. *)
Fixpoint rememberAll (nows : list Time) (t : Task) : result Task :=
  match nows with
  | [] => Ok t
  | now :: rest => t' <- MarkRemembered now t ;; rememberAll rest t'
  end.

(** Tasks that [NewTask] followed by calls of the three mutators can
    produce; every [now] passed satisfies [okNow]. *)
Inductive reachable (okNow : Time -> Prop) : Task -> Prop :=
| reach_new question answer now r t :
    okNow now ->
    NewTask question answer now r = Ok t ->
    reachable okNow t
| reach_remembered now t t' :
    okNow now ->
    reachable okNow t ->
    MarkRemembered now t = Ok t' ->
    reachable okNow t'
| reach_forgot now t t' :
    okNow now ->
    reachable okNow t ->
    MarkForgot now t = Ok t' ->
    reachable okNow t'
| reach_update question answer t t' :
    reachable okNow t ->
    UpdateContent question answer t = (t', None) ->
    reachable okNow t'.

(** The same tasks, with the texts passed to [NewTask] and to each
    successful [UpdateContent] on the way, the latest first. *)
Inductive passed : list (string * string) -> Task -> Prop :=
| passed_new question answer now r t :
    NewTask question answer now r = Ok t ->
    passed [(question, answer)] t
| passed_remembered texts now t t' :
    passed texts t ->
    MarkRemembered now t = Ok t' ->
    passed texts t'
| passed_forgot texts now t t' :
    passed texts t ->
    MarkForgot now t = Ok t' ->
    passed texts t'
| passed_update texts question answer t t' :
    passed texts t ->
    UpdateContent question answer t = (t', None) ->
    passed ((question, answer) :: texts) t'.

End tasks.

(** ** Package api *)

Module api.
Import time.

(** *** Responses *)

Record taskResponse : Type := mkTaskResponse {
  ID : string;
  Question : string;
  Answer : string;
  Stage : Z;
  TotalStages : Z;
  Status : string;
  NextReviewAt : option Time;
  CreatedAt : Time;
  UpdatedAt : Time;
  CompletedAt : option Time
}.

Definition mapTask (t : tasks.Task) (now : Time) : taskResponse :=
  let next :=
    if negb (IsZero (tasks.NextReviewAt t)) then Some (tasks.NextReviewAt t)
    else None in
  {| ID := tasks.ID t;
     Question := tasks.Question t;
     Answer := tasks.Answer t;
     Stage := tasks.Stage t;
     TotalStages := tasks.TotalStages;
     Status := tasks.Status t now;
     NextReviewAt := next;
     CreatedAt := tasks.CreatedAt t;
     UpdatedAt := tasks.UpdatedAt t;
     CompletedAt := tasks.CompletedAt t |}.

(** The value handed to [c.JSON]. *)
Inductive body : Type :=
| ErrorBody (msg : string)            (* gin.H{"error": msg} *)
| TaskBody (t : taskResponse)
| TaskListBody (ts : list taskResponse).

Record Response : Type := JSON { status : Z; payload : body }.

Definition StatusOK : Z := 200.
Definition StatusBadRequest : Z := 400.
Definition StatusNotFound : Z := 404.
Definition StatusInternalServerError : Z := 500.

Definition writeError (st : Z) (msg : string) : Response :=
  JSON st (ErrorBody msg).

(** *** Handlers as programs over the clock and the store *)

Inductive storeResult (A : Type) : Type :=
| Got (a : A)
| Failed (e : error).
Arguments Got {A} a.
Arguments Failed {A} e.

(** A handler reads the clock ([a.now()]), calls the store, and ends by
    writing one response. *)
Inductive Prog : Type :=
| Respond (r : Response)
| Now (k : Time -> Prog)
| StoreAll (k : storeResult (list tasks.Task) -> Prog)
| StoreReview (id : string) (remembered : bool) (now : Time)
              (k : storeResult tasks.Task -> Prog).

Record reviewRequest : Type := { Result : string }.

Section Handlers.
Variable mapUnicodeToLower : string -> string.

(** The loop of [listTasks]: one step per stored task. *)
Definition listStep (filter : string) (now : Time)
           (out : list taskResponse) (t : tasks.Task) : list taskResponse :=
  let tr := mapTask t now in
  if String.eqb filter "" || String.eqb filter "all"
     || String.eqb (Status tr) filter
  then out ++ [tr] else out.

(** [query] is [c.Query("status")]. *)
Definition listTasks (query : string) : Prog :=
  Now (fun now =>
  StoreAll (fun r =>
    match r with
    | Failed err => Respond (writeError StatusInternalServerError (Error err))
    | Got all =>
        let filter :=
          strings.ToLower mapUnicodeToLower (strings.TrimSpace query) in
        let out := fold_left (listStep filter now) all [] in
        Respond (JSON StatusOK (TaskListBody out))
    end)).

(** The loop of [readyTasks]. *)
Definition readyStep (now : Time)
           (out : list taskResponse) (t : tasks.Task) : list taskResponse :=
  let tr := mapTask t now in
  if String.eqb (Status tr) "ready" then out ++ [tr] else out.

Definition readyTasks : Prog :=
  Now (fun now =>
  StoreAll (fun r =>
    match r with
    | Failed err => Respond (writeError StatusInternalServerError (Error err))
    | Got all =>
        let out := fold_left (readyStep now) all [] in
        Respond (JSON StatusOK (TaskListBody out))
    end)).

(** The [switch] of [reviewTask]: [Some true] is remembered, [Some false]
    forgot, [None] the default case. *)
Definition reviewSwitch (result : string) : option bool :=
  if String.eqb result "remembered" || String.eqb result "remember"
     || String.eqb result "ok" || String.eqb result "done"
  then Some true
  else if String.eqb result "forgot" || String.eqb result "forget"
          || String.eqb result "miss"
  then Some false
  else None.

(** [id] is [c.Param("id")]; [req] is what [c.ShouldBindJSON(&req)]
    bound, [None] when it returned an error. *)
Definition reviewTask (id : string) (req : option reviewRequest) : Prog :=
  match req with
  | None => Respond (writeError StatusBadRequest "invalid json")
  | Some req =>
      let result :=
        strings.ToLower mapUnicodeToLower (strings.TrimSpace (Result req)) in
      match reviewSwitch result with
      | None =>
          Respond (writeError StatusBadRequest
                              "result must be 'remembered' or 'forgot'")
      | Some remembered =>
          Now (fun now =>
          StoreReview id remembered now (fun r =>
            match r with
            | Failed err =>
                if error_is_NotFound err
                then Respond (writeError StatusNotFound (Error err))
                else Respond (writeError StatusInternalServerError (Error err))
            | Got t =>
                Now (fun now' => Respond (JSON StatusOK (TaskBody (mapTask t now'))))
            end))
      end
  end.
End Handlers.

(** *** Running a handler *)

(** What the surroundings of one request answer: the successive clock
    readings and the outcome of each store call. *)
Record World : Type := {
  clock : nat -> Time;
  onAll : storeResult (list tasks.Task);
  onReview : string -> bool -> Time -> storeResult tasks.Task
}.

Inductive StoreCall : Type :=
| CallAll
| CallReview (id : string) (remembered : bool) (now : Time).

(** The response written and the store calls made, in order; [n] counts
    the clock readings so far. *)
Fixpoint run (w : World) (n : nat) (p : Prog) : Response * list StoreCall :=
  match p with
  | Respond r => (r, [])
  | Now k => run w (S n) (k (clock w n))
  | StoreAll k =>
      let (r, calls) := run w n (k (onAll w)) in (r, CallAll :: calls)
  | StoreReview id remembered now k =>
      let (r, calls) := run w n (k (onReview w id remembered now)) in
      (r, CallReview id remembered now :: calls)
  end.

(** *** The handlers of single tasks *)

Definition StatusCreated : Z := 201.
Definition StatusNoContent : Z := 204.

Record createTaskRequest : Type := { reqQuestion : string; reqAnswer : string }.

(** What a handler wrote: [c.JSON(status, body)] or [c.Status(code)]. *)
Inductive Reply : Type :=
| WriteJSON (r : Response)
| WriteStatus (code : Z).

(** A handler of this group reads the clock, calls one method of the store,
    and writes one reply. *)
Inductive Handler : Type :=
| Finish (r : Reply)
| ReadClock (k : Time -> Handler)
| CreateCall (question answer : string) (now : Time)
             (k : storeResult tasks.Task -> Handler)
| GetCall (id : string) (k : storeResult tasks.Task -> Handler)
| UpdateContentCall (id question answer : string) (now : Time)
                    (k : storeResult tasks.Task -> Handler)
| DeleteCall (id : string) (k : option error -> Handler).

(** [req] is what [c.ShouldBindJSON(&req)] bound, [None] when it returned an
    error. *)
Definition createTask (req : option createTaskRequest) : Handler :=
  match req with
  | None => Finish (WriteJSON (writeError StatusBadRequest "invalid json"))
  | Some req =>
      ReadClock (fun now =>
      CreateCall (reqQuestion req) (reqAnswer req) now (fun r =>
        match r with
        | Failed err =>
            Finish (WriteJSON (writeError StatusBadRequest (Error err)))
        | Got t =>
            ReadClock (fun now' =>
              Finish (WriteJSON (JSON StatusCreated (TaskBody (mapTask t now')))))
        end))
  end.

Definition getTask (id : string) : Handler :=
  GetCall id (fun r =>
    match r with
    | Failed err =>
        if error_is_NotFound err
        then Finish (WriteJSON (writeError StatusNotFound (Error err)))
        else Finish (WriteJSON (writeError StatusInternalServerError (Error err)))
    | Got t =>
        ReadClock (fun now =>
          Finish (WriteJSON (JSON StatusOK (TaskBody (mapTask t now)))))
    end).

(** In the error branch [err] is not nil, so the [else if err != nil] of the
    source is taken whenever the error is not [ErrNotFound]. *)
Definition updateTask (id : string) (req : option createTaskRequest) : Handler :=
  match req with
  | None => Finish (WriteJSON (writeError StatusBadRequest "invalid json"))
  | Some req =>
      ReadClock (fun now =>
      UpdateContentCall id (reqQuestion req) (reqAnswer req) now (fun r =>
        match r with
        | Failed err =>
            let st := StatusBadRequest in
            let st :=
              if error_is_NotFound err then StatusNotFound
              else StatusInternalServerError in
            Finish (WriteJSON (writeError st (Error err)))
        | Got t =>
            ReadClock (fun now' =>
              Finish (WriteJSON (JSON StatusOK (TaskBody (mapTask t now')))))
        end))
  end.

Definition deleteTask (id : string) : Handler :=
  DeleteCall id (fun r =>
    match r with
    | Some err =>
        if error_is_NotFound err
        then Finish (WriteJSON (writeError StatusNotFound (Error err)))
        else Finish (WriteJSON (writeError StatusInternalServerError (Error err)))
    | None => Finish (WriteStatus StatusNoContent)
    end).

(** What the clock and the store answer during one such request. *)
Record Backend : Type := {
  time_now : nat -> Time;
  onCreate : string -> string -> Time -> storeResult tasks.Task;
  onGet : string -> storeResult tasks.Task;
  onUpdateContent : string -> string -> string -> Time -> storeResult tasks.Task;
  onDelete : string -> option error
}.

Inductive BackendCall : Type :=
| CalledCreate (question answer : string) (now : Time)
| CalledGet (id : string)
| CalledUpdateContent (id question answer : string) (now : Time)
| CalledDelete (id : string).

(** The reply written and the store calls made; [n] counts the clock
    readings so far. *)
Fixpoint serve (b : Backend) (n : nat) (h : Handler) : Reply * list BackendCall :=
  match h with
  | Finish r => (r, [])
  | ReadClock k => serve b (S n) (k (time_now b n))
  | CreateCall q a now k =>
      let (r, calls) := serve b n (k (onCreate b q a now)) in
      (r, CalledCreate q a now :: calls)
  | GetCall id k =>
      let (r, calls) := serve b n (k (onGet b id)) in
      (r, CalledGet id :: calls)
  | UpdateContentCall id q a now k =>
      let (r, calls) := serve b n (k (onUpdateContent b id q a now)) in
      (r, CalledUpdateContent id q a now :: calls)
  | DeleteCall id k =>
      let (r, calls) := serve b n (k (onDelete b id)) in
      (r, CalledDelete id :: calls)
  end.

Definition replyStatus (r : Reply) : Z :=
  match r with
  | WriteJSON resp => status resp
  | WriteStatus code => code
  end.

End api.

(** ** Package database/sql: the values the store exchanges with it *)

Module sql.

(** [sql.NullTime]: a time column that may be NULL. *)
Record NullTime : Type := { Time : time.Time; Valid : bool }.

(** [sql.NullTime{}] *)
Definition null : NullTime := {| Time := time.zero; Valid := false |}.

(** An error returned by the package: the sentinel [sql.ErrNoRows], or an
    error of the driver or the connection. *)
Inductive failure : Type :=
| ErrNoRows
| ErrDriver (msg : string).

(** The same value seen as a Go [error] by the callers of the store. *)
Definition lift (e : failure) : error :=
  match e with
  | ErrNoRows => ErrExternal "sql: no rows in result set"
  | ErrDriver msg => ErrExternal msg
  end.

(** Arguments bound to the placeholders of a statement. *)
Inductive Value : Type :=
| VString (s : string)
| VInt (z : Z)
| VTime (t : time.Time)
| VNullTime (n : NullTime).

End sql.

(** ** Package store: the part of [Review] that decides the transition *)

Module store.
Import time.

(** [Store.Review] between the row being scanned and the UPDATE: the
    branch on [remembered]. *)
Definition applyReview (remembered : bool) (now : Time) (t : tasks.Task)
  : result tasks.Task :=
  if remembered then tasks.MarkRemembered now t else tasks.MarkForgot now t.


(** *** Rows of the [tasks] table *)

Definition nullTime (t : Time) : sql.NullTime :=
  if IsZero t then sql.null else {| sql.Time := t; sql.Valid := true |}.

Definition nullTimePtr (t : option Time) : sql.NullTime :=
  match t with
  | None => sql.null
  | Some c => if IsZero c then sql.null else {| sql.Time := c; sql.Valid := true |}
  end.

(** The eight columns a SELECT of the store returns, in order. *)
Record Row : Type := {
  tid : string;
  question : string;
  answer : string;
  stage : Z;
  next : sql.NullTime;
  createdAt : Time;
  updatedAt : Time;
  completed : sql.NullTime
}.

(** What [row.Scan(&tid, ..., &completed)] did. *)
Inductive Scanned : Type :=
| ScanRow (r : Row)
| ScanFailed (e : sql.failure).

Definition scanTask (s : Scanned) : tasks.Task + sql.failure :=
  match s with
  | ScanFailed e => inr e
  | ScanRow r =>
      let nextReview :=
        if sql.Valid (next r) then sql.Time (next r) else zero in
      let completedAt :=
        if sql.Valid (completed r) then Some (sql.Time (completed r)) else None in
      inl {| tasks.ID := tid r;
             tasks.Question := question r;
             tasks.Answer := answer r;
             tasks.Stage := stage r;
             tasks.NextReviewAt := nextReview;
             tasks.CreatedAt := createdAt r;
             tasks.UpdatedAt := updatedAt r;
             tasks.CompletedAt := completedAt |}
  end.

(** The columns of a task, the two nullable ones as [Review] binds them. *)
Definition columns (t : tasks.Task) : Row :=
  {| tid := tasks.ID t;
     question := tasks.Question t;
     answer := tasks.Answer t;
     stage := tasks.Stage t;
     next := nullTime (tasks.NextReviewAt t);
     createdAt := tasks.CreatedAt t;
     updatedAt := tasks.UpdatedAt t;
     completed := nullTimePtr (tasks.CompletedAt t) |}.

(** *** Store methods as programs over the database connection *)

(** The statements of the store, by what their SQL text does. *)
Inductive Statement : Type :=
| InsertTask            (* INSERT INTO tasks (...) VALUES (?, ?, ?, ?, ?, ?, ?, NULL) *)
| SelectAll             (* SELECT ... FROM tasks *)
| SelectByID            (* SELECT ... FROM tasks WHERE id = ? *)
| SelectByIDForUpdate   (* SELECT ... FROM tasks WHERE id = ? FOR UPDATE *)
| UpdateContentByID     (* UPDATE tasks SET question = ?, answer = ?, updated_at = ? WHERE id = ? *)
| UpdateReviewByID      (* UPDATE tasks SET stage = ?, next_review_at = ?, completed_at = ?, updated_at = ? WHERE id = ? *)
| DeleteByID.           (* DELETE FROM tasks WHERE id = ? *)

(** What [Exec] returned: an error, or a result whose [RowsAffected] is a
    count or an error. *)
Inductive ExecResult : Type :=
| ExecFailed (e : sql.failure)
| ExecDone (affected : Z + sql.failure).

(** What [Query] returned: an error, or rows; [scans] are the rows for
    which [rows.Next] held, [rowsErr] is [rows.Err()] after them. *)
Inductive QueryResult : Type :=
| QueryFailed (e : sql.failure)
| QueryRows (scans : list Scanned) (rowsErr : option sql.failure).

(** A store method: calls on the connection, in order, then the values it
    returns. [inTx] tells [tx.Exec] and [tx.QueryRow] from [db.Exec] and
    [db.QueryRow]; [Rollback] and [RowsClose] are the deferred calls, whose
    results the code drops. *)
Inductive Sql (A : Type) : Type :=
| Return (a : A)
| Exec (inTx : bool) (stmt : Statement) (args : list sql.Value)
       (k : ExecResult -> Sql A)
| QueryRow (inTx : bool) (stmt : Statement) (args : list sql.Value)
           (k : Scanned -> Sql A)
| Query (stmt : Statement) (k : QueryResult -> Sql A)
| RowsClose (k : Sql A)
| BeginTx (k : option sql.failure -> Sql A)
| Commit (k : option sql.failure -> Sql A)
| Rollback (k : Sql A).
Arguments Return {A} a.
Arguments Exec {A} inTx stmt args k.
Arguments QueryRow {A} inTx stmt args k.
Arguments Query {A} stmt k.
Arguments RowsClose {A} k.
Arguments BeginTx {A} k.
Arguments Commit {A} k.
Arguments Rollback {A} k.

Definition Create (question answer : string) (now : Time) (r : tasks.RandRead)
  : Sql (result tasks.Task) :=
  match tasks.NewTask question answer now r with
  | Err e => Return (Err e)
  | Panic msg => Return (Panic msg)
  | Ok t =>
      Exec false InsertTask
           [ sql.VString (tasks.ID t); sql.VString (tasks.Question t);
             sql.VString (tasks.Answer t); sql.VInt (tasks.Stage t);
             sql.VTime (tasks.NextReviewAt t); sql.VTime (tasks.CreatedAt t);
             sql.VTime (tasks.UpdatedAt t) ]
           (fun res =>
              match res with
              | ExecFailed e => Return (Err (sql.lift e))
              | ExecDone _ => Return (Ok t)
              end)
  end.

(** The loop of [All] over the rows. *)
Fixpoint scanAll (scans : list Scanned) (out : list tasks.Task)
  : list tasks.Task + sql.failure :=
  match scans with
  | [] => inl out
  | s :: rest =>
      match scanTask s with
      | inr e => inr e
      | inl t => scanAll rest (out ++ [t])
      end
  end.

(** [All] returns a slice and an error, as Go does. *)
Definition All : Sql (list tasks.Task * option error) :=
  Query SelectAll
        (fun q =>
           match q with
           | QueryFailed e => Return ([], Some (sql.lift e))
           | QueryRows scans rowsErr =>
               match scanAll scans [] with
               | inr e => RowsClose (Return ([], Some (sql.lift e)))
               | inl out => RowsClose (Return (out, option_map sql.lift rowsErr))
               end
           end).

Definition Get (id : string) : Sql (result tasks.Task) :=
  QueryRow false SelectByID [sql.VString id]
           (fun s =>
              match scanTask s with
              | inr sql.ErrNoRows => Return (Err ErrNotFound)
              | inr e => Return (Err (sql.lift e))
              | inl t => Return (Ok t)
              end).

(** [t.UpdatedAt = now] *)
Definition setUpdatedAt (now : Time) (t : tasks.Task) : tasks.Task :=
  {| tasks.ID := tasks.ID t;
     tasks.Question := tasks.Question t;
     tasks.Answer := tasks.Answer t;
     tasks.Stage := tasks.Stage t;
     tasks.NextReviewAt := tasks.NextReviewAt t;
     tasks.CreatedAt := tasks.CreatedAt t;
     tasks.UpdatedAt := now;
     tasks.CompletedAt := tasks.CompletedAt t |}.

Definition UpdateContent (id question answer : string) (now : Time)
  : Sql (result tasks.Task) :=
  BeginTx (fun began =>
    match began with
    | Some e => Return (Err (sql.lift e))
    | None =>
        QueryRow true SelectByIDForUpdate [sql.VString id]
          (fun s =>
             match scanTask s with
             | inr sql.ErrNoRows => Rollback (Return (Err ErrNotFound))
             | inr e => Rollback (Return (Err (sql.lift e)))
             | inl t =>
                 match tasks.UpdateContent question answer t with
                 | (_, Some e) => Rollback (Return (Err e))
                 | (t1, None) =>
                     let t2 := setUpdatedAt now t1 in
                     Exec true UpdateContentByID
                          [ sql.VString (tasks.Question t2);
                            sql.VString (tasks.Answer t2);
                            sql.VTime (tasks.UpdatedAt t2);
                            sql.VString (tasks.ID t2) ]
                          (fun res =>
                             match res with
                             | ExecFailed e => Rollback (Return (Err (sql.lift e)))
                             | ExecDone _ =>
                                 Commit (fun c =>
                                   match c with
                                   | Some e => Rollback (Return (Err (sql.lift e)))
                                   | None => Rollback (Return (Ok t2))
                                   end)
                             end)
                 end
             end)
    end).

(** A panic of [MarkRemembered] unwinds through the deferred rollback. *)
Definition Review (id : string) (remembered : bool) (now : Time)
  : Sql (result tasks.Task) :=
  BeginTx (fun began =>
    match began with
    | Some e => Return (Err (sql.lift e))
    | None =>
        QueryRow true SelectByIDForUpdate [sql.VString id]
          (fun s =>
             match scanTask s with
             | inr sql.ErrNoRows => Rollback (Return (Err ErrNotFound))
             | inr e => Rollback (Return (Err (sql.lift e)))
             | inl t =>
                 match applyReview remembered now t with
                 | Panic msg => Rollback (Return (Panic msg))
                 | Err e => Rollback (Return (Err e))
                 | Ok t' =>
                     Exec true UpdateReviewByID
                          [ sql.VInt (tasks.Stage t');
                            sql.VNullTime (nullTime (tasks.NextReviewAt t'));
                            sql.VNullTime (nullTimePtr (tasks.CompletedAt t'));
                            sql.VTime (tasks.UpdatedAt t');
                            sql.VString (tasks.ID t') ]
                          (fun res =>
                             match res with
                             | ExecFailed e => Rollback (Return (Err (sql.lift e)))
                             | ExecDone _ =>
                                 Commit (fun c =>
                                   match c with
                                   | Some e => Rollback (Return (Err (sql.lift e)))
                                   | None => Rollback (Return (Ok t'))
                                   end)
                             end)
                 end
             end)
    end).

(** [Delete] returns an error or [nil]. *)
Definition Delete (id : string) : Sql (option error) :=
  Exec false DeleteByID [sql.VString id]
       (fun res =>
          match res with
          | ExecFailed e => Return (Some (sql.lift e))
          | ExecDone (inr e) => Return (Some (sql.lift e))
          | ExecDone (inl affected) =>
              if affected =? 0 then Return (Some ErrNotFound) else Return None
          end).

(** *** Running a store method *)

(** What the database answers during one method call. *)
Record Database : Type := {
  onBeginTx : option sql.failure;
  onExec : bool -> Statement -> list sql.Value -> ExecResult;
  onQueryRow : bool -> Statement -> list sql.Value -> Scanned;
  onQuery : Statement -> QueryResult;
  onCommit : option sql.failure
}.

Inductive Call : Type :=
| CallBeginTx
| CallExec (inTx : bool) (stmt : Statement) (args : list sql.Value)
| CallQueryRow (inTx : bool) (stmt : Statement) (args : list sql.Value)
| CallQuery (stmt : Statement)
| CallRowsClose
| CallCommit
| CallRollback.

(** The values returned and the calls made on the connection, in order. *)
Fixpoint perform {A : Type} (db : Database) (p : Sql A) : A * list Call :=
  match p with
  | Return a => (a, [])
  | Exec inTx stmt args k =>
      let (a, calls) := perform db (k (onExec db inTx stmt args)) in
      (a, CallExec inTx stmt args :: calls)
  | QueryRow inTx stmt args k =>
      let (a, calls) := perform db (k (onQueryRow db inTx stmt args)) in
      (a, CallQueryRow inTx stmt args :: calls)
  | Query stmt k =>
      let (a, calls) := perform db (k (onQuery db stmt)) in
      (a, CallQuery stmt :: calls)
  | RowsClose k =>
      let (a, calls) := perform db k in (a, CallRowsClose :: calls)
  | BeginTx k =>
      let (a, calls) := perform db (k (onBeginTx db)) in
      (a, CallBeginTx :: calls)
  | Commit k =>
      let (a, calls) := perform db (k (onCommit db)) in
      (a, CallCommit :: calls)
  | Rollback k =>
      let (a, calls) := perform db k in (a, CallRollback :: calls)
  end.

End store.

(** ** Sample data *)

Module samples.
Import time tasks.

Definition sample_task (stage : Z) (next : Time) (done : option Time) : Task :=
  {| ID := "0123456789abcdef01234567"; Question := "q"; Answer := "a";
     Stage := stage; NextReviewAt := next; CreatedAt := 100;
     UpdatedAt := 100; CompletedAt := done |}.

(** Five minutes before Go's zero time. *)
Definition before_zero : Time := - (5 * Minute).

(** The task [NewTask] builds at [before_zero]. *)
Definition early_task : Task :=
  {| ID := "0123456789abcdef01234567"; Question := "q"; Answer := "a";
     Stage := 0; NextReviewAt := zero; CreatedAt := before_zero;
     UpdatedAt := before_zero; CompletedAt := None |}.

(** The last second a [Time] can hold. *)
Definition last_second : Time := at_ maxSec 0.

Definition entropy : RandRead :=
  RandFilled [1; 35; 69; 103; 137; 171; 205; 239; 1; 35; 69; 103].

(** A store holding three tasks: one due, one not yet due, one completed.
    [Review] answers for the first one and knows no other identifier. *)
Definition stored : list Task :=
  [ sample_task 2 900 None;
    {| ID := "aaaaaaaaaaaaaaaaaaaaaaaa"; Question := "q2"; Answer := "a2";
       Stage := 1; NextReviewAt := 5000; CreatedAt := 100; UpdatedAt := 200;
       CompletedAt := None |};
    {| ID := "bbbbbbbbbbbbbbbbbbbbbbbb"; Question := "q3"; Answer := "a3";
       Stage := 8; NextReviewAt := zero; CreatedAt := 100; UpdatedAt := 700;
       CompletedAt := Some 700 |} ].

Definition sample_world : api.World :=
  {| api.clock := fun n => 1000 + Z.of_nat n;
     api.onAll := api.Got stored;
     api.onReview := fun id remembered now =>
       if String.eqb id "0123456789abcdef01234567" then
         match store.applyReview remembered now (sample_task 2 900 None) with
         | Ok t => api.Got t
         | Err e => api.Failed e
         | Panic msg => api.Failed (ErrExternal msg)
         end
       else api.Failed ErrNotFound |}.

(** A stand-in for the Unicode path of [strings.ToLower]; the sample
    inputs are ASCII and never reach it. *)
Definition noUnicode (s : string) : string := s.

End samples.

(** ** The api on top of the store *)

Module server.
Import time.

(** What one request runs against: the clock readings, the database, and
    what the random source delivers to [generateID]. *)
Record Env : Type := {
  clock : nat -> Time;
  db : store.Database;
  rand : tasks.RandRead
}.

(** A request ends with a reply, or with a panic leaving the handler. *)
Inductive Outcome : Type :=
| Replied (r : api.Reply)
| Panicked (msg : string).

(** [serve] with every store call performed by the store's own method. *)
Fixpoint handle (e : Env) (n : nat) (h : api.Handler)
  : Outcome * list store.Call :=
  match h with
  | api.Finish r => (Replied r, [])
  | api.ReadClock k => handle e (S n) (k (clock e n))
  | api.CreateCall q a now k =>
      let (res, calls) := store.perform (db e) (store.Create q a now (rand e)) in
      match res with
      | Panic msg => (Panicked msg, calls)
      | Err err =>
          let (o, calls') := handle e n (k (api.Failed err)) in (o, (calls ++ calls')%list)
      | Ok t =>
          let (o, calls') := handle e n (k (api.Got t)) in (o, (calls ++ calls')%list)
      end
  | api.GetCall id k =>
      let (res, calls) := store.perform (db e) (store.Get id) in
      match res with
      | Panic msg => (Panicked msg, calls)
      | Err err =>
          let (o, calls') := handle e n (k (api.Failed err)) in (o, (calls ++ calls')%list)
      | Ok t =>
          let (o, calls') := handle e n (k (api.Got t)) in (o, (calls ++ calls')%list)
      end
  | api.UpdateContentCall id q a now k =>
      let (res, calls) := store.perform (db e) (store.UpdateContent id q a now) in
      match res with
      | Panic msg => (Panicked msg, calls)
      | Err err =>
          let (o, calls') := handle e n (k (api.Failed err)) in (o, (calls ++ calls')%list)
      | Ok t =>
          let (o, calls') := handle e n (k (api.Got t)) in (o, (calls ++ calls')%list)
      end
  | api.DeleteCall id k =>
      let (res, calls) := store.perform (db e) (store.Delete id) in
      let (o, calls') := handle e n (k res) in (o, (calls ++ calls')%list)
  end.

(** The same for the handlers of lists and reviews. *)
Fixpoint handleProg (e : Env) (n : nat) (p : api.Prog)
  : Outcome * list store.Call :=
  match p with
  | api.Respond r => (Replied (api.WriteJSON r), [])
  | api.Now k => handleProg e (S n) (k (clock e n))
  | api.StoreAll k =>
      let (res, calls) := store.perform (db e) store.All in
      match res with
      | (_, Some err) =>
          let (o, calls') := handleProg e n (k (api.Failed err)) in
          (o, (calls ++ calls')%list)
      | (all, None) =>
          let (o, calls') := handleProg e n (k (api.Got all)) in
          (o, (calls ++ calls')%list)
      end
  | api.StoreReview id remembered now k =>
      let (res, calls) := store.perform (db e) (store.Review id remembered now) in
      match res with
      | Panic msg => (Panicked msg, calls)
      | Err err =>
          let (o, calls') := handleProg e n (k (api.Failed err)) in
          (o, (calls ++ calls')%list)
      | Ok t =>
          let (o, calls') := handleProg e n (k (api.Got t)) in
          (o, (calls ++ calls')%list)
      end
  end.

End server.

(** ** A stored row through a sequence of requests *)

Module history.
Import time.

(** The row the INSERT of [Create] adds, every value stored as bound:
    [next_review_at] is bound as a time, [completed_at] is the NULL of the
    statement. *)
Definition inserted (t : tasks.Task) : store.Row :=
  {| store.tid := tasks.ID t;
     store.question := tasks.Question t;
     store.answer := tasks.Answer t;
     store.stage := tasks.Stage t;
     store.next := {| sql.Time := tasks.NextReviewAt t; sql.Valid := true |};
     store.createdAt := tasks.CreatedAt t;
     store.updatedAt := tasks.UpdatedAt t;
     store.completed := sql.null |}.

(** The row after the UPDATE of [Review], which sets four columns. *)
Definition reviewedRow (r : store.Row) (t : tasks.Task) : store.Row :=
  {| store.tid := store.tid r;
     store.question := store.question r;
     store.answer := store.answer r;
     store.stage := tasks.Stage t;
     store.next := store.nullTime (tasks.NextReviewAt t);
     store.createdAt := store.createdAt r;
     store.updatedAt := tasks.UpdatedAt t;
     store.completed := store.nullTimePtr (tasks.CompletedAt t) |}.

(** The row after the UPDATE of [UpdateContent], which sets three. *)
Definition editedRow (r : store.Row) (t : tasks.Task) : store.Row :=
  {| store.tid := store.tid r;
     store.question := tasks.Question t;
     store.answer := tasks.Answer t;
     store.stage := store.stage r;
     store.next := store.next r;
     store.createdAt := store.createdAt r;
     store.updatedAt := tasks.UpdatedAt t;
     store.completed := store.completed r |}.

Inductive Request : Type :=
| Reviewed (remembered : bool) (now : Time)
| Edited (question answer : string) (now : Time).

Definition requestTime (req : Request) : Time :=
  match req with
  | Reviewed _ now => now
  | Edited _ _ now => now
  end.

(** One request on the row of its task, the database calls succeeding: the
    row is scanned, the task changed in memory, the UPDATE committed. A
    request that ends in an error or a panic is rolled back and leaves the
    row as it was. *)
Definition step (req : Request) (r : store.Row) : store.Row :=
  match store.scanTask (store.ScanRow r) with
  | inr _ => r
  | inl t =>
      match req with
      | Reviewed remembered now =>
          match store.applyReview remembered now t with
          | Ok t' => reviewedRow r t'
          | _ => r
          end
      | Edited question answer now =>
          match tasks.UpdateContent question answer t with
          | (t1, None) => editedRow r (store.setUpdatedAt now t1)
          | (_, Some _) => r
          end
      end
  end.

Fixpoint replay (reqs : list Request) (r : store.Row) : store.Row :=
  match reqs with
  | [] => r
  | req :: rest => replay rest (step req r)
  end.

End history.

(** ** Names for the calls a store method makes *)

Module trace.

Definition insertTask (t : tasks.Task) : store.Call :=
  store.CallExec false store.InsertTask
    [ sql.VString (tasks.ID t); sql.VString (tasks.Question t);
      sql.VString (tasks.Answer t); sql.VInt (tasks.Stage t);
      sql.VTime (tasks.NextReviewAt t); sql.VTime (tasks.CreatedAt t);
      sql.VTime (tasks.UpdatedAt t) ].

Definition selectByID (id : string) : store.Call :=
  store.CallQueryRow false store.SelectByID [sql.VString id].

Definition selectForUpdate (id : string) : store.Call :=
  store.CallQueryRow true store.SelectByIDForUpdate [sql.VString id].

(** The UPDATE of [UpdateContent]: the three columns of [editedRow]. *)
Definition updateContent (t : tasks.Task) : store.Call :=
  store.CallExec true store.UpdateContentByID
    [ sql.VString (tasks.Question t); sql.VString (tasks.Answer t);
      sql.VTime (tasks.UpdatedAt t); sql.VString (tasks.ID t) ].

(** The UPDATE of [Review]: the four columns of [reviewedRow]. *)
Definition updateReview (t : tasks.Task) : store.Call :=
  store.CallExec true store.UpdateReviewByID
    [ sql.VInt (store.stage (store.columns t));
      sql.VNullTime (store.next (store.columns t));
      sql.VNullTime (store.completed (store.columns t));
      sql.VTime (store.updatedAt (store.columns t));
      sql.VString (store.tid (store.columns t)) ].

Definition deleteByID (id : string) : store.Call :=
  store.CallExec false store.DeleteByID [sql.VString id].

(** Calls that change the table. *)
Definition writes (c : store.Call) : bool :=
  match c with
  | store.CallExec _ _ _ => true
  | store.CallCommit => true
  | _ => false
  end.

End trace.

(** ** The web client: pages of a task list *)

Module web.

Definition pageSize : Z := 10.

(** What [renderList] shows for a non-empty list: the cards of one page, and
    the pager when there is more than one page. Page numbers are the
    integers the click handlers produce. *)
Record View (A : Type) : Type := {
  cards : list A;
  currentPage : Z;
  pageCount : Z;
  pager : bool;
  prevDisabled : bool;
  nextDisabled : bool
}.
Arguments cards {A} v.
Arguments currentPage {A} v.
Arguments pageCount {A} v.
Arguments pager {A} v.
Arguments prevDisabled {A} v.
Arguments nextDisabled {A} v.

(** [Math.ceil(n / d)] for a length [n] and [d = pageSize]. *)
Definition ceilDiv (n d : Z) : Z := - ((- n) / d).

(** [tasks.slice(start, stop)] for [0 <= start <= stop]. *)
Definition slice {A : Type} (l : list A) (start stop : Z) : list A :=
  firstn (Z.to_nat (stop - start)) (skipn (Z.to_nat start) l).

(** [None] is the placeholder shown for an empty list. *)
Definition renderList {A : Type} (tasks : list A) (page : Z) : option (View A) :=
  let len := Z.of_nat (List.length tasks) in
  if len =? 0 then None
  else
    let pageCount := Z.max 1 (ceilDiv len pageSize) in
    let currentPage := Z.min (Z.max 1 page) pageCount in
    let start := (currentPage - 1) * pageSize in
    Some {| cards := slice tasks start (start + pageSize);
            currentPage := currentPage;
            pageCount := pageCount;
            pager := 1 <? pageCount;
            prevDisabled := currentPage =? 1;
            nextDisabled := currentPage =? pageCount |}.

(** The page asked for by a click on an enabled button of the pager. *)
Inductive Click : Type := Prev | Next.

Definition onClick {A : Type} (v : View A) (c : Click) : option Z :=
  if negb (pager v) then None
  else
    match c with
    | Prev => if prevDisabled v then None else Some (currentPage v - 1)
    | Next => if nextDisabled v then None else Some (currentPage v + 1)
    end.

(** The cards of the pages [first], [first + 1], ..., [count] pages in all. *)
Fixpoint cardsFrom {A : Type} (tasks : list A) (first : Z) (count : nat)
  : list (list A) :=
  match count with
  | O => []
  | S count' =>
      match renderList tasks first with
      | Some v => cards v :: cardsFrom tasks (first + 1) count'
      | None => []
      end
  end.

End web.

(** ** More sample data *)

Module fixtures.
Import time tasks samples.

Definition sample_row : store.Row := store.columns (sample_task 2 900 None).

(** A database holding [sample_row] under its identifier, where every
    statement succeeds. *)
Definition healthy : store.Database :=
  {| store.onBeginTx := None;
     store.onExec := fun _ _ _ => store.ExecDone (inl 1);
     store.onQueryRow := fun _ _ args =>
       match args with
       | [sql.VString id] =>
           if String.eqb id "0123456789abcdef01234567"
           then store.ScanRow sample_row
           else store.ScanFailed sql.ErrNoRows
       | _ => store.ScanFailed (sql.ErrDriver "bad arguments")
       end;
     store.onQuery := fun _ =>
       store.QueryRows (map (fun t => store.ScanRow (store.columns t)) stored) None;
     store.onCommit := None |}.

Definition sample_env : server.Env :=
  {| server.clock := fun n => 1000 + Z.of_nat n;
     server.db := healthy;
     server.rand := entropy |}.

Definition sample_backend : api.Backend :=
  {| api.time_now := fun n => 1000 + Z.of_nat n;
     api.onCreate := fun _ _ _ => api.Failed (ErrExternal "connection refused");
     api.onGet := fun id =>
       if String.eqb id "0123456789abcdef01234567"
       then api.Got (sample_task 2 900 None) else api.Failed ErrNotFound;
     api.onUpdateContent := fun _ _ _ _ => api.Failed required;
     api.onDelete := fun id =>
       if String.eqb id "0123456789abcdef01234567" then None else Some ErrNotFound |}.

Definition blank_question : api.createTaskRequest :=
  {| api.reqQuestion := "   "; api.reqAnswer := "x" |}.

Definition twenty_three : list Z := map Z.of_nat (seq 0 23).

End fixtures.

(** * Properties *)

Import time tasks samples.

(** ** The ladder *)

Lemma TotalStages_eq : TotalStages = 8.
Proof. reflexivity. Qed.

Lemma index_first : index StageDurations 0 = Ok (5 * Minute).
Proof. reflexivity. Qed.

Lemma int_wrap_small (z : Z) : - 2 ^ 63 <= z < 2 ^ 63 -> int_wrap z = z.
Proof.
  intros H. unfold int_wrap.
  rewrite Z.mod_small by lia. lia.
Qed.

(** Inside the ladder the index expression yields a positive duration. *)
Lemma index_in_range (i : Z) :
  0 <= i < TotalStages ->
  exists d, index StageDurations i = Ok d /\ 0 < d.
Proof.
  rewrite TotalStages_eq. intros H.
  assert (i = 0 \/ i = 1 \/ i = 2 \/ i = 3 \/ i = 4 \/ i = 5 \/ i = 6 \/ i = 7)
    as Hi by lia.
  repeat destruct Hi as [-> | Hi]; try subst i;
    eexists; (split; [reflexivity | reflexivity]).
Qed.

Lemma index_out_of_range (i : Z) :
  i < 0 \/ TotalStages <= i ->
  index StageDurations i = Panic "index out of range".
Proof.
  rewrite TotalStages_eq. intros H. unfold index.
  change (Z.of_nat (List.length StageDurations)) with 8.
  destruct ((0 <=? i) && (i <? 8)) eqn:E; [| reflexivity].
  apply andb_true_iff in E as [E1 E2].
  apply Z.leb_le in E1. apply Z.ltb_lt in E2. lia.
Qed.

Lemma index_at_least_second (i : Z) (d : Duration) :
  index StageDurations i = Ok d -> Second <= d <= 168 * Hour.
Proof.
  intros H.
  destruct (Z_lt_ge_dec i 0) as [Hneg | Hnn];
    [rewrite index_out_of_range in H by (left; exact Hneg); discriminate |].
  destruct (Z_lt_ge_dec i TotalStages) as [Hlt | Hge];
    [| rewrite index_out_of_range in H by (right; lia); discriminate].
  rewrite TotalStages_eq in Hlt.
  rewrite <- (Z2Nat.id i) in H by lia.
  assert (Z.to_nat i < 8)%nat as Hk by lia.
  revert H Hk. generalize (Z.to_nat i) as k. intros k H Hk.
  do 8 (destruct k as [| k];
        [cbn in H; injection H as <-;
         unfold Hour, Minute, Second, Nanosecond; lia |]).
  lia.
Qed.

(** ** Adding a duration to a time *)

Lemma int_wrap_range (z : Z) : - 2 ^ 63 <= int_wrap z < 2 ^ 63.
Proof.
  unfold int_wrap.
  pose proof (Z.mod_pos_bound (z + 2 ^ 63) (2 ^ 64) ltac:(lia)). lia.
Qed.

Lemma addSec_exact (s d : Z) :
  - 2 ^ 63 <= s + d < 2 ^ 63 -> addSec s d = s + d.
Proof.
  intros H. unfold addSec. rewrite int_wrap_small by exact H.
  destruct (Z.ltb_spec s (s + d)), (Z.ltb_spec 0 d); cbn [Bool.eqb]; lia.
Qed.

Lemma addSec_forward (s d : Z) : 0 <= s -> 0 < d -> 0 < addSec s d.
Proof.
  intros Hs Hd. unfold addSec, maxSec.
  destruct (Z.ltb_spec s (int_wrap (s + d))), (Z.ltb_spec 0 d);
    cbn [Bool.eqb]; lia.
Qed.

Lemma split_time (t : Time) :
  t = sec t * nsPerSec + nsec t /\ 0 <= nsec t < nsPerSec.
Proof.
  unfold sec, nsec, nsPerSec.
  pose proof (Z.div_mod t 1000000000 ltac:(lia)).
  pose proof (Z.mod_pos_bound t 1000000000 ltac:(lia)). lia.
Qed.

Lemma split_duration (d : Duration) :
  d = Z.quot d nsPerSec * nsPerSec + Z.rem d nsPerSec /\
  - nsPerSec < Z.rem d nsPerSec < nsPerSec /\
  (0 <= d -> 0 <= Z.rem d nsPerSec /\ 0 <= Z.quot d nsPerSec) /\
  (nsPerSec <= d -> 1 <= Z.quot d nsPerSec).
Proof.
  unfold nsPerSec.
  pose proof (Z.quot_rem' d 1000000000) as Hqr.
  pose proof (Z.rem_bound_abs d 1000000000 ltac:(lia)) as Habs.
  split; [lia |]. split; [lia |]. split.
  - intros Hd. pose proof (Z.rem_bound_pos d 1000000000 Hd ltac:(lia)).
    pose proof (Z.quot_pos d 1000000000 Hd ltac:(lia)). lia.
  - intros Hd. pose proof (Z.rem_bound_pos d 1000000000 ltac:(lia) ltac:(lia)).
    lia.
Qed.

Lemma sec_of_sum (s n : Z) : 0 <= n < nsPerSec -> sec (s * nsPerSec + n) = s.
Proof.
  intros Hn. unfold sec. symmetry.
  apply (Z.div_unique _ _ s n); unfold nsPerSec in *; lia.
Qed.

(** Where the sum is an instant a [Time] can hold, [Add] is the sum. *)
Lemma Add_exact (t : Time) (d : Duration) :
  inRange t -> inRange (t + d) -> Add t d = t + d.
Proof.
  unfold inRange, maxSec. intros Ht Hsum.
  destruct (split_time t) as (Et & Hn).
  destruct (split_duration d) as (Ed & Hr & _).
  unfold Add, at_.
  set (s := sec t) in *. set (n := nsec t) in *.
  set (q := Z.quot d nsPerSec) in *. set (r := Z.rem d nsPerSec) in *.
  destruct (Z.leb_spec nsPerSec (n + r)) as [Hhi | Hlo].
  - assert (sec (t + d) = s + (q + 1)) as E.
    { rewrite <- (sec_of_sum (s + (q + 1)) (n + r - nsPerSec)) by lia.
      f_equal. lia. }
    rewrite addSec_exact by lia. lia.
  - destruct (Z.ltb_spec (n + r) 0) as [Hneg | Hpos].
    + assert (sec (t + d) = s + (q - 1)) as E.
      { rewrite <- (sec_of_sum (s + (q - 1)) (n + r + nsPerSec)) by lia.
        f_equal. lia. }
      rewrite addSec_exact by lia. lia.
    + assert (sec (t + d) = s + q) as E.
      { rewrite <- (sec_of_sum (s + q) (n + r)) by lia. f_equal. lia. }
      rewrite addSec_exact by lia. lia.
Qed.

(** From the zero time on, a second or more later is after the zero time,
    saturated or not. *)
Lemma Add_after_zero (t : Time) (d : Duration) :
  zero <= t -> Second <= d -> zero < Add t d.
Proof.
  unfold zero, Second, Nanosecond. intros Ht Hd.
  destruct (split_time t) as (Et & Hn).
  destruct (split_duration d) as (Ed & Hr & Hd0 & Hd1).
  destruct (Hd0 ltac:(lia)) as (Hr0 & Hq0).
  specialize (Hd1 ltac:(unfold nsPerSec; lia)).
  assert (0 <= sec t) as Hs by (unfold sec, nsPerSec; apply Z.div_pos; lia).
  unfold Add, at_.
  destruct (Z.leb_spec nsPerSec (nsec t + Z.rem d nsPerSec)) as [Hhi | Hlo].
  - pose proof (addSec_forward (sec t) (Z.quot d nsPerSec + 1) Hs ltac:(lia)).
    unfold nsPerSec in *. nia.
  - destruct (Z.ltb_spec (nsec t + Z.rem d nsPerSec) 0) as [Hneg | Hpos]; [lia |].
    pose proof (addSec_forward (sec t) (Z.quot d nsPerSec) Hs ltac:(lia)).
    unfold nsPerSec in *. nia.
Qed.

Lemma addSec_min (s k : Z) :
  - 2 ^ 63 <= s <= maxSec -> 0 < k < 2 ^ 63 ->
  addSec s k = Z.min (s + k) maxSec.
Proof.
  unfold maxSec. intros Hs Hk.
  destruct (Z_le_gt_dec (s + k) (2 ^ 63 - 1)) as [Hfit | Hover].
  - rewrite addSec_exact by lia. lia.
  - assert (int_wrap (s + k) = s + k - 2 ^ 64) as E.
    { unfold int_wrap.
      replace (s + k + 2 ^ 63) with (s + k - 2 ^ 63 + 1 * 2 ^ 64) by lia.
      rewrite Z.mod_add by lia. rewrite Z.mod_small by lia. lia. }
    unfold addSec, maxSec. rewrite E.
    destruct (Z.ltb_spec s (s + k - 2 ^ 64)), (Z.ltb_spec 0 k);
      cbn [Bool.eqb]; lia.
Qed.

(** A whole number of seconds later: the seconds saturate, the nanoseconds
    stay. *)
Lemma Add_whole (t : Time) (k : Z) :
  inRange t -> 0 < k < 2 ^ 63 ->
  Add t (k * nsPerSec) = at_ (Z.min (sec t + k) maxSec) (nsec t).
Proof.
  intros Ht Hk. destruct (split_time t) as (_ & Hn).
  unfold Add. cbv zeta.
  rewrite Z.quot_mul by (unfold nsPerSec; lia).
  rewrite Z.rem_mul by (unfold nsPerSec; lia).
  rewrite Z.add_0_r.
  destruct (Z.leb_spec nsPerSec (nsec t)) as [Hhi | _]; [lia |].
  destruct (Z.ltb_spec (nsec t) 0) as [Hneg | _]; [lia |].
  rewrite addSec_min by assumption. reflexivity.
Qed.

Lemma Add_monotone (t : Time) (k1 k2 : Z) :
  inRange t -> 0 < k1 <= k2 -> k2 < 2 ^ 63 ->
  Add t (k1 * nsPerSec) <= Add t (k2 * nsPerSec).
Proof.
  intros Ht Hk1 Hk2. rewrite !Add_whole by (try assumption; lia).
  unfold at_, nsPerSec. lia.
Qed.

(** Every rung of the ladder is a whole number of seconds, five minutes or
    more. *)
Lemma index_whole_seconds (i : Z) (d : Duration) :
  index StageDurations i = Ok d ->
  exists k, 300 <= k < 2 ^ 63 /\ d = k * nsPerSec.
Proof.
  intros H.
  destruct (Z_lt_ge_dec i 0) as [Hneg | Hnn];
    [rewrite index_out_of_range in H by (left; exact Hneg); discriminate |].
  destruct (Z_lt_ge_dec i TotalStages) as [Hlt | Hge];
    [| rewrite index_out_of_range in H by (right; lia); discriminate].
  rewrite TotalStages_eq in Hlt.
  rewrite <- (Z2Nat.id i) in H by lia.
  assert (Z.to_nat i < 8)%nat as Hk by lia.
  revert H Hk. generalize (Z.to_nat i) as k. intros k H Hk.
  do 8 (destruct k as [| k];
        [cbn in H; injection H as <-;
         match goal with
         | |- exists _, _ /\ ?v = _ => exists (v / nsPerSec)
         end;
         split; [split; [vm_compute; discriminate | vm_compute; reflexivity]
                | vm_compute; reflexivity] |]).
  lia.
Qed.

(** At the last second of the range, five minutes later is the same
    instant, and so is ten minutes later. *)
Example Add_saturates :
  inRange last_second /\
  Add last_second (5 * Minute) = last_second /\
  Add last_second (10 * Minute) = last_second /\
  ~ inRange (last_second + 5 * Minute).
Proof.
  split; [unfold inRange; vm_compute; split; discriminate |].
  split; [vm_compute; reflexivity |]. split; [vm_compute; reflexivity |].
  unfold inRange. vm_compute. intros [_ H]. apply H. reflexivity.
Qed.

(** ** Trimming runs to the end *)

(** The fuel given by [TrimSpace] (the length) is enough: what is left
    starts, respectively ends, with no white-space rune. *)
Lemma trimLeft_done (fuel : nat) :
  forall s, (List.length s <= fuel)%nat ->
            strings.spaceWidth (strings.trimLeft fuel s) = 0%nat.
Proof.
  induction fuel as [| fuel IH]; intros s Hlen.
  - destruct s; [reflexivity | cbn in Hlen; lia].
  - cbn [strings.trimLeft].
    destruct (strings.spaceWidth s) as [| w] eqn:Hw; [exact Hw |].
    apply IH. rewrite length_skipn.
    destruct s; [discriminate Hw | cbn [List.length] in *; lia].
Qed.

Lemma trimRightRev_done (fuel : nat) :
  forall r, (List.length r <= fuel)%nat ->
            strings.spaceWidthLast (strings.trimRightRev fuel r) = 0%nat.
Proof.
  induction fuel as [| fuel IH]; intros r Hlen.
  - destruct r; [reflexivity | cbn in Hlen; lia].
  - cbn [strings.trimRightRev].
    destruct (strings.spaceWidthLast r) as [| w] eqn:Hw; [exact Hw |].
    apply IH. rewrite length_skipn.
    destruct r; [discriminate Hw | cbn [List.length] in *; lia].
Qed.

Example TrimSpace_samples :
  strings.TrimSpace "  hello world  " = "hello world" /\
  strings.TrimSpace "   " = "" /\
  strings.bytes
    (strings.TrimSpace
       (strings.of_bytes [32; 194; 160; 226; 128; 128; 65; 32; 66; 227; 128; 128; 10]))
  = [65; 32; 66] /\
  strings.bytes (strings.TrimSpace (strings.of_bytes [226; 128; 128; 128])) = [128].
Proof. repeat split. Qed.

(** ** MarkRemembered, case by case *)

Lemma remembered_completed (now : Time) (t : Task) :
  CompletedAt t <> None -> MarkRemembered now t = Ok t.
Proof.
  intros H. unfold MarkRemembered.
  destruct (CompletedAt t); [reflexivity | congruence].
Qed.

Lemma remembered_last (now : Time) (t : Task) :
  CompletedAt t = None ->
  TotalStages - 1 <= Stage t ->
  MarkRemembered now t =
  Ok {| ID := ID t; Question := Question t; Answer := Answer t;
        Stage := TotalStages; NextReviewAt := zero;
        CreatedAt := CreatedAt t; UpdatedAt := now;
        CompletedAt := Some now |}.
Proof.
  intros Hc Hs. unfold MarkRemembered. rewrite Hc. cbn [isSet].
  rewrite int_wrap_small by (rewrite TotalStages_eq; lia).
  destruct (TotalStages - 1 <=? Stage t) eqn:E; [reflexivity |].
  apply Z.leb_gt in E. lia.
Qed.

Lemma remembered_next (now : Time) (t : Task) :
  CompletedAt t = None ->
  0 <= Stage t < TotalStages - 1 ->
  exists d,
    index StageDurations (Stage t + 1) = Ok d /\ 0 < d /\
    MarkRemembered now t =
    Ok {| ID := ID t; Question := Question t; Answer := Answer t;
          Stage := Stage t + 1; NextReviewAt := Add now d;
          CreatedAt := CreatedAt t; UpdatedAt := now;
          CompletedAt := None |}.
Proof.
  intros Hc Hs. rewrite TotalStages_eq in Hs.
  destruct (index_in_range (Stage t + 1)) as (d & Hd & Hpos);
    [rewrite TotalStages_eq; lia |].
  exists d. split; [exact Hd | split; [exact Hpos |]].
  unfold MarkRemembered. rewrite Hc. cbn [isSet].
  rewrite int_wrap_small by (rewrite TotalStages_eq; lia).
  destruct (TotalStages - 1 <=? Stage t) eqn:E.
  - apply Z.leb_le in E. rewrite TotalStages_eq in E. lia.
  - rewrite int_wrap_small by lia. rewrite Hd. reflexivity.
Qed.

(** C1, as amended. For a task that is not completed and whose stage is in
    [0, N-1], [MarkRemembered now] returns normally with [updatedAt = now];
    at the last stage [N-1] it sets [stage = N], clears [nextReviewAt] to the
    zero time and sets [completedAt = now]; otherwise it increments the stage
    and sets [nextReviewAt = now.Add(StageDurations[stage])] with the
    incremented stage as the index: that is [now + StageDurations[stage]]
    whenever this instant is one a [time.Time] can hold. The step from 0 to
    1 evaluates [StageDurations[1]] (10 minutes), not [StageDurations[0]],
    and where [now + 10m] can be held, [nextReviewAt] is [now + 10m] and not
    [now + 5m]. For a task with [completedAt] set the call changes
    nothing. *)
Theorem MarkRemembered_spec (now : Time) (t : Task) :
  (CompletedAt t = None -> 0 <= Stage t <= TotalStages - 1 ->
   exists t',
     MarkRemembered now t = Ok t' /\
     UpdatedAt t' = now /\
     (Stage t = TotalStages - 1 ->
        Stage t' = TotalStages /\ NextReviewAt t' = zero /\
        CompletedAt t' = Some now) /\
     (Stage t <> TotalStages - 1 ->
        Stage t' = Stage t + 1 /\ CompletedAt t' = None /\
        exists d, index StageDurations (Stage t') = Ok d /\
                  NextReviewAt t' = Add now d /\
                  (inRange now -> inRange (now + d) ->
                   NextReviewAt t' = now + d)) /\
     (Stage t = 0 ->
        index StageDurations (Stage t') = Ok (10 * Minute) /\
        NextReviewAt t' = Add now (10 * Minute) /\
        (inRange now -> inRange (now + 10 * Minute) ->
         NextReviewAt t' = now + 10 * Minute /\
         NextReviewAt t' <> now + 5 * Minute)))
  /\
  (CompletedAt t <> None -> MarkRemembered now t = Ok t).
Proof.
  split; [| apply remembered_completed].
  intros Hc Hs.
  destruct (Z.eq_dec (Stage t) (TotalStages - 1)) as [Hlast | Hmid].
  - eexists. split; [apply remembered_last; [exact Hc | lia] |].
    cbn [UpdatedAt Stage NextReviewAt CompletedAt].
    repeat split; try congruence;
      rewrite TotalStages_eq in Hlast; intros; lia.
  - destruct (remembered_next now t Hc) as (d & Hd & _ & Hrun); [lia |].
    eexists. split; [exact Hrun |].
    cbn [UpdatedAt Stage NextReviewAt CompletedAt].
    split; [reflexivity |]. split; [intros; contradiction |].
    split.
    + intros _. split; [reflexivity |]. split; [reflexivity |].
      exists d. split; [exact Hd |]. split; [reflexivity |].
      intros Hnow Hsum. apply Add_exact; assumption.
    + intros H0. rewrite H0 in Hd |- *.
      assert (d = 10 * Minute) as ->
          by (vm_compute in Hd; injection Hd as <-; reflexivity).
      split; [exact Hd |]. split; [reflexivity |].
      intros Hnow Hsum. rewrite Add_exact by assumption.
      split; [reflexivity |].
      unfold Minute, Second, Nanosecond. lia.
Qed.

Lemma MarkRemembered_spec_witness :
  CompletedAt (sample_task 0 300 None) = None /\
  0 <= Stage (sample_task 0 300 None) <= TotalStages - 1 /\
  (exists t',
     MarkRemembered 400 (sample_task 0 300 None) = Ok t' /\
     UpdatedAt t' = 400 /\
     (Stage (sample_task 0 300 None) = TotalStages - 1 ->
        Stage t' = TotalStages /\ NextReviewAt t' = zero /\
        CompletedAt t' = Some 400) /\
     (Stage (sample_task 0 300 None) <> TotalStages - 1 ->
        Stage t' = Stage (sample_task 0 300 None) + 1 /\ CompletedAt t' = None /\
        exists d, index StageDurations (Stage t') = Ok d /\
                  NextReviewAt t' = Add 400 d /\
                  (inRange 400 -> inRange (400 + d) ->
                   NextReviewAt t' = 400 + d)) /\
     (Stage (sample_task 0 300 None) = 0 ->
        index StageDurations (Stage t') = Ok (10 * Minute) /\
        NextReviewAt t' = Add 400 (10 * Minute) /\
        (inRange 400 -> inRange (400 + 10 * Minute) ->
         NextReviewAt t' = 400 + 10 * Minute /\
         NextReviewAt t' <> 400 + 5 * Minute))) /\
  (CompletedAt (sample_task 8 0 (Some 900)) <> None /\
   MarkRemembered 1000 (sample_task 8 0 (Some 900)) = Ok (sample_task 8 0 (Some 900))) /\
  inRange 400 /\ inRange (400 + 10 * Minute).
Proof.
  split; [reflexivity |].
  split; [vm_compute; split; discriminate |].
  split.
  - apply (proj1 (MarkRemembered_spec 400 (sample_task 0 300 None)));
      [reflexivity | vm_compute; split; discriminate].
  - split.
    + split; [discriminate |].
      apply (proj2 (MarkRemembered_spec 1000 (sample_task 8 0 (Some 900)))).
      discriminate.
    + split; unfold inRange; vm_compute; split; discriminate.
Defined.

(** C1 as stated fails: at the last second a [time.Time] can hold, the step
    from stage 0 to stage 1 leaves [nextReviewAt] at [now] itself, which is
    not [now + 10m], and is also what adding [StageDurations[0]] gives. *)
Lemma MarkRemembered_saturated_counterexample :
  inRange last_second /\
  MarkRemembered last_second (sample_task 0 300 None)
  = Ok {| ID := "0123456789abcdef01234567"; Question := "q"; Answer := "a";
          Stage := 1; NextReviewAt := last_second; CreatedAt := 100;
          UpdatedAt := last_second; CompletedAt := None |} /\
  last_second <> last_second + 10 * Minute /\
  last_second = Add last_second (5 * Minute).
Proof.
  split; [unfold inRange; vm_compute; split; discriminate |].
  split; [vm_compute; reflexivity |].
  split; [vm_compute; discriminate | vm_compute; reflexivity].
Qed.

(** ** NewTask *)

Lemma NewTask_rejects (question answer : string) (now : Time) (r : RandRead) :
  strings.TrimSpace question = "" \/ strings.TrimSpace answer = "" ->
  NewTask question answer now r = Err required.
Proof.
  intros H. unfold NewTask.
  destruct H as [-> | ->]; cbn [String.eqb orb]; [reflexivity |].
  rewrite orb_true_r. reflexivity.
Qed.

Lemma NewTask_accepts (question answer : string) (now : Time) (r : RandRead) :
  strings.TrimSpace question <> "" ->
  strings.TrimSpace answer <> "" ->
  NewTask question answer now r =
  match generateID r with
  | Ok id =>
      Ok {| ID := id;
            Question := strings.TrimSpace question;
            Answer := strings.TrimSpace answer;
            Stage := 0;
            NextReviewAt := Add now (5 * Minute);
            CreatedAt := now; UpdatedAt := now; CompletedAt := None |}
  | Err e => Err e
  | Panic m => Panic m
  end.
Proof.
  intros Hq Ha. unfold NewTask.
  apply String.eqb_neq in Hq. apply String.eqb_neq in Ha.
  rewrite Hq, Ha. cbn [orb].
  destruct (generateID r); reflexivity.
Qed.

Lemma generateID_outcome (r : RandRead) :
  match r with
  | RandFilled _ => exists id, generateID r = Ok id
  | RandFailed msg => generateID r = Err (ErrExternal msg)
  end.
Proof. destruct r; cbn; [eexists |]; reflexivity. Qed.

Lemma NewTask_shape (question answer : string) (now : Time) (r : RandRead)
      (t : Task) :
  NewTask question answer now r = Ok t ->
  strings.TrimSpace question <> "" /\ strings.TrimSpace answer <> "" /\
  Question t = strings.TrimSpace question /\
  Answer t = strings.TrimSpace answer /\
  Stage t = 0 /\ NextReviewAt t = Add now (5 * Minute) /\
  CreatedAt t = now /\ UpdatedAt t = now /\ CompletedAt t = None.
Proof.
  intros H.
  destruct (string_dec (strings.TrimSpace question) "") as [Eq | Nq];
    [rewrite NewTask_rejects in H by (left; exact Eq); discriminate |].
  destruct (string_dec (strings.TrimSpace answer) "") as [Ea | Na];
    [rewrite NewTask_rejects in H by (right; exact Ea); discriminate |].
  rewrite (NewTask_accepts _ _ _ _ Nq Na) in H.
  destruct (generateID r); try discriminate.
  injection H as <-. cbn. repeat split; assumption.
Qed.

(** C4, as amended. [NewTask] returns the validation error exactly when the
    question or the answer is empty after trimming white space. With both
    non-empty and an identifier generated, it returns a task at stage 0 with
    [nextReviewAt = now.Add(StageDurations[0])], which is
    [now + StageDurations[0]] whenever this instant is one a [time.Time] can
    hold, [createdAt = updatedAt = now], [completedAt] unset and the trimmed
    question and answer; and every task it returns has this form. *)
Theorem NewTask_spec (question answer : string) (now : Time) (r : RandRead) :
  (NewTask question answer now r = Err required <->
   strings.TrimSpace question = "" \/ strings.TrimSpace answer = "")
  /\
  (strings.TrimSpace question <> "" -> strings.TrimSpace answer <> "" ->
   forall bs, r = RandFilled bs ->
   exists t, NewTask question answer now r = Ok t)
  /\
  (forall t, NewTask question answer now r = Ok t ->
   Stage t = 0 /\
   index StageDurations 0 = Ok (5 * Minute) /\
   NextReviewAt t = Add now (5 * Minute) /\
   (inRange now -> inRange (now + 5 * Minute) ->
    NextReviewAt t = now + 5 * Minute) /\
   CreatedAt t = now /\ UpdatedAt t = now /\ CompletedAt t = None /\
   Question t = strings.TrimSpace question /\
   Answer t = strings.TrimSpace answer).
Proof.
  split; [| split].
  - split; [| apply NewTask_rejects].
    intros H.
    destruct (string_dec (strings.TrimSpace question) "") as [Eq | Nq];
      [left; exact Eq |].
    destruct (string_dec (strings.TrimSpace answer) "") as [Ea | Na];
      [right; exact Ea |].
    rewrite (NewTask_accepts _ _ _ _ Nq Na) in H.
    destruct r; cbn in H; discriminate.
  - intros Nq Na bs ->. rewrite (NewTask_accepts _ _ _ _ Nq Na).
    cbn. eexists. reflexivity.
  - intros t H. apply NewTask_shape in H.
    destruct H as (_ & _ & Hq & Ha & Hs & Hn & Hc & Hu & Hd).
    split; [exact Hs |]. split; [reflexivity |]. split; [exact Hn |].
    split; [intros Hnow Hsum; rewrite Hn; apply Add_exact; assumption |].
    repeat split; assumption.
Qed.

Lemma NewTask_spec_witness :
  strings.TrimSpace "  what is 2+2? " <> "" /\
  strings.TrimSpace "4" <> "" /\
  (exists t, NewTask "  what is 2+2? " "4" 1000 entropy = Ok t) /\
  (strings.TrimSpace "   " = "" \/ strings.TrimSpace "4" = "") /\
  NewTask "   " "4" 1000 entropy = Err required /\
  NewTask "q" "a" 100 entropy = Ok (sample_task 0 300000000100 None) /\
  inRange 100 /\ inRange (100 + 5 * Minute) /\
  NextReviewAt (sample_task 0 300000000100 None) = 100 + 5 * Minute.
Proof.
  split; [vm_compute; discriminate |].
  split; [vm_compute; discriminate |].
  split.
  - apply (proj1 (proj2 (NewTask_spec "  what is 2+2? " "4" 1000 entropy))
             ltac:(vm_compute; discriminate) ltac:(vm_compute; discriminate)
             _ eq_refl).
  - split; [left; reflexivity |].
    split.
    + apply (proj2 (proj1 (NewTask_spec "   " "4" 1000 entropy))).
      left. reflexivity.
    + assert (inRange 100) as H1
          by (unfold inRange; vm_compute; split; discriminate).
      assert (inRange (100 + 5 * Minute)) as H2
          by (unfold inRange; vm_compute; split; discriminate).
      split; [reflexivity |]. split; [exact H1 |]. split; [exact H2 |].
      exact (proj1 (proj2 (proj2 (proj2
               (proj2 (proj2 (NewTask_spec "q" "a" 100 entropy))
                  (sample_task 0 300000000100 None) eq_refl)))) H1 H2).
Defined.

(** C4 as stated fails: created at the last second a [time.Time] can hold,
    a task has [nextReviewAt = now], which is not [now + 5m]. *)
Lemma NewTask_saturated_counterexample :
  inRange last_second /\
  NewTask "q" "a" last_second entropy
  = Ok {| ID := "0123456789abcdef01234567"; Question := "q"; Answer := "a";
          Stage := 0; NextReviewAt := last_second; CreatedAt := last_second;
          UpdatedAt := last_second; CompletedAt := None |} /\
  last_second <> last_second + 5 * Minute.
Proof.
  split; [unfold inRange; vm_compute; split; discriminate |].
  split; [vm_compute; reflexivity | vm_compute; discriminate].
Qed.

Example NewTask_sample :
  NewTask "  what is 2+2? " "4" 1000 entropy =
  Ok {| ID := "0123456789abcdef01234567";
        Question := "what is 2+2?"; Answer := "4"; Stage := 0;
        NextReviewAt := 300000001000; CreatedAt := 1000; UpdatedAt := 1000;
        CompletedAt := None |}.
Proof. reflexivity. Qed.

(** ** MarkForgot *)

(** C5, as amended. For every task, completed or not, and every [now],
    [MarkForgot now] returns normally; it sets [stage = 0], clears
    [completedAt], sets [nextReviewAt = now.Add(StageDurations[0])], which
    is [now + StageDurations[0]] whenever this instant is one a [time.Time]
    can hold, and [updatedAt = now], and leaves the identifier, question,
    answer and [createdAt] as they were. *)
Theorem MarkForgot_spec (now : Time) (t : Task) :
  index StageDurations 0 = Ok (5 * Minute) /\
  MarkForgot now t =
  Ok {| ID := ID t; Question := Question t; Answer := Answer t;
        Stage := 0; NextReviewAt := Add now (5 * Minute);
        CreatedAt := CreatedAt t; UpdatedAt := now;
        CompletedAt := None |} /\
  (inRange now -> inRange (now + 5 * Minute) ->
   Add now (5 * Minute) = now + 5 * Minute).
Proof.
  split; [reflexivity |]. split; [reflexivity |].
  intros Hnow Hsum. apply Add_exact; assumption.
Qed.

Lemma MarkForgot_spec_witness :
  inRange 2000 /\ inRange (2000 + 5 * Minute) /\
  MarkForgot 2000 (sample_task 8 0 (Some 900)) =
  Ok {| ID := ID (sample_task 8 0 (Some 900));
        Question := Question (sample_task 8 0 (Some 900));
        Answer := Answer (sample_task 8 0 (Some 900));
        Stage := 0; NextReviewAt := Add 2000 (5 * Minute);
        CreatedAt := CreatedAt (sample_task 8 0 (Some 900)); UpdatedAt := 2000;
        CompletedAt := None |} /\
  Add 2000 (5 * Minute) = 2000 + 5 * Minute.
Proof.
  assert (inRange 2000) as H1
      by (unfold inRange; vm_compute; split; discriminate).
  assert (inRange (2000 + 5 * Minute)) as H2
      by (unfold inRange; vm_compute; split; discriminate).
  split; [exact H1 |]. split; [exact H2 |].
  split.
  - exact (proj1 (proj2 (MarkForgot_spec 2000 (sample_task 8 0 (Some 900))))).
  - exact (proj2 (proj2 (MarkForgot_spec 2000 (sample_task 8 0 (Some 900))))
             H1 H2).
Defined.

(** C5 as stated fails: forgotten at the last second a [time.Time] can
    hold, a task has [nextReviewAt = now], which is not [now + 5m]. *)
Lemma MarkForgot_saturated_counterexample :
  inRange last_second /\
  MarkForgot last_second (sample_task 3 900 None)
  = Ok {| ID := "0123456789abcdef01234567"; Question := "q"; Answer := "a";
          Stage := 0; NextReviewAt := last_second; CreatedAt := 100;
          UpdatedAt := last_second; CompletedAt := None |} /\
  last_second <> last_second + 5 * Minute.
Proof.
  split; [unfold inRange; vm_compute; split; discriminate |].
  split; [vm_compute; reflexivity | vm_compute; discriminate].
Qed.

Example MarkForgot_completed :
  MarkForgot 2000 (sample_task 8 0 (Some 900)) =
  Ok {| ID := "0123456789abcdef01234567"; Question := "q"; Answer := "a";
        Stage := 0; NextReviewAt := 300000002000; CreatedAt := 100;
        UpdatedAt := 2000; CompletedAt := None |}.
Proof. reflexivity. Qed.

(** ** Status *)

Lemma Status_cases (t : Task) (now : Time) :
  (CompletedAt t <> None \/ TotalStages <= Stage t) /\ Status t now = "done"
  \/
  (CompletedAt t = None /\ Stage t < TotalStages /\
   NextReviewAt t <= now /\ Status t now = "ready")
  \/
  (CompletedAt t = None /\ Stage t < TotalStages /\
   now < NextReviewAt t /\ Status t now = "pending").
Proof.
  unfold Status, After.
  destruct (CompletedAt t) as [c |] eqn:Hc; cbn [isSet orb].
  - left. split; [left; discriminate | reflexivity].
  - destruct (TotalStages <=? Stage t) eqn:Hs.
    + apply Z.leb_le in Hs. left. split; [right; exact Hs | reflexivity].
    + apply Z.leb_gt in Hs. right.
      destruct (now <? NextReviewAt t) eqn:Hn; cbn [negb].
      * apply Z.ltb_lt in Hn. right. repeat split; assumption.
      * apply Z.ltb_ge in Hn. left. repeat split; assumption.
Qed.

(** C3. For every task and every [now]: [Status now] is "done" exactly when
    [completedAt] is set or [stage >= N]; when neither holds it is "ready"
    exactly when [nextReviewAt <= now] and "pending" exactly when
    [nextReviewAt > now]; and it is always one of the three. *)
Theorem Status_spec (t : Task) (now : Time) :
  (Status t now = "done" <-> CompletedAt t <> None \/ TotalStages <= Stage t)
  /\
  (Status t now = "ready" <->
   ~ (CompletedAt t <> None \/ TotalStages <= Stage t) /\ NextReviewAt t <= now)
  /\
  (Status t now = "pending" <->
   ~ (CompletedAt t <> None \/ TotalStages <= Stage t) /\ now < NextReviewAt t)
  /\
  (Status t now = "done" \/ Status t now = "ready" \/ Status t now = "pending").
Proof.
  destruct (Status_cases t now)
    as [[Hd ->] | [(Hc & Hs & Hn & ->) | (Hc & Hs & Hn & ->)]].
  - repeat split; try discriminate; try tauto.
    all: intros [Hnot _]; tauto.
  - assert (~ (CompletedAt t <> None \/ TotalStages <= Stage t)) as Hnot
        by (intros [H | H]; [congruence | lia]).
    repeat split; try discriminate; try tauto.
    all: try (intros [_ H]; lia).
  - assert (~ (CompletedAt t <> None \/ TotalStages <= Stage t)) as Hnot
        by (intros [H | H]; [congruence | lia]).
    repeat split; try discriminate; try tauto.
    all: try (intros [_ H]; lia).
Qed.

(** ** UpdateContent *)

(** C7. [UpdateContent] returns an error exactly when the question or the
    answer is empty after trimming; when it does, the task is the one it was
    given; when it does not, the task has the trimmed question and answer and
    every other field, [updatedAt] included, as before. *)
Theorem UpdateContent_spec (question answer : string) (t : Task) :
  (snd (UpdateContent question answer t) <> None <->
   strings.TrimSpace question = "" \/ strings.TrimSpace answer = "")
  /\
  (snd (UpdateContent question answer t) <> None ->
   UpdateContent question answer t = (t, Some required))
  /\
  (snd (UpdateContent question answer t) = None ->
   fst (UpdateContent question answer t) =
   {| ID := ID t;
      Question := strings.TrimSpace question;
      Answer := strings.TrimSpace answer;
      Stage := Stage t; NextReviewAt := NextReviewAt t;
      CreatedAt := CreatedAt t; UpdatedAt := UpdatedAt t;
      CompletedAt := CompletedAt t |}).
Proof.
  unfold UpdateContent.
  destruct (String.eqb_spec (strings.TrimSpace question) "") as [Eq | Nq];
    cbn [orb fst snd].
  - repeat split; try congruence; auto.
  - destruct (String.eqb_spec (strings.TrimSpace answer) "") as [Ea | Na];
      cbn [fst snd].
    + repeat split; try congruence; auto.
    + repeat split; try congruence; tauto.
Qed.

Lemma UpdateContent_spec_witness :
  snd (UpdateContent "" "x" (sample_task 3 500 None)) <> None /\
  UpdateContent "" "x" (sample_task 3 500 None)
  = (sample_task 3 500 None, Some required) /\
  snd (UpdateContent " new q " "new a" (sample_task 3 500 None)) = None /\
  fst (UpdateContent " new q " "new a" (sample_task 3 500 None)) =
  {| ID := ID (sample_task 3 500 None);
     Question := strings.TrimSpace " new q ";
     Answer := strings.TrimSpace "new a";
     Stage := 3; NextReviewAt := 500;
     CreatedAt := 100; UpdatedAt := 100;
     CompletedAt := None |}.
Proof.
  split; [vm_compute; discriminate |].
  split.
  - apply (proj1 (proj2 (UpdateContent_spec "" "x" (sample_task 3 500 None)))).
    vm_compute. discriminate.
  - split; [reflexivity |].
    apply (proj2 (proj2
             (UpdateContent_spec " new q " "new a" (sample_task 3 500 None)))).
    reflexivity.
Defined.

(** ** The invariant of reachable tasks *)

Lemma forgot_result (now : Time) (t t' : Task) :
  MarkForgot now t = Ok t' ->
  Stage t' = 0 /\ CompletedAt t' = None /\ NextReviewAt t' = Add now (5 * Minute).
Proof.
  unfold MarkForgot. rewrite index_first. cbn [bind].
  intros H. injection H as <-. repeat split.
Qed.

Lemma update_result (question answer : string) (t t' : Task) :
  UpdateContent question answer t = (t', None) ->
  Stage t' = Stage t /\ CompletedAt t' = CompletedAt t /\
  NextReviewAt t' = NextReviewAt t.
Proof.
  unfold UpdateContent.
  destruct (String.eqb (strings.TrimSpace question) ""
            || String.eqb (strings.TrimSpace answer) ""); [discriminate |].
  intros H. injection H as <-. repeat split.
Qed.

Lemma reachable_invariant (okNow : Time -> Prop) (t : Task) :
  reachable okNow t ->
  (CompletedAt t <> None <-> Stage t = TotalStages) /\
  0 <= Stage t <= TotalStages /\
  (CompletedAt t <> None -> NextReviewAt t = zero) /\
  ((forall now, okNow now -> zero <= now) ->
   CompletedAt t = None -> zero < NextReviewAt t).
Proof.
  induction 1 as [question answer now r t Hok Hnew
                 | now t t' Hok Hreach IH Hrun
                 | now t t' Hok Hreach IH Hrun
                 | question answer t t' Hreach IH Hrun].
  - apply NewTask_shape in Hnew.
    destruct Hnew as (_ & _ & _ & _ & Hs & Hn & _ & _ & Hc).
    rewrite Hs, Hc, Hn, TotalStages_eq.
    split; [split; [intros H; exfalso; apply H; reflexivity | intros H; lia] |].
    split; [lia |].
    split; [intros H; exfalso; apply H; reflexivity |].
    intros Hall _. apply Add_after_zero; [apply Hall; exact Hok |].
    unfold Minute, Second, Nanosecond. lia.
  - destruct IH as (Hiff & Hrange & Hzero & Hpos).
    destruct (CompletedAt t) as [c |] eqn:Hc.
    + rewrite remembered_completed in Hrun by congruence.
      injection Hrun as <-. rewrite Hc. repeat split; try tauto; try lia.
    + assert (Stage t <> TotalStages) as Hne
          by (intros E; apply Hiff in E; congruence).
      destruct (Z.eq_dec (Stage t) (TotalStages - 1)) as [Hlast | Hmid].
      * rewrite remembered_last in Hrun by (try assumption; lia).
        injection Hrun as <-. cbn [Stage CompletedAt NextReviewAt].
        rewrite TotalStages_eq.
        repeat split; try congruence; try lia.
      * destruct (remembered_next now t Hc) as (d & Hindex & Hd & Hrun'); [lia |].
        rewrite Hrun' in Hrun. injection Hrun as <-.
        cbn [Stage CompletedAt NextReviewAt].
        rewrite TotalStages_eq in *.
        split; [split; [intros H; exfalso; apply H; reflexivity | intros H; lia] |].
        split; [lia |].
        split; [intros H; exfalso; apply H; reflexivity |].
        intros Hall _. apply Add_after_zero; [apply Hall; exact Hok |].
        apply (index_at_least_second _ _ Hindex).
  - apply forgot_result in Hrun. destruct Hrun as (Hs & Hc & Hn).
    rewrite Hs, Hc, Hn, TotalStages_eq.
    split; [split; [intros H; exfalso; apply H; reflexivity | intros H; lia] |].
    split; [lia |].
    split; [intros H; exfalso; apply H; reflexivity |].
    intros Hall _. apply Add_after_zero; [apply Hall; exact Hok |].
    unfold Minute, Second, Nanosecond. lia.
  - apply update_result in Hrun. destruct Hrun as (Hs & Hc & Hn).
    rewrite Hs, Hc, Hn. exact IH.
Qed.

(** C2, as amended. For every task reachable from [NewTask] by
    [MarkRemembered], [MarkForgot] and successful [UpdateContent] calls in
    which every [now] is Go's zero time or later: [completedAt] is set if and
    only if [stage = N]; [nextReviewAt] is the zero time exactly when
    [completedAt] is set, and is later than the zero time otherwise; and the
    stage is in [0, N]. *)
Theorem reachable_spec (t : Task) :
  reachable (fun now => zero <= now) t ->
  (CompletedAt t <> None <-> Stage t = TotalStages) /\
  (NextReviewAt t = zero <-> CompletedAt t <> None) /\
  (CompletedAt t = None -> zero < NextReviewAt t) /\
  0 <= Stage t <= TotalStages /\
  TotalStages = 8.
Proof.
  intros H. apply reachable_invariant in H.
  destruct H as (Hiff & Hrange & Hzero & Hpos).
  specialize (Hpos (fun now H => H)).
  repeat split; try tauto.
  intros Hz Hc. apply Hpos in Hc. unfold zero in *. lia.
Qed.

Lemma reachable_spec_witness :
  reachable (fun now => zero <= now) (sample_task 0 300000000100 None) /\
  (CompletedAt (sample_task 0 300000000100 None) <> None <->
   Stage (sample_task 0 300000000100 None) = TotalStages) /\
  (NextReviewAt (sample_task 0 300000000100 None) = zero <->
   CompletedAt (sample_task 0 300000000100 None) <> None) /\
  (CompletedAt (sample_task 0 300000000100 None) = None ->
   zero < NextReviewAt (sample_task 0 300000000100 None)) /\
  0 <= Stage (sample_task 0 300000000100 None) <= TotalStages /\
  TotalStages = 8.
Proof.
  assert (reachable (fun now => zero <= now) (sample_task 0 300000000100 None))
    as R.
  { apply (reach_update _ "q" "a"
             {| ID := "0123456789abcdef01234567";
                Question := "what is 2+2?"; Answer := "4"; Stage := 0;
                NextReviewAt := 300000000100; CreatedAt := 100;
                UpdatedAt := 100; CompletedAt := None |}).
    - apply (reach_new _ "  what is 2+2? " "4" 100 entropy).
      + unfold zero. lia.
      + reflexivity.
    - reflexivity. }
  split; [exact R |].
  apply (reachable_spec (sample_task 0 300000000100 None) R).
Defined.

(** C2 as stated fails: a task created five minutes before Go's zero time is
    reachable and not completed, and its [nextReviewAt] is the zero time. *)
Lemma reachable_zero_review_counterexample :
  NewTask "q" "a" before_zero entropy = Ok early_task /\
  reachable (fun _ => True) early_task /\
  NextReviewAt early_task = zero /\
  CompletedAt early_task = None /\
  ~ (NextReviewAt early_task = zero <->
     CompletedAt early_task <> None).
Proof.
  assert (NewTask "q" "a" before_zero entropy = Ok early_task)
    as Hnew by reflexivity.
  split; [exact Hnew |].
  split; [exact (reach_new _ "q" "a" before_zero entropy _ I Hnew) |].
  split; [reflexivity |]. split; [reflexivity |].
  intros [H _]. apply H; reflexivity.
Qed.

(** ** Remembering through the whole ladder *)

Lemma rememberAll_completes (nows : list Time) :
  forall t : Task,
    CompletedAt t = None ->
    0 <= Stage t ->
    Stage t + Z.of_nat (List.length nows) = TotalStages ->
    nows <> [] ->
    exists t',
      rememberAll nows t = Ok t' /\
      Stage t' = TotalStages /\
      CompletedAt t' = Some (last nows zero) /\
      NextReviewAt t' = zero.
Proof.
  induction nows as [| now rest IH]; intros t Hc Hs Hlen Hne; [congruence |].
  destruct rest as [| now2 rest'].
  - cbn [List.length] in Hlen. cbn [rememberAll last].
    rewrite remembered_last by (try assumption; lia).
    cbn [bind]. eexists. split; [reflexivity |]. cbn. repeat split.
  - destruct (remembered_next now t Hc) as (d & _ & _ & Hrun).
    { cbn [List.length] in Hlen. lia. }
    cbn [rememberAll]. rewrite Hrun. cbn [bind].
    change (last (now :: now2 :: rest') zero) with (last (now2 :: rest') zero).
    apply IH; cbn [Stage CompletedAt]; try reflexivity; try lia; try discriminate.
    cbn [List.length] in *. lia.
Qed.

(** C6. From a task just created by [NewTask], [MarkRemembered] applied [N]
    times, with any [now] values (increasing ones included), returns a task
    with [completedAt] set (to the last [now]) whose status is "done" at
    every time; one more [MarkRemembered] returns that task unchanged. *)
Theorem remembered_through_ladder
        (question answer : string) (now0 : Time) (r : RandRead) (t : Task)
        (nows : list Time) :
  NewTask question answer now0 r = Ok t ->
  Z.of_nat (List.length nows) = TotalStages ->
  TotalStages = 8 /\
  exists t',
    rememberAll nows t = Ok t' /\
    CompletedAt t' = Some (last nows zero) /\
    Stage t' = TotalStages /\
    (forall at_, Status t' at_ = "done") /\
    (forall now, MarkRemembered now t' = Ok t').
Proof.
  intros Hnew Hlen. split; [reflexivity |].
  apply NewTask_shape in Hnew.
  destruct Hnew as (_ & _ & _ & _ & Hs & _ & _ & _ & Hc).
  destruct (rememberAll_completes nows t Hc) as (t' & Hrun & Hs' & Hc' & _).
  - lia.
  - lia.
  - intros ->. cbn [List.length] in Hlen. rewrite TotalStages_eq in Hlen. lia.
  - exists t'. repeat split; try assumption.
    + intros at_. unfold Status. rewrite Hc'. reflexivity.
    + intros now. apply remembered_completed. congruence.
Qed.

Lemma remembered_through_ladder_witness :
  NewTask "q" "a" 100 entropy = Ok (sample_task 0 300000000100 None) /\
  Z.of_nat (List.length [400; 500; 600; 700; 800; 900; 1000; 1100]) = TotalStages /\
  TotalStages = 8 /\
  exists t',
    rememberAll [400; 500; 600; 700; 800; 900; 1000; 1100]
                (sample_task 0 300000000100 None) = Ok t' /\
    CompletedAt t' = Some (last [400; 500; 600; 700; 800; 900; 1000; 1100] zero) /\
    Stage t' = TotalStages /\
    (forall at_, Status t' at_ = "done") /\
    (forall now, MarkRemembered now t' = Ok t').
Proof.
  split; [reflexivity |]. split; [reflexivity |].
  apply (remembered_through_ladder "q" "a" 100 entropy
           (sample_task 0 300000000100 None)
           [400; 500; 600; 700; 800; 900; 1000; 1100]);
    reflexivity.
Defined.

(** The scenario of the ladder [5m, 10m, 25m, 1h, 6h, 24h, 48h, 168h]:
    created at [T0], remembered at [T0 + 5m], forgotten at [T0 + 20m]. *)
Example scenario_create_remember_forget :
  NewTask "q" "a" 100 entropy
  = Ok (sample_task 0 (100 + 5 * Minute) None) /\
  MarkRemembered (100 + 5 * Minute) (sample_task 0 (100 + 5 * Minute) None)
  = Ok {| ID := "0123456789abcdef01234567"; Question := "q"; Answer := "a";
          Stage := 1; NextReviewAt := 100 + 5 * Minute + 10 * Minute;
          CreatedAt := 100; UpdatedAt := 100 + 5 * Minute;
          CompletedAt := None |} /\
  MarkForgot (100 + 20 * Minute)
    {| ID := "0123456789abcdef01234567"; Question := "q"; Answer := "a";
       Stage := 1; NextReviewAt := 100 + 5 * Minute + 10 * Minute;
       CreatedAt := 100; UpdatedAt := 100 + 5 * Minute; CompletedAt := None |}
  = Ok {| ID := "0123456789abcdef01234567"; Question := "q"; Answer := "a";
          Stage := 0; NextReviewAt := 100 + 20 * Minute + 5 * Minute;
          CreatedAt := 100; UpdatedAt := 100 + 20 * Minute;
          CompletedAt := None |}.
Proof. repeat split. Qed.

(** The scenario of the last stage: remembered at stage 7. *)
Example scenario_last_stage :
  MarkRemembered 5000 (sample_task 7 900 None)
  = Ok {| ID := "0123456789abcdef01234567"; Question := "q"; Answer := "a";
          Stage := 8; NextReviewAt := zero; CreatedAt := 100;
          UpdatedAt := 5000; CompletedAt := Some 5000 |} /\
  Status {| ID := "0123456789abcdef01234567"; Question := "q"; Answer := "a";
            Stage := 8; NextReviewAt := zero; CreatedAt := 100;
            UpdatedAt := 5000; CompletedAt := Some 5000 |} 5000 = "done".
Proof. split; reflexivity. Qed.

Example remembered_eight_times :
  rememberAll [400; 500; 600; 700; 800; 900; 1000; 1100]
              (sample_task 0 300000000100 None)
  = Ok {| ID := "0123456789abcdef01234567"; Question := "q"; Answer := "a";
          Stage := 8; NextReviewAt := 0; CreatedAt := 100; UpdatedAt := 1100;
          CompletedAt := Some 1100 |}.
Proof. reflexivity. Qed.

Example remembered_seven_times :
  rememberAll [400; 500; 600; 700; 800; 900; 1000]
              (sample_task 0 300000000100 None)
  = Ok {| ID := "0123456789abcdef01234567"; Question := "q"; Answer := "a";
          Stage := 7; NextReviewAt := 1000 + 168 * Hour; CreatedAt := 100;
          UpdatedAt := 1000; CompletedAt := None |}.
Proof. reflexivity. Qed.

(** ** Ladder indexing *)

Lemma index_panics_iff (i : Z) :
  (exists msg, index StageDurations i = Panic msg) <->
  (i < 0 \/ TotalStages <= i).
Proof.
  split.
  - intros [msg H].
    destruct (Z_lt_ge_dec i 0) as [Hneg | Hnn]; [left; exact Hneg |].
    destruct (Z_lt_ge_dec i TotalStages) as [Hlt | Hge]; [| right; lia].
    destruct (index_in_range i) as (d & Hd & _); [lia |]. congruence.
  - intros H. eexists. apply index_out_of_range. exact H.
Qed.

(** C10. For a task with [0 <= stage <= N], and [stage < N] unless
    completed, no operation panics on the ladder: [MarkRemembered] returns
    normally, and when it evaluates [StageDurations[stage]] the incremented
    stage is between 0 and [N-1]; [MarkForgot] and [NewTask] evaluate
    [StageDurations[0]], which exists since the ladder has [N = 8 > 0]
    entries. *)
Theorem ladder_index_in_bounds (now : Time) (t : Task) :
  0 <= Stage t <= TotalStages ->
  (CompletedAt t = None -> Stage t < TotalStages) ->
  (exists t', MarkRemembered now t = Ok t') /\
  (CompletedAt t = None -> Stage t < TotalStages - 1 ->
   0 <= int_wrap (Stage t + 1) <= TotalStages - 1 /\
   exists d, index StageDurations (int_wrap (Stage t + 1)) = Ok d) /\
  (exists t', MarkForgot now t = Ok t') /\
  (forall question answer r msg, NewTask question answer now r <> Panic msg) /\
  0 < TotalStages /\
  (exists d, index StageDurations 0 = Ok d).
Proof.
  intros Hrange Hinc.
  split; [| split; [| split; [| split; [| split]]]].
  - destruct (CompletedAt t) as [c |] eqn:Hc.
    + exists t. apply remembered_completed. congruence.
    + specialize (Hinc eq_refl).
      destruct (Z.eq_dec (Stage t) (TotalStages - 1)) as [Hlast | Hmid].
      * eexists. apply remembered_last; [exact Hc | lia].
      * destruct (remembered_next now t Hc) as (d & _ & _ & Hrun); [lia |].
        eexists. exact Hrun.
  - intros Hc Hlt. rewrite TotalStages_eq in *.
    rewrite int_wrap_small by lia.
    split; [lia |].
    destruct (index_in_range (Stage t + 1)) as (d & Hd & _);
      [rewrite TotalStages_eq; lia |].
    exists d. exact Hd.
  - eexists. reflexivity.
  - intros question answer r msg. unfold NewTask.
    destruct (String.eqb (strings.TrimSpace question) ""
              || String.eqb (strings.TrimSpace answer) ""); [discriminate |].
    destruct r; cbn; discriminate.
  - reflexivity.
  - eexists. reflexivity.
Qed.

Lemma ladder_index_in_bounds_witness :
  0 <= Stage (sample_task 6 300 None) <= TotalStages /\
  (CompletedAt (sample_task 6 300 None) = None ->
   Stage (sample_task 6 300 None) < TotalStages) /\
  (exists t', MarkRemembered 400 (sample_task 6 300 None) = Ok t') /\
  (exists t', MarkForgot 400 (sample_task 6 300 None) = Ok t').
Proof.
  assert (0 <= Stage (sample_task 6 300 None) <= TotalStages) as H1
      by (vm_compute; split; discriminate).
  assert (CompletedAt (sample_task 6 300 None) = None ->
          Stage (sample_task 6 300 None) < TotalStages) as H2
      by (intros _; reflexivity).
  split; [exact H1 |]. split; [exact H2 |].
  pose proof (ladder_index_in_bounds 400 (sample_task 6 300 None) H1 H2) as H.
  split; [exact (proj1 H) | exact (proj1 (proj2 (proj2 H)))].
Defined.

(** Outside that range the index expression does panic. *)
Example negative_stage_panics :
  MarkRemembered 400 (sample_task (-2) 300 None) = Panic "index out of range".
Proof. reflexivity. Qed.

(** ** The review handler *)

Import api.

Lemma reviewSwitch_cases (result : string) :
  (In result ["remembered"; "remember"; "ok"; "done"] /\
   ~ In result ["forgot"; "forget"; "miss"] /\
   reviewSwitch result = Some true)
  \/
  (In result ["forgot"; "forget"; "miss"] /\
   ~ In result ["remembered"; "remember"; "ok"; "done"] /\
   reviewSwitch result = Some false)
  \/
  (~ In result ["remembered"; "remember"; "ok"; "done"] /\
   ~ In result ["forgot"; "forget"; "miss"] /\
   reviewSwitch result = None).
Proof.
  assert (forall x : string,
            In x ["forgot"; "forget"; "miss"] ->
            x = "forgot" \/ x = "forget" \/ x = "miss") as Hforgot
      by (intros x [H | [H | [H | []]]]; auto).
  unfold reviewSwitch.
  destruct (String.eqb_spec result "remembered") as [-> | N1];
    [left; repeat split; [cbn; tauto |];
     intros H; apply Hforgot in H; destruct H as [H | [H | H]]; discriminate |].
  destruct (String.eqb_spec result "remember") as [-> | N2];
    [left; repeat split; [cbn; tauto |];
     intros H; apply Hforgot in H; destruct H as [H | [H | H]]; discriminate |].
  destruct (String.eqb_spec result "ok") as [-> | N3];
    [left; repeat split; [cbn; tauto |];
     intros H; apply Hforgot in H; destruct H as [H | [H | H]]; discriminate |].
  destruct (String.eqb_spec result "done") as [-> | N4];
    [left; repeat split; [cbn; tauto |];
     intros H; apply Hforgot in H; destruct H as [H | [H | H]]; discriminate |].
  assert (~ In result ["remembered"; "remember"; "ok"; "done"]) as Nrem
      by (cbn; intros [H | [H | [H | [H | []]]]]; congruence).
  cbn [orb]. right.
  destruct (String.eqb_spec result "forgot") as [-> | M1];
    [left; repeat split; [cbn; tauto | exact Nrem] |].
  destruct (String.eqb_spec result "forget") as [-> | M2];
    [left; repeat split; [cbn; tauto | exact Nrem] |].
  destruct (String.eqb_spec result "miss") as [-> | M3];
    [left; repeat split; [cbn; tauto | exact Nrem] |].
  right. repeat split; [exact Nrem |].
  intros H; apply Hforgot in H; destruct H as [H | [H | H]]; congruence.
Qed.

Lemma reviewTask_run (lower : string -> string) (w : World) (n : nat)
      (id : string) (req : reviewRequest) :
  match reviewSwitch (strings.ToLower lower (strings.TrimSpace (Result req))) with
  | Some remembered =>
      snd (run w n (reviewTask lower id (Some req)))
      = [CallReview id remembered (clock w n)] /\
      status (fst (run w n (reviewTask lower id (Some req)))) <> StatusBadRequest
  | None =>
      run w n (reviewTask lower id (Some req))
      = (writeError StatusBadRequest "result must be 'remembered' or 'forgot'", [])
  end.
Proof.
  unfold reviewTask.
  destruct (reviewSwitch _) as [remembered |]; [| reflexivity].
  cbn [run].
  destruct (onReview w id remembered (clock w n)) as [t | err].
  - cbn. split; [reflexivity | discriminate].
  - destruct (error_is_NotFound err); cbn; (split; [reflexivity | discriminate]).
Qed.

(** C8, as amended. For every review request body [{result}], with the
    result trimmed of white space and put in lower case: the handler calls
    the store's review with [remembered = true] exactly when the normalised
    result is one of "remembered", "remember", "ok", "done"; with
    [remembered = false] exactly when it is one of "forgot", "forget",
    "miss"; and for every other value it responds 400 with the validation
    message, having made no store call. The store applies [MarkRemembered]
    for [true] and [MarkForgot] for [false]. *)
Theorem reviewTask_spec (lower : string -> string) (w : World) (n : nat)
        (id : string) (req : reviewRequest) :
  (In (strings.ToLower lower (strings.TrimSpace (Result req)))
      ["remembered"; "remember"; "ok"; "done"]
   <-> snd (run w n (reviewTask lower id (Some req)))
       = [CallReview id true (clock w n)])
  /\
  (In (strings.ToLower lower (strings.TrimSpace (Result req)))
      ["forgot"; "forget"; "miss"]
   <-> snd (run w n (reviewTask lower id (Some req)))
       = [CallReview id false (clock w n)])
  /\
  (~ In (strings.ToLower lower (strings.TrimSpace (Result req)))
        ["remembered"; "remember"; "ok"; "done"; "forgot"; "forget"; "miss"]
   <-> run w n (reviewTask lower id (Some req))
       = (writeError StatusBadRequest "result must be 'remembered' or 'forgot'", []))
  /\
  (forall now t, store.applyReview true now t = MarkRemembered now t) /\
  (forall now t, store.applyReview false now t = MarkForgot now t).
Proof.
  pose proof (reviewTask_run lower w n id req) as Hrun.
  assert (forall x : string,
            In x ["remembered"; "remember"; "ok"; "done";
                  "forgot"; "forget"; "miss"]
            <-> In x ["remembered"; "remember"; "ok"; "done"]
                \/ In x ["forgot"; "forget"; "miss"]) as Hall
      by (intros x; cbn; tauto).
  rewrite Hall.
  destruct (reviewSwitch_cases
              (strings.ToLower lower (strings.TrimSpace (Result req))))
    as [(Hin & Hnot & Hsw) | [(Hin & Hnot & Hsw) | (Hn1 & Hn2 & Hsw)]];
    rewrite Hsw in Hrun.
  - destruct Hrun as [Hcalls _]. rewrite Hcalls.
    split; [split; [reflexivity | intros _; exact Hin] |].
    split; [split; [intros H; contradiction | discriminate] |].
    split; [| split; reflexivity].
    split; [tauto |]. intros H. rewrite H in Hcalls. discriminate.
  - destruct Hrun as [Hcalls _]. rewrite Hcalls.
    split; [split; [intros H; contradiction | discriminate] |].
    split; [split; [reflexivity | intros _; exact Hin] |].
    split; [| split; reflexivity].
    split; [tauto |]. intros H. rewrite H in Hcalls. discriminate.
  - rewrite Hrun. cbn [snd].
    split; [split; [intros H; contradiction | discriminate] |].
    split; [split; [intros H; contradiction | discriminate] |].
    split; [| split; reflexivity].
    split; [reflexivity | tauto].
Qed.

(** C8 as stated fails: the result "OK" is none of the seven words, and
    the handler does not respond 400, it reviews the task as remembered. *)
Lemma reviewTask_raw_counterexample :
  ~ In "OK" ["remembered"; "remember"; "ok"; "done"] /\
  snd (run sample_world 0
         (reviewTask noUnicode "0123456789abcdef01234567"
                     (Some {| Result := "OK" |})))
  = [CallReview "0123456789abcdef01234567" true 1000] /\
  status (fst (run sample_world 0
                 (reviewTask noUnicode "0123456789abcdef01234567"
                             (Some {| Result := "OK" |}))))
  = StatusOK.
Proof.
  split; [| split; reflexivity].
  cbn. intros [H | [H | [H | [H | []]]]]; discriminate.
Qed.

(** An ASCII result never reaches the Unicode path of [ToLower]. *)
Example ToLower_ascii (lower : string -> string) :
  strings.ToLower lower (strings.TrimSpace " OK ") = "ok" /\
  strings.ToLower lower (strings.TrimSpace "Forget") = "forget".
Proof. split; reflexivity. Qed.

Example reviewTask_invalid_json :
  run sample_world 0 (reviewTask noUnicode "0123456789abcdef01234567" None)
  = (writeError StatusBadRequest "invalid json", []).
Proof. reflexivity. Qed.

(** ** The two ready lists *)

(** ** The two ready lists *)

Lemma fold_readyStep (now : Time) (all : list Task) :
  forall acc,
    fold_left (readyStep now) all acc
    = (acc ++ map (fun t => mapTask t now)
                  (filter (fun t => String.eqb (tasks.Status t now) "ready") all))%list.
Proof.
  induction all as [| t rest IH]; intros acc; cbn [fold_left filter].
  - cbn [map]. rewrite app_nil_r. reflexivity.
  - rewrite IH. unfold readyStep. cbn [api.Status mapTask].
    destruct (String.eqb (tasks.Status t now) "ready").
    + cbn [map]. rewrite <- app_assoc. reflexivity.
    + reflexivity.
Qed.

Lemma listStep_ready (now : Time) (out : list taskResponse) (t : Task) :
  listStep "ready" now out t = readyStep now out t.
Proof. reflexivity. Qed.

Lemma fold_listStep_ready (now : Time) (all : list Task) :
  forall acc,
    fold_left (listStep "ready" now) all acc = fold_left (readyStep now) all acc.
Proof.
  induction all as [| t rest IH]; intros acc; cbn [fold_left]; [reflexivity |].
  rewrite listStep_ready. apply IH.
Qed.

Lemma status_query_ready (lower : string -> string) :
  strings.ToLower lower (strings.TrimSpace "ready") = "ready".
Proof. reflexivity. Qed.

(** C9. For every stored list of tasks and every clock reading, the
    handler of GET /tasks/ready and the handler of GET /tasks with
    status=ready write the same response after the same store call; when the
    store answers with the tasks, that response is 200 with the
    representations of exactly the tasks whose status at [now] is "ready", in
    stored order; when the store fails, both respond 500. *)
Theorem ready_lists_agree (lower : string -> string) (w : World) (n : nat) :
  run w n (listTasks lower "ready") = run w n readyTasks /\
  (forall all, onAll w = Got all ->
     run w n readyTasks
     = (JSON StatusOK
          (TaskListBody
             (map (fun t => mapTask t (clock w n))
                  (filter (fun t => String.eqb (tasks.Status t (clock w n)) "ready")
                          all))),
        [CallAll])) /\
  (forall err, onAll w = Failed err ->
     run w n readyTasks
     = (writeError StatusInternalServerError (Error err), [CallAll])).
Proof.
  split; [| split].
  - unfold listTasks, readyTasks. cbn [run].
    destruct (onAll w) as [all | err]; [| reflexivity].
    rewrite status_query_ready. cbn [run].
    rewrite fold_listStep_ready. reflexivity.
  - intros all Hall. unfold readyTasks. cbn [run]. rewrite Hall. cbn [run].
    rewrite fold_readyStep. reflexivity.
  - intros err Herr. unfold readyTasks. cbn [run]. rewrite Herr. reflexivity.
Qed.

Lemma ready_lists_agree_witness :
  onAll sample_world = Got stored /\
  run sample_world 0 (listTasks noUnicode "ready") = run sample_world 0 readyTasks /\
  run sample_world 0 readyTasks
  = (JSON StatusOK
       (TaskListBody
          (map (fun t => mapTask t (clock sample_world 0))
               (filter (fun t => String.eqb (tasks.Status t (clock sample_world 0))
                                            "ready")
                       stored))),
     [CallAll]).
Proof.
  split; [reflexivity |].
  split.
  - exact (proj1 (ready_lists_agree noUnicode sample_world 0)).
  - exact (proj1 (proj2 (ready_lists_agree noUnicode sample_world 0))
             stored eq_refl).
Defined.

Example ready_list_sample :
  fst (run sample_world 0 readyTasks)
  = JSON StatusOK (TaskListBody [mapTask (sample_task 2 900 None) 1000]).
Proof. reflexivity. Qed.

(** * Further properties of the code *)

Import tasks fixtures.

(** ** Identifiers *)

Lemma length_encode (src : list Z) :
  List.length (hex.encode src) = (2 * List.length src)%nat.
Proof. induction src as [| v rest IH]; cbn [hex.encode List.length]; lia. Qed.

Lemma digit_of_nat_in_table (k : nat) :
  (k < 16)%nat -> In (hex.digit (Z.of_nat k)) (list_ascii_of_string hex.hextable).
Proof.
  intros Hk.
  do 16 (destruct k as [| k]; [cbn; tauto |]). lia.
Qed.

Lemma digit_in_table (v : Z) :
  0 <= v < 16 -> In (hex.digit v) (list_ascii_of_string hex.hextable).
Proof.
  intros H. rewrite <- (Z2Nat.id v) by lia.
  apply digit_of_nat_in_table. lia.
Qed.

Lemma encode_in_table (src : list Z) :
  Forall (fun v => 0 <= v < 256) src ->
  Forall (fun c => In c (list_ascii_of_string hex.hextable)) (hex.encode src).
Proof.
  induction 1 as [| v rest Hv _ IH]; cbn [hex.encode]; constructor; [| constructor].
  - apply digit_in_table. rewrite Z.shiftr_div_pow2 by lia.
    change (2 ^ 4) with 16. split; [apply Z.div_pos; lia |].
    apply Z.div_lt_upper_bound; lia.
  - apply digit_in_table. change 15 with (Z.ones 4).
    rewrite Z.land_ones by lia. change (2 ^ 4) with 16.
    apply Z.mod_pos_bound. lia.
  - exact IH.
Qed.

Lemma in_firstn_elim {A : Type} (n : nat) (l : list A) (x : A) :
  In x (firstn n l) -> In x l.
Proof.
  intros H. rewrite <- (firstn_skipn n l). apply in_or_app. left. exact H.
Qed.

Lemma length_of_ascii_list (l : list ascii) :
  String.length (string_of_list_ascii l) = List.length l.
Proof. induction l as [| c rest IH]; cbn; [reflexivity | now rewrite IH]. Qed.

(** X1. Whatever bytes the random source delivers, [generateID] returns a
    string of exactly 24 characters, each one of [0-9a-f]; it fails only
    when the random source fails. *)
Theorem generateID_format (r : RandRead) :
  match r with
  | RandFilled bs =>
      exists id,
        generateID r = Ok id /\
        String.length id = 24%nat /\
        Forall (fun c => In c (list_ascii_of_string "0123456789abcdef"))
               (list_ascii_of_string id)
  | RandFailed msg => generateID r = Err (ErrExternal msg)
  end.
Proof.
  destruct r as [bs | msg]; [| reflexivity].
  eexists. split; [reflexivity |].
  set (b := firstn 12 (map (fun v => v mod 256) bs ++ repeat 0 12)).
  assert (List.length b = 12%nat) as Hlen.
  { unfold b. rewrite length_firstn, length_app, repeat_length. lia. }
  assert (Forall (fun v => 0 <= v < 256) b) as Hrange.
  { unfold b. apply Forall_forall. intros v Hv.
    apply in_firstn_elim in Hv. apply in_app_or in Hv. destruct Hv as [Hv | Hv].
    - apply in_map_iff in Hv. destruct Hv as (u & <- & _).
      apply Z.mod_pos_bound. lia.
    - apply repeat_spec in Hv. subst v. lia. }
  unfold hex.EncodeToString. split.
  - rewrite length_of_ascii_list, length_encode, Hlen. reflexivity.
  - rewrite list_ascii_of_string_of_list_ascii.
    apply (encode_in_table b Hrange).
Qed.

Lemma Status_cases_done (t : Task) (at_ : Time) :
  tasks.Status t at_ = "done" -> CompletedAt t <> None \/ TotalStages <= Stage t.
Proof.
  intros H.
  destruct (Status_cases t at_)
    as [[Hd _] | [(_ & _ & _ & Hs) | (_ & _ & _ & Hs)]];
    [exact Hd | rewrite Hs in H; discriminate | rewrite Hs in H; discriminate].
Qed.

(** ** What a review leaves behind *)

Lemma remembered_outcome (now : Time) (t t' : Task) :
  MarkRemembered now t = Ok t' ->
  (CompletedAt t <> None /\ t' = t) \/
  (CompletedAt t = None /\ CompletedAt t' = Some now /\ Stage t' = TotalStages) \/
  (CompletedAt t = None /\ CompletedAt t' = None /\
   Stage t' < TotalStages /\
   exists d, index StageDurations (Stage t') = Ok d /\
             NextReviewAt t' = Add now d).
Proof.
  intros H.
  destruct (CompletedAt t) as [c |] eqn:Hc.
  - rewrite remembered_completed in H by congruence.
    injection H as <-. left. split; [discriminate | reflexivity].
  - right. unfold MarkRemembered in H. rewrite Hc in H. cbn [isSet] in H.
    destruct (int_wrap (TotalStages - 1) <=? Stage t).
    + injection H as <-. left. repeat split.
    + destruct (index StageDurations (int_wrap (Stage t + 1))) as [d | e | m] eqn:Hd;
        cbn [bind] in H; try discriminate.
      injection H as <-. right. cbn [CompletedAt Stage NextReviewAt].
      repeat split.
      * destruct (Z_lt_ge_dec (int_wrap (Stage t + 1)) TotalStages) as [Hlt | Hge];
          [exact Hlt |].
        rewrite index_out_of_range in Hd by (right; lia). discriminate.
      * exists d. split; [exact Hd | reflexivity].
Qed.

(** X2. A task that has just been reviewed at [now], as remembered or as
    forgotten, is not "ready" at any time earlier than [now.Add(5m)]: it is
    "pending" or "done". [now.Add(5m)] is five minutes after the review
    whenever that instant is one a [time.Time] can hold. *)
Theorem reviewed_not_ready (remembered : bool) (now at_ : Time) (t t' : Task) :
  inRange now ->
  store.applyReview remembered now t = Ok t' ->
  at_ < Add now (5 * Minute) ->
  tasks.Status t' at_ <> "ready" /\
  (tasks.Status t' at_ = "pending" \/ tasks.Status t' at_ = "done") /\
  (inRange (now + 5 * Minute) -> Add now (5 * Minute) = now + 5 * Minute).
Proof.
  intros Hnow Hrun Hat.
  assert (CompletedAt t' <> None \/
          (CompletedAt t' = None /\
           Add now (5 * Minute) <= NextReviewAt t')) as Hcase.
  { destruct remembered; cbn [store.applyReview] in Hrun.
    - destruct (remembered_outcome now t t' Hrun)
        as [[Hc ->] | [(_ & Hc & _) | (_ & Hc & _ & d & Hd & Hn)]].
      + left. exact Hc.
      + left. congruence.
      + right. split; [exact Hc |].
        destruct (index_whole_seconds _ _ Hd) as (k & Hk & ->).
        rewrite Hn. apply (Add_monotone now 300 k Hnow); lia.
    - apply forgot_result in Hrun. destruct Hrun as (_ & Hc & Hn).
      right. split; [exact Hc |]. rewrite Hn. lia. }
  assert (inRange (now + 5 * Minute) ->
          Add now (5 * Minute) = now + 5 * Minute) as Hexact
      by (intros Hsum; apply Add_exact; assumption).
  destruct (Status_cases t' at_)
    as [[_ Hs] | [(Hc & _ & Hn & Hs) | (_ & _ & _ & Hs)]]; rewrite Hs.
  - split; [discriminate |]. split; [right; reflexivity | exact Hexact].
  - exfalso. destruct Hcase as [Hset | (_ & Hnext)]; [congruence | lia].
  - split; [discriminate |]. split; [left; reflexivity | exact Hexact].
Qed.

Lemma reviewed_not_ready_witness :
  inRange 1000 /\
  store.applyReview true 1000 (sample_task 2 900 None)
  = Ok {| ID := "0123456789abcdef01234567"; Question := "q"; Answer := "a";
          Stage := 3; NextReviewAt := 1000 + Hour; CreatedAt := 100;
          UpdatedAt := 1000; CompletedAt := None |} /\
  1001 < Add 1000 (5 * Minute) /\
  tasks.Status {| ID := "0123456789abcdef01234567"; Question := "q"; Answer := "a";
                  Stage := 3; NextReviewAt := 1000 + Hour; CreatedAt := 100;
                  UpdatedAt := 1000; CompletedAt := None |} 1001 <> "ready" /\
  inRange last_second /\
  store.applyReview false last_second (sample_task 2 900 None)
  = Ok {| ID := "0123456789abcdef01234567"; Question := "q"; Answer := "a";
          Stage := 0; NextReviewAt := last_second; CreatedAt := 100;
          UpdatedAt := last_second; CompletedAt := None |} /\
  last_second - 1 < Add last_second (5 * Minute) /\
  tasks.Status {| ID := "0123456789abcdef01234567"; Question := "q"; Answer := "a";
                  Stage := 0; NextReviewAt := last_second; CreatedAt := 100;
                  UpdatedAt := last_second; CompletedAt := None |}
               (last_second - 1) <> "ready".
Proof.
  assert (inRange 1000) as H1
      by (unfold inRange; vm_compute; split; discriminate).
  assert (inRange last_second) as H2
      by (unfold inRange; vm_compute; split; discriminate).
  split; [exact H1 |]. split; [vm_compute; reflexivity |].
  split; [vm_compute; reflexivity |].
  split.
  - exact (proj1 (reviewed_not_ready true 1000 1001 (sample_task 2 900 None) _
                    H1 ltac:(vm_compute; reflexivity)
                    ltac:(vm_compute; reflexivity))).
  - split; [exact H2 |]. split; [vm_compute; reflexivity |].
    split; [vm_compute; reflexivity |].
    exact (proj1 (reviewed_not_ready false last_second (last_second - 1)
                    (sample_task 2 900 None) _
                    H2 ltac:(vm_compute; reflexivity)
                    ltac:(vm_compute; reflexivity))).
Defined.

(** ** When MarkRemembered panics *)

(** X3. For a stage that fits a Go [int], [MarkRemembered] panics (index out
    of range) exactly when the task is not completed and its stage is below
    -1; in every other case it returns normally. *)
Theorem MarkRemembered_panics_iff (now : Time) (t : Task) :
  - 2 ^ 63 <= Stage t < 2 ^ 63 ->
  ((exists msg, MarkRemembered now t = Panic msg) <->
   CompletedAt t = None /\ Stage t < -1) /\
  ((exists t', MarkRemembered now t = Ok t') <->
   CompletedAt t <> None \/ -1 <= Stage t).
Proof.
  intros Hint.
  destruct (CompletedAt t) as [c |] eqn:Hc.
  - assert (MarkRemembered now t = Ok t) as Hrun
        by (apply remembered_completed; congruence).
    rewrite Hrun. split; split.
    + intros [msg H]. discriminate.
    + intros [H _]. discriminate.
    + intros _. left. discriminate.
    + intros _. exists t. reflexivity.
  - destruct (Z_le_gt_dec (TotalStages - 1) (Stage t)) as [Hlast | Hlow].
    { rewrite remembered_last by assumption.
      rewrite TotalStages_eq in Hlast. split; split.
      - intros [msg H]. discriminate.
      - intros [_ H]. lia.
      - intros _. right. lia.
      - intros _. eexists. reflexivity. }
    rewrite TotalStages_eq in Hlow.
    unfold MarkRemembered. rewrite Hc. cbn [isSet].
    rewrite (int_wrap_small (TotalStages - 1)) by (rewrite TotalStages_eq; lia).
    destruct (TotalStages - 1 <=? Stage t) eqn:E;
      [apply Z.leb_le in E; rewrite TotalStages_eq in E; lia |].
    rewrite int_wrap_small by lia.
    destruct (Z_lt_ge_dec (Stage t) (-1)) as [Hneg | Hok].
    + rewrite index_out_of_range by (left; lia). cbn [bind]. split; split.
      * intros _. split; [reflexivity | exact Hneg].
      * intros _. eexists. reflexivity.
      * intros [t' H]. discriminate.
      * intros [H | H]; [congruence | lia].
    + destruct (index_in_range (Stage t + 1)) as (d & Hd & _);
        [rewrite TotalStages_eq; lia |].
      rewrite Hd. cbn [bind]. split; split.
      * intros [msg H]. discriminate.
      * intros [_ H]. lia.
      * intros _. right. lia.
      * intros _. eexists. reflexivity.
Qed.

Lemma MarkRemembered_panics_iff_witness :
  - 2 ^ 63 <= Stage (sample_task (-2) 300 None) < 2 ^ 63 /\
  (exists msg, MarkRemembered 400 (sample_task (-2) 300 None) = Panic msg) /\
  (exists t', MarkRemembered 400 (sample_task (-1) 300 None) = Ok t').
Proof.
  split; [cbn; lia |]. split.
  - apply (proj2 (proj1 (MarkRemembered_panics_iff 400 (sample_task (-2) 300 None)
                           ltac:(cbn; lia)))).
    split; [reflexivity | cbn; lia].
  - apply (proj2 (proj2 (MarkRemembered_panics_iff 400 (sample_task (-1) 300 None)
                           ltac:(cbn; lia)))).
    right. cbn. lia.
Defined.

(** ** Counting the successes *)

Lemma rememberAll_advances (nows : list Time) :
  forall t : Task,
    CompletedAt t = None ->
    0 <= Stage t ->
    Stage t + Z.of_nat (List.length nows) < TotalStages ->
    exists t',
      rememberAll nows t = Ok t' /\
      Stage t' = Stage t + Z.of_nat (List.length nows) /\
      CompletedAt t' = None.
Proof.
  induction nows as [| now rest IH]; intros t Hc Hs Hlen.
  - exists t. cbn. repeat split; [lia | exact Hc].
  - cbn [List.length] in Hlen.
    destruct (remembered_next now t Hc) as (d & _ & _ & Hrun); [lia |].
    cbn [rememberAll]. rewrite Hrun. cbn [bind].
    edestruct IH as (t' & Hall & Hstage & Hdone);
      [| | | exists t'; split; [exact Hall | split; [| exact Hdone]]];
      cbn [Stage CompletedAt List.length] in *; try reflexivity; lia.
Qed.

(** X4. The stage counts the successes since the last reset: from any task,
    [MarkForgot] followed by [k] calls of [MarkRemembered] gives stage [k]
    and a task that is not "done" when [k < N], and a completed task at
    stage [N] when [k = N]. *)
Theorem forgot_then_remembered (now0 : Time) (t : Task) (nows : list Time) :
  Z.of_nat (List.length nows) <= TotalStages ->
  exists t0 t',
    MarkForgot now0 t = Ok t0 /\
    rememberAll nows t0 = Ok t' /\
    Stage t' = Z.of_nat (List.length nows) /\
    (Z.of_nat (List.length nows) < TotalStages ->
     CompletedAt t' = None /\ forall at_, tasks.Status t' at_ <> "done") /\
    (Z.of_nat (List.length nows) = TotalStages ->
     CompletedAt t' = Some (last nows zero) /\
     forall at_, tasks.Status t' at_ = "done").
Proof.
  intros Hlen.
  destruct (MarkForgot now0 t) as [t0 | e | m] eqn:Hforgot;
    try (unfold MarkForgot in Hforgot; cbn in Hforgot; discriminate).
  destruct (forgot_result now0 t t0 Hforgot) as (Hs0 & Hc0 & _).
  exists t0.
  destruct (Z.eq_dec (Z.of_nat (List.length nows)) TotalStages) as [Hfull | Hless].
  - destruct (rememberAll_completes nows t0 Hc0) as (t' & Hrun & Hs & Hc & _);
      [lia | lia | intros ->; cbn [List.length] in Hfull;
                   rewrite TotalStages_eq in Hfull; lia |].
    exists t'. split; [reflexivity |]. split; [exact Hrun |].
    split; [lia |]. split; [lia |].
    intros _. split; [exact Hc |].
    intros at_. unfold tasks.Status. rewrite Hc. reflexivity.
  - destruct (rememberAll_advances nows t0 Hc0) as (t' & Hrun & Hs & Hc);
      [lia | lia |].
    exists t'. split; [reflexivity |]. split; [exact Hrun |].
    split; [lia |]. split; [| lia].
    intros Hlt. split; [exact Hc |].
    intros at_ Hdone. apply Status_cases_done in Hdone.
    destruct Hdone as [H | H]; [congruence | lia].
Qed.

Lemma forgot_then_remembered_witness :
  Z.of_nat (List.length [400; 500; 600]) <= TotalStages /\
  exists t0 t',
    MarkForgot 300 (sample_task 8 0 (Some 200)) = Ok t0 /\
    rememberAll [400; 500; 600] t0 = Ok t' /\
    Stage t' = Z.of_nat (List.length [400; 500; 600]).
Proof.
  split; [cbn; lia |].
  destruct (forgot_then_remembered 300 (sample_task 8 0 (Some 200)) [400; 500; 600]
              ltac:(cbn; lia))
    as (t0 & t' & H1 & H2 & H3 & _).
  exists t0, t'. repeat split; assumption.
Defined.

(** ** Texts of reachable tasks *)

Lemma remembered_keeps (now : Time) (t t' : Task) :
  MarkRemembered now t = Ok t' ->
  ID t' = ID t /\ Question t' = Question t /\ Answer t' = Answer t /\
  CreatedAt t' = CreatedAt t /\
  (UpdatedAt t' = UpdatedAt t \/ UpdatedAt t' = now).
Proof.
  unfold MarkRemembered.
  destruct (isSet (CompletedAt t)); [intros H; injection H as <-; tauto |].
  destruct (int_wrap (TotalStages - 1) <=? Stage t);
    [intros H; injection H as <-; cbn; tauto |].
  destruct (index StageDurations (int_wrap (Stage t + 1))); cbn [bind];
    intros H; try discriminate.
  injection H as <-. cbn. tauto.
Qed.

Lemma forgot_keeps (now : Time) (t t' : Task) :
  MarkForgot now t = Ok t' ->
  ID t' = ID t /\ Question t' = Question t /\ Answer t' = Answer t /\
  CreatedAt t' = CreatedAt t /\ UpdatedAt t' = now.
Proof.
  unfold MarkForgot. rewrite index_first. cbn [bind].
  intros H. injection H as <-. cbn. tauto.
Qed.

Lemma update_texts (question answer : string) (t t' : Task) :
  tasks.UpdateContent question answer t = (t', None) ->
  Question t' = strings.TrimSpace question /\ Question t' <> "" /\
  Answer t' = strings.TrimSpace answer /\ Answer t' <> "" /\
  ID t' = ID t /\ CreatedAt t' = CreatedAt t /\ UpdatedAt t' = UpdatedAt t.
Proof.
  unfold tasks.UpdateContent.
  destruct (String.eqb_spec (strings.TrimSpace question) "") as [Eq | Nq];
    [discriminate |].
  destruct (String.eqb_spec (strings.TrimSpace answer) "") as [Ea | Na];
    [discriminate |].
  cbn [orb]. intros H. injection H as <-. cbn. tauto.
Qed.

Lemma reachable_passed (okNow : Time -> Prop) (t : Task) :
  reachable okNow t -> exists texts, passed texts t.
Proof.
  induction 1 as [question answer now r t Hok Hnew
                 | now t t' Hok Hreach [texts IH] Hrun
                 | now t t' Hok Hreach [texts IH] Hrun
                 | question answer t t' Hreach [texts IH] Hrun].
  - exists [(question, answer)]. exact (passed_new _ _ _ _ _ Hnew).
  - exists texts. exact (passed_remembered _ _ _ _ IH Hrun).
  - exists texts. exact (passed_forgot _ _ _ _ IH Hrun).
  - exists ((question, answer) :: texts). exact (passed_update _ _ _ _ _ IH Hrun).
Qed.

Lemma passed_latest (texts : list (string * string)) (t : Task) :
  passed texts t ->
  exists question answer earlier,
    texts = (question, answer) :: earlier /\
    Question t = strings.TrimSpace question /\
    Answer t = strings.TrimSpace answer /\
    Question t <> "" /\ Answer t <> "".
Proof.
  induction 1 as [question answer now r t Hnew
                 | texts now t t' Hpassed IH Hrun
                 | texts now t t' Hpassed IH Hrun
                 | texts question answer t t' Hpassed IH Hrun].
  - apply NewTask_shape in Hnew.
    destruct Hnew as (Nq & Na & Hq & Ha & _).
    exists question, answer, []. rewrite Hq, Ha. repeat split; assumption.
  - apply remembered_keeps in Hrun. destruct Hrun as (_ & -> & -> & _).
    exact IH.
  - apply forgot_keeps in Hrun. destruct Hrun as (_ & -> & -> & _).
    exact IH.
  - apply update_texts in Hrun.
    destruct Hrun as (Hq & Nq & Ha & Na & _).
    exists question, answer, texts. repeat split; assumption.
Qed.

(** X5. Every task reachable from [NewTask] by [MarkRemembered],
    [MarkForgot] and successful [UpdateContent] calls, whatever the times
    passed, has a non-empty question and a non-empty answer, and they come
    from the calls: whichever way the task was reached, its question and
    answer are the trimmed forms of the question and the answer passed to
    the latest successful [UpdateContent], or to [NewTask] when there was
    none. *)
Theorem reachable_texts (okNow : Time -> Prop) (t : Task) :
  reachable okNow t ->
  Question t <> "" /\ Answer t <> "" /\
  (exists texts, passed texts t) /\
  (forall texts, passed texts t ->
   exists question answer earlier,
     texts = (question, answer) :: earlier /\
     Question t = strings.TrimSpace question /\
     Answer t = strings.TrimSpace answer).
Proof.
  intros Hreach.
  destruct (reachable_passed okNow t Hreach) as (texts & Hpassed).
  destruct (passed_latest texts t Hpassed) as (q & a & e & _ & _ & _ & Nq & Na).
  split; [exact Nq |]. split; [exact Na |].
  split; [exists texts; exact Hpassed |].
  intros texts' Hpassed'.
  destruct (passed_latest texts' t Hpassed')
    as (q' & a' & e' & E & Hq & Ha & _).
  exists q', a', e'. repeat split; assumption.
Qed.

Lemma reachable_texts_witness :
  reachable (fun _ => True)
    {| ID := "0123456789abcdef01234567"; Question := "q2"; Answer := "a2";
       Stage := 1; NextReviewAt := Add 400 (10 * Minute); CreatedAt := 100;
       UpdatedAt := 400; CompletedAt := None |} /\
  passed [(" q2 ", "a2 "); ("q", "a")]
    {| ID := "0123456789abcdef01234567"; Question := "q2"; Answer := "a2";
       Stage := 1; NextReviewAt := Add 400 (10 * Minute); CreatedAt := 100;
       UpdatedAt := 400; CompletedAt := None |} /\
  exists question answer earlier,
    [(" q2 ", "a2 "); ("q", "a")] = (question, answer) :: earlier /\
    "q2" = strings.TrimSpace question /\
    "a2" = strings.TrimSpace answer.
Proof.
  assert (reachable (fun _ => True)
            {| ID := "0123456789abcdef01234567"; Question := "q2"; Answer := "a2";
               Stage := 1; NextReviewAt := Add 400 (10 * Minute); CreatedAt := 100;
               UpdatedAt := 400; CompletedAt := None |}) as R.
  { apply (reach_remembered _ 400
             {| ID := "0123456789abcdef01234567"; Question := "q2"; Answer := "a2";
                Stage := 0; NextReviewAt := Add 100 (5 * Minute); CreatedAt := 100;
                UpdatedAt := 100; CompletedAt := None |});
      [exact I | | vm_compute; reflexivity].
    apply (reach_update _ " q2 " "a2 "
             {| ID := "0123456789abcdef01234567"; Question := "q"; Answer := "a";
                Stage := 0; NextReviewAt := Add 100 (5 * Minute); CreatedAt := 100;
                UpdatedAt := 100; CompletedAt := None |});
      [| vm_compute; reflexivity].
    apply (reach_new _ "q" "a" 100 entropy); [exact I | vm_compute; reflexivity]. }
  assert (passed [(" q2 ", "a2 "); ("q", "a")]
            {| ID := "0123456789abcdef01234567"; Question := "q2"; Answer := "a2";
               Stage := 1; NextReviewAt := Add 400 (10 * Minute); CreatedAt := 100;
               UpdatedAt := 400; CompletedAt := None |}) as P.
  { apply (passed_remembered _ 400
             {| ID := "0123456789abcdef01234567"; Question := "q2"; Answer := "a2";
                Stage := 0; NextReviewAt := Add 100 (5 * Minute); CreatedAt := 100;
                UpdatedAt := 100; CompletedAt := None |});
      [| vm_compute; reflexivity].
    apply (passed_update _ " q2 " "a2 "
             {| ID := "0123456789abcdef01234567"; Question := "q"; Answer := "a";
                Stage := 0; NextReviewAt := Add 100 (5 * Minute); CreatedAt := 100;
                UpdatedAt := 100; CompletedAt := None |});
      [| vm_compute; reflexivity].
    apply (passed_new "q" "a" 100 entropy). vm_compute. reflexivity. }
  split; [exact R |]. split; [exact P |].
  exact (proj2 (proj2 (proj2 (reachable_texts _ _ R))) _ P).
Defined.

(** ** Rows and tasks *)

(** X6. Scanning the columns of a task, bound as [Review] binds them, gives
    the task back, unless [completedAt] points at the zero time: that one is
    written as NULL and read back as not completed. *)
Theorem scan_columns_roundtrip (t : Task) :
  (store.scanTask (store.ScanRow (store.columns t)) = inl t <->
   CompletedAt t <> Some zero) /\
  (CompletedAt t = Some zero ->
   exists t',
     store.scanTask (store.ScanRow (store.columns t)) = inl t' /\
     CompletedAt t' = None /\ Stage t' = Stage t /\
     NextReviewAt t' = NextReviewAt t).
Proof.
  destruct t as [id q a st nx cr up done].
  assert ((if sql.Valid (store.nullTime nx)
           then sql.Time (store.nullTime nx) else zero) = nx) as Hnext.
  { unfold store.nullTime, IsZero.
    destruct (Z.eqb_spec nx 0) as [-> | N]; reflexivity. }
  unfold store.scanTask, store.columns.
  cbn [store.tid store.question store.answer store.stage store.next
       store.createdAt store.updatedAt store.completed
       ID Question Answer Stage NextReviewAt CreatedAt UpdatedAt CompletedAt].
  rewrite Hnext.
  destruct done as [c |]; cbn [store.nullTimePtr].
  - unfold IsZero. destruct (Z.eqb_spec c 0) as [-> | N]; cbn.
    + split.
      * split; [intros H; discriminate | intros H; exfalso; apply H; reflexivity].
      * intros _. eexists. split; [reflexivity | cbn; tauto].
    + split.
      * split; [intros _ H; injection H as H; contradiction | reflexivity].
      * intros H. injection H as H. contradiction.
  - cbn. split.
    + split; [discriminate | reflexivity].
    + discriminate.
Qed.

Lemma scan_columns_roundtrip_witness :
  CompletedAt (sample_task 8 zero (Some zero)) = Some zero /\
  exists t',
    store.scanTask (store.ScanRow (store.columns (sample_task 8 zero (Some zero))))
    = inl t' /\
    CompletedAt t' = None /\ Stage t' = 8.
Proof.
  split; [reflexivity |].
  destruct (proj2 (scan_columns_roundtrip (sample_task 8 zero (Some zero))) eq_refl)
    as (t' & H1 & H2 & H3 & _).
  exists t'. repeat split; assumption.
Defined.

(** ** A row through its requests *)

Lemma scan_row (r : store.Row) :
  exists t,
    store.scanTask (store.ScanRow r) = inl t /\
    ID t = store.tid r /\ Question t = store.question r /\
    Answer t = store.answer r /\ Stage t = store.stage r /\
    CreatedAt t = store.createdAt r /\ UpdatedAt t = store.updatedAt r /\
    NextReviewAt t = (if sql.Valid (store.next r)
                      then sql.Time (store.next r) else zero) /\
    CompletedAt t = (if sql.Valid (store.completed r)
                     then Some (sql.Time (store.completed r)) else None).
Proof. eexists. split; [reflexivity |]. cbn. tauto. Qed.

Lemma step_keeps (req : history.Request) (r : store.Row) :
  store.tid (history.step req r) = store.tid r /\
  store.createdAt (history.step req r) = store.createdAt r /\
  (store.updatedAt (history.step req r) = store.updatedAt r \/
   store.updatedAt (history.step req r) = history.requestTime req).
Proof.
  unfold history.step.
  destruct (scan_row r) as (t & -> & _ & _ & _ & _ & _ & Hu & _).
  destruct req as [remembered now | question answer now]; cbn [history.requestTime].
  - destruct (store.applyReview remembered now t) as [t' | e | m] eqn:Hrun;
      try tauto.
    cbn [history.reviewedRow store.tid store.createdAt store.updatedAt].
    split; [reflexivity |]. split; [reflexivity |].
    destruct remembered; cbn [store.applyReview] in Hrun.
    + apply remembered_keeps in Hrun.
      destruct Hrun as (_ & _ & _ & _ & [H | H]); rewrite H; tauto.
    + apply forgot_keeps in Hrun. destruct Hrun as (_ & _ & _ & _ & H). tauto.
  - destruct (tasks.UpdateContent question answer t) as [t1 [e |]]; [tauto |].
    cbn. tauto.
Qed.

(** X7. Through any sequence of review and edit requests on a stored row,
    the identifier and [created_at] never change; and when no request time
    is earlier than [created_at], [updated_at] never falls below
    [created_at]. *)
Theorem replay_keeps_creation (reqs : list history.Request) :
  forall r : store.Row,
    store.tid (history.replay reqs r) = store.tid r /\
    store.createdAt (history.replay reqs r) = store.createdAt r /\
    (store.createdAt r <= store.updatedAt r ->
     (forall req, In req reqs -> store.createdAt r <= history.requestTime req) ->
     store.createdAt (history.replay reqs r)
     <= store.updatedAt (history.replay reqs r)).
Proof.
  induction reqs as [| req rest IH]; intros r; cbn [history.replay].
  - repeat split. intros H _. exact H.
  - destruct (step_keeps req r) as (Hid & Hcr & Hup).
    destruct (IH (history.step req r)) as (IHid & IHcr & IHup).
    rewrite IHid, IHcr, Hid, Hcr. repeat split.
    intros Hle Hall. rewrite <- Hcr, <- IHcr. apply IHup.
    + rewrite Hcr. destruct Hup as [-> | ->]; [exact Hle |].
      apply Hall. left. reflexivity.
    + intros req' Hin. rewrite Hcr. apply Hall. right. exact Hin.
Qed.

Lemma replay_keeps_creation_witness :
  store.createdAt sample_row <= store.updatedAt sample_row /\
  (forall req,
      In req [history.Reviewed true 1000; history.Edited "q2" "a2" 1500;
              history.Reviewed false 2000] ->
      store.createdAt sample_row <= history.requestTime req) /\
  store.createdAt
    (history.replay [history.Reviewed true 1000; history.Edited "q2" "a2" 1500;
                     history.Reviewed false 2000] sample_row)
  <= store.updatedAt
       (history.replay [history.Reviewed true 1000; history.Edited "q2" "a2" 1500;
                        history.Reviewed false 2000] sample_row).
Proof.
  assert (store.createdAt sample_row <= store.updatedAt sample_row) as H1
      by (cbn; lia).
  assert (forall req,
             In req [history.Reviewed true 1000; history.Edited "q2" "a2" 1500;
                     history.Reviewed false 2000] ->
             store.createdAt sample_row <= history.requestTime req) as H2
      by (intros req [<- | [<- | [<- | []]]]; cbn; lia).
  split; [exact H1 |]. split; [exact H2 |].
  exact (proj2 (proj2 (replay_keeps_creation _ sample_row)) H1 H2).
Defined.

Example replay_sample :
  history.replay [history.Reviewed true 1000; history.Edited " q2 " "a2" 1500;
                  history.Reviewed false 2000] sample_row
  = {| store.tid := "0123456789abcdef01234567";
       store.question := "q2"; store.answer := "a2"; store.stage := 0;
       store.next := {| sql.Time := 2000 + 5 * Minute; sql.Valid := true |};
       store.createdAt := 100; store.updatedAt := 2000;
       store.completed := sql.null |}.
Proof. reflexivity. Qed.

Lemma nullTime_nonzero (t : Time) :
  t <> 0 -> store.nullTime t = {| sql.Time := t; sql.Valid := true |}.
Proof.
  intros H. unfold store.nullTime, IsZero.
  destruct (Z.eqb_spec t 0); [contradiction | reflexivity].
Qed.

(** The invariant of a stored row. *)
Lemma step_invariant (req : history.Request) (r : store.Row) :
  zero < history.requestTime req ->
  (0 <= store.stage r <= TotalStages /\
   (sql.Valid (store.completed r) = true <-> store.stage r = TotalStages) /\
   (sql.Valid (store.next r) = false <-> store.stage r = TotalStages) /\
   (sql.Valid (store.completed r) = true -> sql.Time (store.completed r) <> zero) /\
   store.question r <> "" /\ store.answer r <> "") ->
  (0 <= store.stage (history.step req r) <= TotalStages /\
   (sql.Valid (store.completed (history.step req r)) = true
    <-> store.stage (history.step req r) = TotalStages) /\
   (sql.Valid (store.next (history.step req r)) = false
    <-> store.stage (history.step req r) = TotalStages) /\
   (sql.Valid (store.completed (history.step req r)) = true ->
    sql.Time (store.completed (history.step req r)) <> zero) /\
   store.question (history.step req r) <> "" /\
   store.answer (history.step req r) <> "").
Proof.
  intros Hpos Hinv.
  pose proof Hinv as (Hrange & Hdone & Hnext & Hnz & Hq & Ha).
  unfold history.step.
  destruct (scan_row r) as (t & -> & _ & Htq & Hta & Hs & _ & _ & Hn & Hc).
  unfold zero in *. rewrite TotalStages_eq in *.
  destruct req as [remembered now | question answer now];
    cbn [history.requestTime] in Hpos.
  - destruct (store.applyReview remembered now t) as [t' | e | m] eqn:Hrun;
      try exact Hinv.
    cbn [history.reviewedRow store.stage store.completed store.next
         store.question store.answer].
    destruct remembered; cbn [store.applyReview] in Hrun.
    + destruct (sql.Valid (store.completed r)) eqn:Hv.
      * (* already completed: the row is written back as it is *)
        rewrite remembered_completed in Hrun by congruence.
        injection Hrun as <-. rewrite Hs, Hn, Hc.
        assert (store.stage r = 8) as H8 by (apply Hdone; reflexivity).
        assert (sql.Valid (store.next r) = false) as Hnv by (apply Hnext; exact H8).
        rewrite Hnv. unfold store.nullTimePtr, store.nullTime, IsZero, zero.
        specialize (Hnz eq_refl).
        destruct (Z.eqb_spec (sql.Time (store.completed r)) 0) as [E | N];
          [contradiction |].
        cbn. repeat split; auto; lia.
      * assert (store.stage r <> 8) as Hne
            by (intros E; apply Hdone in E; discriminate).
        destruct (Z.eq_dec (Stage t) 7) as [H7 | Hlow].
        -- rewrite remembered_last in Hrun
             by (try assumption; rewrite TotalStages_eq; lia).
           injection Hrun as <-.
           cbn [Stage NextReviewAt CompletedAt store.nullTimePtr].
           unfold store.nullTime, IsZero, zero.
           destruct (Z.eqb_spec now 0) as [E | N]; [lia |].
           cbn. repeat split; auto; try lia; try discriminate.
        -- destruct (remembered_next now t Hc) as (d & Hindex & Hd & Hrun');
             [rewrite TotalStages_eq; lia |].
           rewrite Hrun' in Hrun. injection Hrun as <-.
           cbn [Stage NextReviewAt CompletedAt store.nullTimePtr].
           pose proof (Add_after_zero now d ltac:(unfold zero; lia)
                         (proj1 (index_at_least_second _ _ Hindex))) as Hafter.
           rewrite nullTime_nonzero by (unfold zero in Hafter; lia).
           cbn. repeat split; auto; try lia; try discriminate.
    + unfold MarkForgot in Hrun. rewrite index_first in Hrun. cbn [bind] in Hrun.
      injection Hrun as <-.
      cbn [Stage NextReviewAt CompletedAt store.nullTimePtr].
      pose proof (Add_after_zero now (5 * Minute) ltac:(unfold zero; lia)
                    ltac:(unfold Minute, Second, Nanosecond; lia)) as Hafter.
      change (5 * Minute) with 300000000000 in Hafter.
      rewrite nullTime_nonzero by (unfold zero in Hafter; lia).
      cbn. repeat split; auto; try lia; try discriminate.
  - destruct (tasks.UpdateContent question answer t) as [t1 [e |]] eqn:Hrun;
      [exact Hinv |].
    apply update_texts in Hrun. destruct Hrun as (_ & Nq & _ & Na & _).
    cbn [history.editedRow store.stage store.completed store.next
         store.question store.answer store.setUpdatedAt Question Answer].
    repeat split; try tauto; try lia.
Qed.

(** X8. A row inserted by [Create] and then carried through any sequence of
    review and edit requests, each at a time later than Go's zero time,
    keeps: the stage in [0, N]; [completed_at] non-NULL exactly when the
    stage is [N]; [next_review_at] NULL exactly when the stage is [N]; and a
    non-empty question and answer. *)
Theorem stored_row_invariant (question answer : string) (now0 : Time)
        (rnd : RandRead) (t : Task) (reqs : list history.Request) :
  NewTask question answer now0 rnd = Ok t ->
  (forall req, In req reqs -> zero < history.requestTime req) ->
  0 <= store.stage (history.replay reqs (history.inserted t)) <= TotalStages /\
  (sql.Valid (store.completed (history.replay reqs (history.inserted t))) = true
   <-> store.stage (history.replay reqs (history.inserted t)) = TotalStages) /\
  (sql.Valid (store.next (history.replay reqs (history.inserted t))) = false
   <-> store.stage (history.replay reqs (history.inserted t)) = TotalStages) /\
  store.question (history.replay reqs (history.inserted t)) <> "" /\
  store.answer (history.replay reqs (history.inserted t)) <> "".
Proof.
  intros Hnew Hall.
  apply NewTask_shape in Hnew.
  destruct Hnew as (Nq & Na & Hq & Ha & Hs & _ & _ & _ & _).
  assert (0 <= store.stage (history.inserted t) <= TotalStages /\
          (sql.Valid (store.completed (history.inserted t)) = true
           <-> store.stage (history.inserted t) = TotalStages) /\
          (sql.Valid (store.next (history.inserted t)) = false
           <-> store.stage (history.inserted t) = TotalStages) /\
          (sql.Valid (store.completed (history.inserted t)) = true ->
           sql.Time (store.completed (history.inserted t)) <> zero) /\
          store.question (history.inserted t) <> "" /\
          store.answer (history.inserted t) <> "") as Hinit.
  { cbn [history.inserted store.stage store.completed store.next
         store.question store.answer sql.null sql.Valid sql.Time].
    rewrite Hs, Hq, Ha, TotalStages_eq.
    repeat split; auto; try lia; try discriminate. }
  revert Hinit Hall. generalize (history.inserted t) as r.
  induction reqs as [| req rest IH]; intros r Hinv Hall; cbn [history.replay].
  - tauto.
  - apply IH.
    + apply step_invariant; [apply Hall; left; reflexivity | exact Hinv].
    + intros req' Hin. apply Hall. right. exact Hin.
Qed.

Lemma stored_row_invariant_witness :
  NewTask "q" "a" 100 entropy = Ok (sample_task 0 300000000100 None) /\
  (forall req,
      In req [history.Reviewed true 1000; history.Reviewed false 2000] ->
      zero < history.requestTime req) /\
  0 <= store.stage
         (history.replay [history.Reviewed true 1000; history.Reviewed false 2000]
                         (history.inserted (sample_task 0 300000000100 None)))
    <= TotalStages.
Proof.
  assert (forall req,
             In req [history.Reviewed true 1000; history.Reviewed false 2000] ->
             zero < history.requestTime req) as Hall
      by (intros req [<- | [<- | []]]; reflexivity).
  split; [reflexivity |]. split; [exact Hall |].
  exact (proj1 (stored_row_invariant "q" "a" 100 entropy
                  (sample_task 0 300000000100 None)
                  [history.Reviewed true 1000; history.Reviewed false 2000]
                  eq_refl Hall)).
Defined.

(** At the zero time itself the invariant is lost: a task completed then is
    stored at stage [N] with [completed_at] NULL. *)
Example completed_at_zero_time :
  store.stage (history.replay [history.Reviewed true zero]
                              (store.columns (sample_task 7 900 None))) = 8 /\
  sql.Valid (store.completed
               (history.replay [history.Reviewed true zero]
                               (store.columns (sample_task 7 900 None)))) = false.
Proof. split; reflexivity. Qed.

(** ** Transactions of the store *)

Lemma applyReview_outcome (remembered : bool) (now : Time) (t : Task) :
  (exists t', store.applyReview remembered now t = Ok t') \/
  (exists msg, store.applyReview remembered now t = Panic msg).
Proof.
  destruct remembered; cbn [store.applyReview].
  - unfold MarkRemembered.
    destruct (isSet (CompletedAt t)); [left; eexists; reflexivity |].
    destruct (int_wrap (TotalStages - 1) <=? Stage t);
      [left; eexists; reflexivity |].
    destruct (index StageDurations (int_wrap (Stage t + 1))) as [d | e | m] eqn:Hd;
      cbn [bind]; [left | | right]; try (eexists; reflexivity).
    unfold index in Hd.
    destruct ((0 <=? int_wrap (Stage t + 1))
              && (int_wrap (Stage t + 1) <? Z.of_nat (List.length StageDurations)));
      [destruct (nth_error StageDurations (Z.to_nat (int_wrap (Stage t + 1)))) |];
      discriminate.
  - left. eexists. reflexivity.
Qed.

(** Running a store method against what the database answered. *)
Ltac run_step :=
  match goal with
  | H : store.onBeginTx _ = _ |- _ => rewrite H
  | H : store.onQueryRow _ _ _ _ = _ |- _ => rewrite H
  | H : store.onQuery _ _ = _ |- _ => rewrite H
  | H : store.scanTask _ = _ |- _ => rewrite H
  | H : store.applyReview _ _ _ = _ |- _ => rewrite H
  | H : tasks.UpdateContent _ _ _ = _ |- _ => rewrite H
  | H : tasks.NewTask _ _ _ _ = _ |- _ => rewrite H
  | H : store.onExec _ _ _ _ = _ |- _ => rewrite H
  | H : store.onCommit _ = _ |- _ => rewrite H
  end.

Ltac run_store :=
  unfold store.Review, store.UpdateContent, store.Create, store.Get,
    store.Delete, store.All;
  repeat (progress (cbn [store.perform]; try run_step));
  try reflexivity.

(** The runs of [Review], one per place where it returns. *)
Lemma Review_runs (db : store.Database) (id : string) (remembered : bool)
      (now : Time) :
  (exists e,
      store.onBeginTx db = Some e /\
      store.perform db (store.Review id remembered now)
      = (Err (sql.lift e), [store.CallBeginTx]))
  \/
  (store.onBeginTx db = None /\
   store.onQueryRow db true store.SelectByIDForUpdate [sql.VString id]
   = store.ScanFailed sql.ErrNoRows /\
   store.perform db (store.Review id remembered now)
   = (Err ErrNotFound,
      [store.CallBeginTx; trace.selectForUpdate id; store.CallRollback]))
  \/
  (exists msg,
      store.onBeginTx db = None /\
      store.onQueryRow db true store.SelectByIDForUpdate [sql.VString id]
      = store.ScanFailed (sql.ErrDriver msg) /\
      store.perform db (store.Review id remembered now)
      = (Err (ErrExternal msg),
         [store.CallBeginTx; trace.selectForUpdate id; store.CallRollback]))
  \/
  (exists r t msg,
      store.onBeginTx db = None /\
      store.onQueryRow db true store.SelectByIDForUpdate [sql.VString id]
      = store.ScanRow r /\
      store.scanTask (store.ScanRow r) = inl t /\
      store.applyReview remembered now t = Panic msg /\
      store.perform db (store.Review id remembered now)
      = (Panic msg,
         [store.CallBeginTx; trace.selectForUpdate id; store.CallRollback]))
  \/
  (exists r t t' msg,
      store.onBeginTx db = None /\
      store.onQueryRow db true store.SelectByIDForUpdate [sql.VString id]
      = store.ScanRow r /\
      store.scanTask (store.ScanRow r) = inl t /\
      store.applyReview remembered now t = Ok t' /\
      store.perform db (store.Review id remembered now)
      = (Err (ErrExternal msg),
         [store.CallBeginTx; trace.selectForUpdate id;
          trace.updateReview t'; store.CallRollback]))
  \/
  (exists r t t' e,
      store.onBeginTx db = None /\
      store.onQueryRow db true store.SelectByIDForUpdate [sql.VString id]
      = store.ScanRow r /\
      store.scanTask (store.ScanRow r) = inl t /\
      store.applyReview remembered now t = Ok t' /\
      store.onCommit db = Some e /\
      store.perform db (store.Review id remembered now)
      = (Err (sql.lift e),
         [store.CallBeginTx; trace.selectForUpdate id;
          trace.updateReview t'; store.CallCommit; store.CallRollback]))
  \/
  (exists r t t',
      store.onBeginTx db = None /\
      store.onQueryRow db true store.SelectByIDForUpdate [sql.VString id]
      = store.ScanRow r /\
      store.scanTask (store.ScanRow r) = inl t /\
      store.applyReview remembered now t = Ok t' /\
      store.onCommit db = None /\
      store.perform db (store.Review id remembered now)
      = (Ok t',
         [store.CallBeginTx; trace.selectForUpdate id;
          trace.updateReview t'; store.CallCommit; store.CallRollback])).
Proof.
  destruct (store.onBeginTx db) as [e |] eqn:Hb.
  { left. exists e. split; [reflexivity | run_store]. }
  right.
  destruct (store.onQueryRow db true store.SelectByIDForUpdate [sql.VString id])
    as [r | [| msg]] eqn:Hq.
  - do 2 right. destruct (scan_row r) as (t & Ht & _).
    destruct (applyReview_outcome remembered now t) as [[t' Hrun] | [msg Hrun]].
    + right.
      destruct (store.onExec db true store.UpdateReviewByID
                  [ sql.VInt (Stage t');
                    sql.VNullTime (store.nullTime (NextReviewAt t'));
                    sql.VNullTime (store.nullTimePtr (CompletedAt t'));
                    sql.VTime (UpdatedAt t'); sql.VString (ID t') ])
        as [[| msg] | n] eqn:Hx.
      * left. exists r, t, t'. eexists.
        repeat (split; [first [reflexivity | eassumption] |]). run_store.
      * left. exists r, t, t'. eexists.
        repeat (split; [first [reflexivity | eassumption] |]). run_store.
      * right. destruct (store.onCommit db) as [e |] eqn:Hc.
        -- left. exists r, t, t', e.
           repeat (split; [first [reflexivity | eassumption] |]). run_store.
        -- right. exists r, t, t'.
           repeat (split; [first [reflexivity | eassumption] |]). run_store.
    + left. exists r, t, msg.
      repeat (split; [first [reflexivity | eassumption] |]). run_store.
  - left. repeat (split; [first [reflexivity | eassumption] |]). run_store.
  - right. left. exists msg.
    repeat (split; [first [reflexivity | eassumption] |]). run_store.
Qed.

Ltac leaf :=
  intros;
  unfold trace.selectForUpdate, trace.updateReview, trace.updateContent,
    trace.insertTask, trace.selectByID, trace.deleteByID in *;
  repeat match goal with
         | |- _ <-> _ => split; intros
         | H : exists _, _ |- _ => destruct H
         | H : _ /\ _ |- _ => destruct H
         | H : In _ _ |- _ => cbn [In] in H
         | H : _ \/ _ |- _ => destruct H
         | H : False |- _ => contradiction
         | H : store.CallExec _ _ _ = store.CallExec _ _ _ |- _ =>
             injection H as ? ? ?
         | H : Err (sql.lift ?e) = Err ErrNotFound |- _ => destruct e; discriminate H
         end;
  subst; try congruence;
  repeat match goal with
         | |- _ /\ _ => split
         | |- exists _, _ => eexists
         end;
  try reflexivity; try assumption; try congruence; try (cbn [In]; tauto).

(** X9. [Review] returns a task exactly when its COMMIT was issued and
    succeeded, and then the calls were BEGIN, SELECT FOR UPDATE by the
    identifier, the UPDATE binding the columns of the very task it returns,
    COMMIT, and the deferred rollback. Every transaction it begins ends with
    that rollback; it returns [ErrNotFound] exactly when the SELECT finds no
    row; and the only statement it executes is the UPDATE of the review
    columns. *)
Theorem Review_transaction (db : store.Database) (id : string)
        (remembered : bool) (now : Time) :
  ((exists t', fst (store.perform db (store.Review id remembered now)) = Ok t')
   <-> In store.CallCommit (snd (store.perform db (store.Review id remembered now)))
       /\ store.onCommit db = None)
  /\
  (forall t',
      fst (store.perform db (store.Review id remembered now)) = Ok t' ->
      snd (store.perform db (store.Review id remembered now))
      = [store.CallBeginTx; trace.selectForUpdate id; trace.updateReview t';
         store.CallCommit; store.CallRollback])
  /\
  (store.onBeginTx db = None ->
   last (snd (store.perform db (store.Review id remembered now))) store.CallBeginTx
   = store.CallRollback)
  /\
  (fst (store.perform db (store.Review id remembered now)) = Err ErrNotFound
   <-> store.onBeginTx db = None /\
       store.onQueryRow db true store.SelectByIDForUpdate [sql.VString id]
       = store.ScanFailed sql.ErrNoRows)
  /\
  (forall inTx stmt args,
      In (store.CallExec inTx stmt args)
         (snd (store.perform db (store.Review id remembered now))) ->
      inTx = true /\ stmt = store.UpdateReviewByID).
Proof.
  destruct (Review_runs db id remembered now)
    as [(e & Hb & Hrun)
       | [(Hb & Hq & Hrun)
         | [(msg & Hb & Hq & Hrun)
           | [(r & t & msg & Hb & Hq & Ht & Happ & Hrun)
             | [(r & t & t' & msg & Hb & Hq & Ht & Happ & Hrun)
               | [(r & t & t' & e & Hb & Hq & Ht & Happ & Hc & Hrun)
                 | (r & t & t' & Hb & Hq & Ht & Happ & Hc & Hrun)]]]]]];
    rewrite Hrun; cbn [fst snd last];
    refine (conj _ (conj _ (conj _ (conj _ _)))); leaf.
Qed.

Lemma Review_transaction_sample :
  store.perform healthy (store.Review "0123456789abcdef01234567" false 1000)
  = (Ok {| ID := "0123456789abcdef01234567"; Question := "q"; Answer := "a";
           Stage := 0; NextReviewAt := 1000 + 5 * Minute; CreatedAt := 100;
           UpdatedAt := 1000; CompletedAt := None |},
     [store.CallBeginTx;
      trace.selectForUpdate "0123456789abcdef01234567";
      store.CallExec true store.UpdateReviewByID
        [sql.VInt 0;
         sql.VNullTime {| sql.Time := 1000 + 5 * Minute; sql.Valid := true |};
         sql.VNullTime sql.null; sql.VTime 1000;
         sql.VString "0123456789abcdef01234567"];
      store.CallCommit; store.CallRollback]).
Proof. reflexivity. Qed.

(** The task [UpdateContent] writes: what was scanned, with the trimmed
    texts and the time of the request. *)
Lemma edited_task (question answer : string) (now : Time) (r : store.Row)
      (t t1 : Task) :
  store.scanTask (store.ScanRow r) = inl t ->
  tasks.UpdateContent question answer t = (t1, None) ->
  Question (store.setUpdatedAt now t1) = strings.TrimSpace question /\
  Answer (store.setUpdatedAt now t1) = strings.TrimSpace answer /\
  strings.TrimSpace question <> "" /\ strings.TrimSpace answer <> "" /\
  UpdatedAt (store.setUpdatedAt now t1) = now /\
  ID (store.setUpdatedAt now t1) = store.tid r /\
  Stage (store.setUpdatedAt now t1) = store.stage r /\
  CreatedAt (store.setUpdatedAt now t1) = store.createdAt r /\
  NextReviewAt (store.setUpdatedAt now t1) = NextReviewAt t /\
  CompletedAt (store.setUpdatedAt now t1) = CompletedAt t.
Proof.
  intros Hscan Hrun.
  destruct (scan_row r) as (t0 & Ht0 & Hid & _ & _ & Hs & Hcr & _).
  rewrite Hscan in Ht0. injection Ht0 as <-.
  pose proof (update_result _ _ _ _ Hrun) as (Hst & Hco & Hne).
  apply update_texts in Hrun.
  destruct Hrun as (Hq & Nq & Ha & Na & Hi & Hc & _).
  cbn [store.setUpdatedAt Question Answer UpdatedAt ID Stage CreatedAt
       NextReviewAt CompletedAt].
  repeat split; congruence.
Qed.

(** The runs of [UpdateContent], one per place where it returns. *)
Lemma UpdateContent_runs (db : store.Database) (id question answer : string)
      (now : Time) :
  (exists e,
      store.onBeginTx db = Some e /\
      store.perform db (store.UpdateContent id question answer now)
      = (Err (sql.lift e), [store.CallBeginTx]))
  \/
  (store.onBeginTx db = None /\
   store.onQueryRow db true store.SelectByIDForUpdate [sql.VString id]
   = store.ScanFailed sql.ErrNoRows /\
   store.perform db (store.UpdateContent id question answer now)
   = (Err ErrNotFound,
      [store.CallBeginTx; trace.selectForUpdate id; store.CallRollback]))
  \/
  (exists msg,
      store.onBeginTx db = None /\
      store.onQueryRow db true store.SelectByIDForUpdate [sql.VString id]
      = store.ScanFailed (sql.ErrDriver msg) /\
      store.perform db (store.UpdateContent id question answer now)
      = (Err (ErrExternal msg),
         [store.CallBeginTx; trace.selectForUpdate id; store.CallRollback]))
  \/
  (exists r,
      store.onBeginTx db = None /\
      store.onQueryRow db true store.SelectByIDForUpdate [sql.VString id]
      = store.ScanRow r /\
      (strings.TrimSpace question = "" \/ strings.TrimSpace answer = "") /\
      store.perform db (store.UpdateContent id question answer now)
      = (Err required,
         [store.CallBeginTx; trace.selectForUpdate id; store.CallRollback]))
  \/
  (exists r t t1 msg,
      store.onBeginTx db = None /\
      store.onQueryRow db true store.SelectByIDForUpdate [sql.VString id]
      = store.ScanRow r /\
      store.scanTask (store.ScanRow r) = inl t /\
      tasks.UpdateContent question answer t = (t1, None) /\
      store.perform db (store.UpdateContent id question answer now)
      = (Err (ErrExternal msg),
         [store.CallBeginTx; trace.selectForUpdate id;
          trace.updateContent (store.setUpdatedAt now t1); store.CallRollback]))
  \/
  (exists r t t1 e,
      store.onBeginTx db = None /\
      store.onQueryRow db true store.SelectByIDForUpdate [sql.VString id]
      = store.ScanRow r /\
      store.scanTask (store.ScanRow r) = inl t /\
      tasks.UpdateContent question answer t = (t1, None) /\
      store.onCommit db = Some e /\
      store.perform db (store.UpdateContent id question answer now)
      = (Err (sql.lift e),
         [store.CallBeginTx; trace.selectForUpdate id;
          trace.updateContent (store.setUpdatedAt now t1);
          store.CallCommit; store.CallRollback]))
  \/
  (exists r t t1,
      store.onBeginTx db = None /\
      store.onQueryRow db true store.SelectByIDForUpdate [sql.VString id]
      = store.ScanRow r /\
      store.scanTask (store.ScanRow r) = inl t /\
      tasks.UpdateContent question answer t = (t1, None) /\
      store.onCommit db = None /\
      store.perform db (store.UpdateContent id question answer now)
      = (Ok (store.setUpdatedAt now t1),
         [store.CallBeginTx; trace.selectForUpdate id;
          trace.updateContent (store.setUpdatedAt now t1);
          store.CallCommit; store.CallRollback])).
Proof.
  destruct (store.onBeginTx db) as [e |] eqn:Hb.
  { left. exists e. split; [reflexivity | run_store]. }
  right.
  destruct (store.onQueryRow db true store.SelectByIDForUpdate [sql.VString id])
    as [r | [| msg]] eqn:Hq.
  - do 2 right. destruct (scan_row r) as (t & Ht & _).
    destruct (tasks.UpdateContent question answer t) as [t1 [e |]] eqn:Hrun.
    + left. exists r.
      assert (e = required /\
              (strings.TrimSpace question = "" \/ strings.TrimSpace answer = ""))
        as [-> Hblank].
      { unfold tasks.UpdateContent in Hrun.
        destruct (String.eqb_spec (strings.TrimSpace question) "") as [Eq | Nq];
          [injection Hrun as _ <-; tauto |].
        destruct (String.eqb_spec (strings.TrimSpace answer) "") as [Ea | Na];
          [injection Hrun as _ <-; tauto | discriminate]. }
      repeat (split; [first [reflexivity | eassumption] |]). run_store.
    + right.
      destruct (store.onExec db true store.UpdateContentByID
                  [ sql.VString (Question (store.setUpdatedAt now t1));
                    sql.VString (Answer (store.setUpdatedAt now t1));
                    sql.VTime (UpdatedAt (store.setUpdatedAt now t1));
                    sql.VString (ID (store.setUpdatedAt now t1)) ])
        as [[| msg] | n] eqn:Hx.
      * left. exists r, t, t1. eexists.
        repeat (split; [first [reflexivity | eassumption] |]). run_store.
      * left. exists r, t, t1. eexists.
        repeat (split; [first [reflexivity | eassumption] |]). run_store.
      * right. destruct (store.onCommit db) as [e |] eqn:Hc.
        -- left. exists r, t, t1, e.
           repeat (split; [first [reflexivity | eassumption] |]). run_store.
        -- right. exists r, t, t1.
           repeat (split; [first [reflexivity | eassumption] |]). run_store.
  - left. repeat (split; [first [reflexivity | eassumption] |]). run_store.
  - right. left. exists msg.
    repeat (split; [first [reflexivity | eassumption] |]). run_store.
Qed.

(** X10. [UpdateContent] of the store returns a task exactly when its
    COMMIT was issued and succeeded; the task then has the trimmed texts,
    [updatedAt = now] and the identifier, stage and [createdAt] of the row
    scanned, and the UPDATE bound exactly its texts, time and identifier.
    With a question or answer that is empty once trimmed, no statement is
    executed and nothing is committed. Whatever happens, the only statement
    executed is the UPDATE of the content columns, with non-empty trimmed
    texts, and a transaction that was begun ends with the deferred
    rollback. *)
Theorem UpdateContent_transaction (db : store.Database)
        (id question answer : string) (now : Time) :
  ((exists t',
       fst (store.perform db (store.UpdateContent id question answer now)) = Ok t')
   <-> In store.CallCommit
          (snd (store.perform db (store.UpdateContent id question answer now)))
       /\ store.onCommit db = None)
  /\
  (forall t',
      fst (store.perform db (store.UpdateContent id question answer now)) = Ok t' ->
      snd (store.perform db (store.UpdateContent id question answer now))
      = [store.CallBeginTx; trace.selectForUpdate id; trace.updateContent t';
         store.CallCommit; store.CallRollback] /\
      Question t' = strings.TrimSpace question /\
      Answer t' = strings.TrimSpace answer /\
      UpdatedAt t' = now /\
      exists r,
        store.onQueryRow db true store.SelectByIDForUpdate [sql.VString id]
        = store.ScanRow r /\
        ID t' = store.tid r /\ Stage t' = store.stage r /\
        CreatedAt t' = store.createdAt r)
  /\
  (strings.TrimSpace question = "" \/ strings.TrimSpace answer = "" ->
   forall c,
     In c (snd (store.perform db (store.UpdateContent id question answer now))) ->
     trace.writes c = false)
  /\
  (forall inTx stmt args,
      In (store.CallExec inTx stmt args)
         (snd (store.perform db (store.UpdateContent id question answer now))) ->
      inTx = true /\ stmt = store.UpdateContentByID /\
      strings.TrimSpace question <> "" /\ strings.TrimSpace answer <> "" /\
      exists idv,
        args = [ sql.VString (strings.TrimSpace question);
                 sql.VString (strings.TrimSpace answer);
                 sql.VTime now; sql.VString idv ])
  /\
  (store.onBeginTx db = None ->
   last (snd (store.perform db (store.UpdateContent id question answer now)))
        store.CallBeginTx
   = store.CallRollback).
Proof.
  destruct (UpdateContent_runs db id question answer now)
    as [(e & Hb & Hrun)
       | [(Hb & Hq & Hrun)
         | [(msg & Hb & Hq & Hrun)
           | [(r & Hb & Hq & Hblank & Hrun)
             | [(r & t & t1 & msg & Hb & Hq & Ht & Hupd & Hrun)
               | [(r & t & t1 & e & Hb & Hq & Ht & Hupd & Hc & Hrun)
                 | (r & t & t1 & Hb & Hq & Ht & Hupd & Hc & Hrun)]]]]]];
    rewrite Hrun; cbn [fst snd last];
    try (destruct (edited_task question answer now r t t1 Ht Hupd)
          as (Eq & Ea & Nq & Na & Eu & Ei & Es & Ec & _));
    refine (conj _ (conj _ (conj _ (conj _ _)))); leaf.
  all: try (rewrite <- ?Eq, <- ?Ea; rewrite <- Eu at 2; reflexivity).
  all: try (exists r; repeat split; assumption).
  all: try (cbn; reflexivity).
  all: try (destruct Hblank; congruence).
  all: match goal with H : Ok _ = Ok _ |- _ => injection H as <- end; eassumption.
Qed.

Lemma UpdateContent_transaction_witness :
  (strings.TrimSpace "   " = "" \/ strings.TrimSpace "x" = "") /\
  (forall c,
      In c (snd (store.perform healthy
                   (store.UpdateContent "0123456789abcdef01234567" "   " "x" 1000))) ->
      trace.writes c = false) /\
  store.onBeginTx healthy = None /\
  last (snd (store.perform healthy
               (store.UpdateContent "0123456789abcdef01234567" "   " "x" 1000)))
       store.CallBeginTx
  = store.CallRollback.
Proof.
  pose proof (UpdateContent_transaction healthy "0123456789abcdef01234567"
                "   " "x" 1000) as (_ & _ & H3 & _ & H5).
  split; [left; reflexivity |].
  split; [exact (H3 (or_introl eq_refl)) |].
  split; [reflexivity | exact (H5 eq_refl)].
Defined.

Lemma Review_transaction_witness :
  store.onBeginTx healthy = None /\
  last (snd (store.perform healthy
               (store.Review "0123456789abcdef01234567" true 1000)))
       store.CallBeginTx
  = store.CallRollback.
Proof.
  split; [reflexivity |].
  exact (proj1 (proj2 (proj2 (Review_transaction healthy
                                "0123456789abcdef01234567" true 1000))) eq_refl).
Defined.

(** ** Create, All *)

(** X11. [Create] reaches the database only with a task that [NewTask]
    accepted: with a question or answer empty once trimmed it returns the
    validation error and makes no call. It makes at most one call, the
    INSERT binding the fields of the new task, [next_review_at] being
    [now.Add(StageDurations[0])] as Go computes it, and returns that task
    exactly when the INSERT succeeds. *)
Theorem Create_inserts_valid (db : store.Database) (question answer : string)
        (now : Time) (r : RandRead) :
  (strings.TrimSpace question = "" \/ strings.TrimSpace answer = "" ->
   store.perform db (store.Create question answer now r) = (Err required, []))
  /\
  (forall c,
      In c (snd (store.perform db (store.Create question answer now r))) ->
      exists t,
        NewTask question answer now r = Ok t /\
        snd (store.perform db (store.Create question answer now r))
        = [trace.insertTask t] /\
        c = trace.insertTask t)
  /\
  (forall t,
      fst (store.perform db (store.Create question answer now r)) = Ok t <->
      NewTask question answer now r = Ok t /\
      exists n,
        store.onExec db false store.InsertTask
          [ sql.VString (ID t); sql.VString (strings.TrimSpace question);
            sql.VString (strings.TrimSpace answer); sql.VInt 0;
            sql.VTime (Add now (5 * Minute)); sql.VTime now; sql.VTime now ]
        = store.ExecDone n).
Proof.
  split; [| split].
  - intros Hblank. unfold store.Create.
    rewrite (NewTask_rejects _ _ _ _ Hblank). reflexivity.
  - intros c Hin. unfold store.Create in *.
    destruct (NewTask question answer now r) as [t | e | m]; cbn in Hin;
      try contradiction.
    exists t. split; [reflexivity |]. cbn [store.perform] in *.
    destruct (store.onExec db false store.InsertTask _) as [e | n];
      cbn [store.perform snd In] in *;
      (destruct Hin as [<- | []]; split; reflexivity).
  - intros t. unfold store.Create.
    destruct (NewTask question answer now r) as [t0 | e | m] eqn:Hnew;
      cbn [store.perform fst];
      [| split; [discriminate | intros [H _]; discriminate]
       | split; [discriminate | intros [H _]; discriminate]].
    pose proof (NewTask_shape _ _ _ _ _ Hnew)
      as (_ & _ & Hq & Ha & Hs & Hn & Hc & Hu & _).
    rewrite Hq, Ha, Hs, Hn, Hc, Hu.
    destruct (store.onExec db false store.InsertTask
                [ sql.VString (ID t0); sql.VString (strings.TrimSpace question);
                  sql.VString (strings.TrimSpace answer); sql.VInt 0;
                  sql.VTime (Add now (5 * Minute)); sql.VTime now; sql.VTime now ])
      as [e | n] eqn:Hx; cbn [store.perform fst].
    + split; [discriminate |].
      intros [H [n Hn']]. injection H as <-. congruence.
    + split.
      * intros H. injection H as <-. split; [reflexivity | exists n; exact Hx].
      * intros [H _]. exact H.
Qed.

Lemma Create_inserts_valid_witness :
  (strings.TrimSpace "   " = "" \/ strings.TrimSpace "x" = "") /\
  store.perform healthy (store.Create "   " "x" 1000 entropy) = (Err required, []).
Proof.
  split; [left; reflexivity |].
  exact (proj1 (Create_inserts_valid healthy "   " "x" 1000 entropy)
           (or_introl eq_refl)).
Defined.

Lemma scanAll_rows (rows : list store.Row) :
  forall out,
  exists ts,
    store.scanAll (map store.ScanRow rows) out = inl (out ++ ts)%list /\
    Forall2 (fun r t => store.scanTask (store.ScanRow r) = inl t) rows ts.
Proof.
  induction rows as [| r rest IH]; intros out.
  - exists []. cbn. rewrite app_nil_r. split; [reflexivity | constructor].
  - destruct (scan_row r) as (t & Ht & _).
    destruct (IH (out ++ [t])%list) as (ts & Hrun & Hall).
    exists (t :: ts). cbn [map store.scanAll]. rewrite Ht, Hrun.
    rewrite <- app_assoc. split; [reflexivity | constructor; assumption].
Qed.

Lemma scanAll_failure (rows : list store.Row) (e : sql.failure)
      (rest : list store.Scanned) :
  forall out,
    store.scanAll (map store.ScanRow rows ++ store.ScanFailed e :: rest) out
    = inr e.
Proof.
  induction rows as [| r rows' IH]; intros out; cbn [map app store.scanAll].
  - reflexivity.
  - destruct (scan_row r) as (t & Ht & _). rewrite Ht. apply IH.
Qed.

(** X12. When every row scans, [All] returns the tasks of the rows in row
    order, together with [rows.Err()], and closes the rows. When a row fails
    to scan, it returns that error and no task at all, the rows read before
    included, and still closes the rows. When the query itself fails there
    are no rows to close. It never writes. *)
Theorem All_rows (db : store.Database) :
  (forall rows rowsErr,
      store.onQuery db store.SelectAll
      = store.QueryRows (map store.ScanRow rows) rowsErr ->
      exists ts,
        store.perform db store.All
        = ((ts, option_map sql.lift rowsErr),
           [store.CallQuery store.SelectAll; store.CallRowsClose]) /\
        Forall2 (fun r t => store.scanTask (store.ScanRow r) = inl t) rows ts)
  /\
  (forall rows e rest rowsErr,
      store.onQuery db store.SelectAll
      = store.QueryRows (map store.ScanRow rows ++ store.ScanFailed e :: rest)
                        rowsErr ->
      store.perform db store.All
      = (([], Some (sql.lift e)),
         [store.CallQuery store.SelectAll; store.CallRowsClose]))
  /\
  (forall e,
      store.onQuery db store.SelectAll = store.QueryFailed e ->
      store.perform db store.All
      = (([], Some (sql.lift e)), [store.CallQuery store.SelectAll]))
  /\
  (forall c, In c (snd (store.perform db store.All)) -> trace.writes c = false).
Proof.
  split; [| split; [| split]].
  - intros rows rowsErr Hq.
    destruct (scanAll_rows rows []) as (ts & Hrun & Hall).
    exists ts. split; [| exact Hall].
    unfold store.All. cbn [store.perform]. rewrite Hq, Hrun. reflexivity.
  - intros rows e rest rowsErr Hq.
    unfold store.All. cbn [store.perform].
    rewrite Hq, scanAll_failure. reflexivity.
  - intros e Hq. unfold store.All. cbn [store.perform]. rewrite Hq. reflexivity.
  - intros c. unfold store.All. cbn [store.perform].
    destruct (store.onQuery db store.SelectAll) as [e | scans rowsErr].
    + cbn. intros [<- | []]. reflexivity.
    + destruct (store.scanAll scans []); cbn;
        intros [<- | [<- | []]]; reflexivity.
Qed.

Lemma All_rows_witness :
  store.onQuery healthy store.SelectAll
  = store.QueryRows (map store.ScanRow (map store.columns stored)) None /\
  exists ts,
    store.perform healthy store.All
    = ((ts, None), [store.CallQuery store.SelectAll; store.CallRowsClose]) /\
    Forall2 (fun r t => store.scanTask (store.ScanRow r) = inl t)
            (map store.columns stored) ts.
Proof.
  split; [reflexivity |].
  exact (proj1 (All_rows healthy) (map store.columns stored) None eq_refl).
Defined.

(** * Requests, from the handler to the database *)

Import api.

Ltac settle :=
  intros;
  repeat match goal with
         | |- _ <-> _ => split; intros
         | H : exists _, _ |- _ => destruct H
         | H : _ /\ _ |- _ => destruct H
         | H : _ \/ _ |- _ => destruct H
         | H : False |- _ => contradiction
         | H : In _ _ |- _ => progress cbn [In] in H
         | H : store.ScanRow _ = store.ScanRow _ |- _ => injection H as ?
         | H : store.ScanFailed _ = store.ScanFailed _ |- _ => injection H as ?
         | H : sql.ErrDriver _ = sql.ErrDriver _ |- _ => injection H as ?
         | H : store.ExecDone _ = store.ExecDone _ |- _ => injection H as ?
         | H : store.ExecFailed _ = store.ExecFailed _ |- _ => injection H as ?
         | H : inl _ = inl _ |- _ => injection H as ?
         | H : inr _ = inr _ |- _ => injection H as ?
         | H : Ok _ = Ok _ |- _ => injection H as ?
         end;
  subst; try discriminate; try congruence; try contradiction;
  repeat match goal with
         | |- _ /\ _ => split
         | |- exists _, _ => eexists
         end;
  try reflexivity; try eassumption; try congruence.

Ltac run_handler :=
  unfold api.getTask, api.deleteTask, api.updateTask, api.createTask,
    api.reviewTask, api.listTasks, api.readyTasks;
  cbn [server.handle server.handleProg];
  unfold store.Get, store.Delete;
  cbn [store.perform].

(** X13. GET of one task makes exactly one call, the SELECT by identifier.
    It replies 404 "task not found" exactly when that SELECT finds no row,
    500 with the driver's message when the scan fails otherwise, and 200
    with the representation of the scanned task when a row is found. *)
Theorem getTask_replies (e : server.Env) (n : nat) (id : string) :
  snd (server.handle e n (getTask id)) = [trace.selectByID id]
  /\
  (fst (server.handle e n (getTask id))
   = server.Replied (WriteJSON (writeError StatusNotFound "task not found"))
   <-> store.onQueryRow (server.db e) false store.SelectByID [sql.VString id]
       = store.ScanFailed sql.ErrNoRows)
  /\
  (forall msg,
      store.onQueryRow (server.db e) false store.SelectByID [sql.VString id]
      = store.ScanFailed (sql.ErrDriver msg) ->
      fst (server.handle e n (getTask id))
      = server.Replied (WriteJSON (writeError StatusInternalServerError msg)))
  /\
  (forall r,
      store.onQueryRow (server.db e) false store.SelectByID [sql.VString id]
      = store.ScanRow r ->
      exists t,
        store.scanTask (store.ScanRow r) = inl t /\
        fst (server.handle e n (getTask id))
        = server.Replied
            (WriteJSON (JSON StatusOK (TaskBody (mapTask t (server.clock e n)))))).
Proof.
  run_handler.
  destruct (store.onQueryRow (server.db e) false store.SelectByID [sql.VString id])
    as [r | [| msg]] eqn:Hq.
  - cbn. refine (conj _ (conj _ (conj _ _))); settle.
  - cbn. refine (conj _ (conj _ (conj _ _))); settle.
  - cbn. refine (conj _ (conj _ (conj _ _))); settle.
Qed.

Lemma getTask_replies_witness :
  store.onQueryRow (server.db sample_env) false store.SelectByID
                   [sql.VString "0123456789abcdef01234567"]
  = store.ScanRow sample_row /\
  exists t,
    store.scanTask (store.ScanRow sample_row) = inl t /\
    fst (server.handle sample_env 0 (getTask "0123456789abcdef01234567"))
    = server.Replied
        (WriteJSON (JSON StatusOK (TaskBody (mapTask t (server.clock sample_env 0))))).
Proof.
  split; [reflexivity |].
  exact (proj2 (proj2 (proj2 (getTask_replies sample_env 0
                                "0123456789abcdef01234567")))
           sample_row eq_refl).
Defined.

(** X14. DELETE makes exactly one call, the DELETE by identifier. It replies
    204 without a body exactly when a non-zero number of rows was affected,
    404 "task not found" exactly when none was, and 500 with the driver's
    message when the statement or the count fails. *)
Theorem deleteTask_replies (e : server.Env) (n : nat) (id : string) :
  snd (server.handle e n (deleteTask id)) = [trace.deleteByID id]
  /\
  (fst (server.handle e n (deleteTask id))
   = server.Replied (WriteStatus StatusNoContent)
   <-> exists k,
         k <> 0 /\
         store.onExec (server.db e) false store.DeleteByID [sql.VString id]
         = store.ExecDone (inl k))
  /\
  (fst (server.handle e n (deleteTask id))
   = server.Replied (WriteJSON (writeError StatusNotFound "task not found"))
   <-> store.onExec (server.db e) false store.DeleteByID [sql.VString id]
       = store.ExecDone (inl 0))
  /\
  (forall f,
      store.onExec (server.db e) false store.DeleteByID [sql.VString id]
      = store.ExecFailed f \/
      store.onExec (server.db e) false store.DeleteByID [sql.VString id]
      = store.ExecDone (inr f) ->
      fst (server.handle e n (deleteTask id))
      = server.Replied
          (WriteJSON (writeError StatusInternalServerError (Error (sql.lift f))))).
Proof.
  run_handler.
  destruct (store.onExec (server.db e) false store.DeleteByID [sql.VString id])
    as [f | [k | f]] eqn:Hx.
  - destruct f; cbn; refine (conj _ (conj _ (conj _ _))); settle.
  - destruct (Z.eqb_spec k 0) as [-> | Hk]; cbn;
      refine (conj _ (conj _ (conj _ _))); settle.
  - destruct f; cbn; refine (conj _ (conj _ (conj _ _))); settle.
Qed.

Lemma deleteTask_replies_witness :
  (exists k,
      k <> 0 /\
      store.onExec (server.db sample_env) false store.DeleteByID
                   [sql.VString "0123456789abcdef01234567"]
      = store.ExecDone (inl k)) /\
  fst (server.handle sample_env 0 (deleteTask "0123456789abcdef01234567"))
  = server.Replied (WriteStatus StatusNoContent).
Proof.
  assert (exists k,
             k <> 0 /\
             store.onExec (server.db sample_env) false store.DeleteByID
                          [sql.VString "0123456789abcdef01234567"]
             = store.ExecDone (inl k)) as H
      by (exists 1; split; [discriminate | reflexivity]).
  split; [exact H |].
  exact (proj2 (proj1 (proj2 (deleteTask_replies sample_env 0
                                "0123456789abcdef01234567"))) H).
Defined.

(** X15. PUT and PATCH of a task, once the body is bound, never reply 400
    and never panic: the reply is 200, 404 or 500. A question or answer that
    is empty once trimmed, on a task that exists, is answered 500 with the
    validation message after BEGIN, SELECT FOR UPDATE and the rollback, with
    no UPDATE. The reply is 200 exactly when the COMMIT was issued and
    succeeded. Only a body that does not bind is answered 400. *)
Theorem updateTask_replies (e : server.Env) (n : nat) (id : string)
        (req : createTaskRequest) :
  (exists rep,
      fst (server.handle e n (updateTask id (Some req))) = server.Replied rep /\
      replyStatus rep <> StatusBadRequest /\
      (replyStatus rep = StatusOK \/ replyStatus rep = StatusNotFound \/
       replyStatus rep = StatusInternalServerError))
  /\
  (strings.TrimSpace (reqQuestion req) = "" \/
   strings.TrimSpace (reqAnswer req) = "" ->
   store.onBeginTx (server.db e) = None ->
   forall r,
     store.onQueryRow (server.db e) true store.SelectByIDForUpdate [sql.VString id]
     = store.ScanRow r ->
     server.handle e n (updateTask id (Some req))
     = (server.Replied
          (WriteJSON (writeError StatusInternalServerError
                                 "question and answer are required")),
        [store.CallBeginTx; trace.selectForUpdate id; store.CallRollback]))
  /\
  ((exists body,
       fst (server.handle e n (updateTask id (Some req)))
       = server.Replied (WriteJSON (JSON StatusOK body)))
   <-> In store.CallCommit (snd (server.handle e n (updateTask id (Some req))))
       /\ store.onCommit (server.db e) = None)
  /\
  server.handle e n (updateTask id None)
  = (server.Replied (WriteJSON (writeError StatusBadRequest "invalid json")), []).
Proof.
  destruct (UpdateContent_runs (server.db e) id (reqQuestion req) (reqAnswer req)
              (server.clock e n))
    as [(f & Hb & Hrun)
       | [(Hb & Hq & Hrun)
         | [(msg & Hb & Hq & Hrun)
           | [(r & Hb & Hq & Hblank & Hrun)
             | [(r & t & t1 & msg & Hb & Hq & Ht & Hupd & Hrun)
               | [(r & t & t1 & f & Hb & Hq & Ht & Hupd & Hc & Hrun)
                 | (r & t & t1 & Hb & Hq & Ht & Hupd & Hc & Hrun)]]]]]];
    try (destruct (edited_task _ _ (server.clock e n) r t t1 Ht Hupd)
          as (_ & _ & Nq & Na & _));
    try destruct f;
    unfold updateTask; cbn [server.handle]; rewrite Hrun;
    cbn [server.handle error_is_NotFound sql.lift required fst snd app];
    unfold trace.selectForUpdate, trace.updateContent;
    (refine (conj _ (conj _ (conj _ _))); [| | | reflexivity]);
    settle;
    try (cbn; first [discriminate | tauto]);
    try (cbn [In] in *; intuition discriminate).
Qed.

Lemma updateTask_replies_witness :
  (strings.TrimSpace (reqQuestion blank_question) = "" \/
   strings.TrimSpace (reqAnswer blank_question) = "") /\
  store.onBeginTx (server.db sample_env) = None /\
  store.onQueryRow (server.db sample_env) true store.SelectByIDForUpdate
                   [sql.VString "0123456789abcdef01234567"]
  = store.ScanRow sample_row /\
  server.handle sample_env 0
                (updateTask "0123456789abcdef01234567" (Some blank_question))
  = (server.Replied
       (WriteJSON (writeError StatusInternalServerError
                              "question and answer are required")),
     [store.CallBeginTx; trace.selectForUpdate "0123456789abcdef01234567";
      store.CallRollback]).
Proof.
  split; [left; reflexivity |]. split; [reflexivity |]. split; [reflexivity |].
  exact (proj1 (proj2 (updateTask_replies sample_env 0
                         "0123456789abcdef01234567" blank_question))
           (or_introl eq_refl) eq_refl sample_row eq_refl).
Defined.

(** X16. POST of a task replies 201 or 400, nothing else. With a question
    or answer empty once trimmed it replies 400 with the validation message
    and makes no database call. When the INSERT fails, the failure of the
    database is also answered 400, with the driver's message. When the
    INSERT succeeds the reply is 201 with the representation of the task
    that was inserted, its status taken at the second clock reading. *)
Theorem createTask_replies (e : server.Env) (n : nat) (req : createTaskRequest) :
  (exists rep,
      fst (server.handle e n (createTask (Some req))) = server.Replied rep /\
      (replyStatus rep = StatusCreated \/ replyStatus rep = StatusBadRequest))
  /\
  (strings.TrimSpace (reqQuestion req) = "" \/
   strings.TrimSpace (reqAnswer req) = "" ->
   server.handle e n (createTask (Some req))
   = (server.Replied
        (WriteJSON (writeError StatusBadRequest "question and answer are required")),
      []))
  /\
  (forall t f,
      NewTask (reqQuestion req) (reqAnswer req) (server.clock e n) (server.rand e)
      = Ok t ->
      store.onExec (server.db e) false store.InsertTask
        [ sql.VString (tasks.ID t); sql.VString (tasks.Question t); sql.VString (tasks.Answer t);
          sql.VInt (tasks.Stage t); sql.VTime (tasks.NextReviewAt t);
          sql.VTime (tasks.CreatedAt t); sql.VTime (tasks.UpdatedAt t) ]
      = store.ExecFailed f ->
      server.handle e n (createTask (Some req))
      = (server.Replied
           (WriteJSON (writeError StatusBadRequest (Error (sql.lift f)))),
         [trace.insertTask t]))
  /\
  (forall t k,
      NewTask (reqQuestion req) (reqAnswer req) (server.clock e n) (server.rand e)
      = Ok t ->
      store.onExec (server.db e) false store.InsertTask
        [ sql.VString (tasks.ID t); sql.VString (tasks.Question t); sql.VString (tasks.Answer t);
          sql.VInt (tasks.Stage t); sql.VTime (tasks.NextReviewAt t);
          sql.VTime (tasks.CreatedAt t); sql.VTime (tasks.UpdatedAt t) ]
      = store.ExecDone k ->
      server.handle e n (createTask (Some req))
      = (server.Replied
           (WriteJSON
              (JSON StatusCreated (TaskBody (mapTask t (server.clock e (S n)))))),
         [trace.insertTask t])).
Proof.
  unfold createTask. cbn [server.handle]. unfold store.Create.
  destruct (NewTask (reqQuestion req) (reqAnswer req) (server.clock e n)
                    (server.rand e)) as [t | err | m] eqn:Hnew.
  - pose proof (NewTask_shape _ _ _ _ _ Hnew) as (Nq & Na & _).
    cbn [store.perform].
    destruct (store.onExec (server.db e) false store.InsertTask
                [ sql.VString (tasks.ID t); sql.VString (tasks.Question t);
                  sql.VString (tasks.Answer t); sql.VInt (tasks.Stage t);
                  sql.VTime (tasks.NextReviewAt t); sql.VTime (tasks.CreatedAt t);
                  sql.VTime (tasks.UpdatedAt t) ]) as [f | k] eqn:Hx;
      cbn [store.perform server.handle fst snd app];
      unfold trace.insertTask;
      refine (conj _ (conj _ (conj _ _))); settle;
      try (cbn; tauto).
  - cbn [store.perform server.handle fst snd app].
    assert (err = required \/ exists msg, err = ErrExternal msg) as Herr.
    { destruct (string_dec (strings.TrimSpace (reqQuestion req)) "") as [Eq | Nq];
        [rewrite NewTask_rejects in Hnew by (left; exact Eq);
         injection Hnew as <-; left; reflexivity |].
      destruct (string_dec (strings.TrimSpace (reqAnswer req)) "") as [Ea | Na];
        [rewrite NewTask_rejects in Hnew by (right; exact Ea);
         injection Hnew as <-; left; reflexivity |].
      rewrite (NewTask_accepts _ _ _ _ Nq Na) in Hnew.
      destruct (server.rand e) as [bs | msg]; cbn in Hnew; [discriminate |].
      injection Hnew as <-. right. eexists. reflexivity. }
    refine (conj _ (conj _ (conj _ _))).
    + eexists. split; [reflexivity |]. right. reflexivity.
    + intros Hblank. rewrite (NewTask_rejects _ _ _ _ Hblank) in Hnew.
      injection Hnew as <-. reflexivity.
    + intros t f H. discriminate.
    + intros t k H. discriminate.
  - exfalso. unfold NewTask in Hnew.
    destruct (String.eqb (strings.TrimSpace (reqQuestion req)) ""
              || String.eqb (strings.TrimSpace (reqAnswer req)) "");
      [discriminate |].
    destruct (server.rand e); cbn in Hnew; discriminate.
Qed.

Lemma createTask_replies_witness :
  (strings.TrimSpace (reqQuestion blank_question) = "" \/
   strings.TrimSpace (reqAnswer blank_question) = "") /\
  server.handle sample_env 0 (createTask (Some blank_question))
  = (server.Replied
       (WriteJSON (writeError StatusBadRequest "question and answer are required")),
     []).
Proof.
  split; [left; reflexivity |].
  exact (proj1 (proj2 (createTask_replies sample_env 0 blank_question))
           (or_introl eq_refl)).
Defined.

(** ** Reads *)

Lemma All_reads_only (db : store.Database) :
  forall c, In c (snd (store.perform db store.All)) -> trace.writes c = false.
Proof.
  intros c. unfold store.All. cbn [store.perform].
  destruct (store.onQuery db store.SelectAll) as [e | scans rowsErr].
  - cbn. intros [<- | []]. reflexivity.
  - destruct (store.scanAll scans []); cbn;
      intros [<- | [<- | []]]; reflexivity.
Qed.

(** X17. The three handlers that read, GET of one task, GET of the list
    with any status filter, and GET of the ready list, never execute a
    statement and never commit: every call they make on the database is a
    query, a row scan, or the closing of the rows. *)
Theorem reads_never_write (e : server.Env) (n : nat) (lower : string -> string)
        (query id : string) (c : store.Call) :
  (In c (snd (server.handle e n (getTask id))) -> trace.writes c = false) /\
  (In c (snd (server.handleProg e n (listTasks lower query))) ->
   trace.writes c = false) /\
  (In c (snd (server.handleProg e n (readyTasks))) -> trace.writes c = false).
Proof.
  split; [| split].
  - run_handler.
    destruct (store.onQueryRow (server.db e) false store.SelectByID [sql.VString id])
      as [r | [| msg]]; cbn; intros [<- | []]; reflexivity.
  - unfold listTasks. cbn [server.handleProg].
    destruct (store.perform (server.db e) store.All) as [[all [err |]] calls] eqn:Hp;
      cbn [server.handleProg snd]; rewrite app_nil_r; intros Hin;
      apply (All_reads_only (server.db e)); rewrite Hp; exact Hin.
  - unfold readyTasks. cbn [server.handleProg].
    destruct (store.perform (server.db e) store.All) as [[all [err |]] calls] eqn:Hp;
      cbn [server.handleProg snd]; rewrite app_nil_r; intros Hin;
      apply (All_reads_only (server.db e)); rewrite Hp; exact Hin.
Qed.

Lemma reads_never_write_witness :
  In (trace.selectByID "0123456789abcdef01234567")
     (snd (server.handle sample_env 0 (getTask "0123456789abcdef01234567"))) /\
  trace.writes (trace.selectByID "0123456789abcdef01234567") = false.
Proof.
  assert (In (trace.selectByID "0123456789abcdef01234567")
             (snd (server.handle sample_env 0
                     (getTask "0123456789abcdef01234567")))) as H
      by (left; reflexivity).
  split; [exact H |].
  exact (proj1 (reads_never_write sample_env 0 noUnicode "ready"
                  "0123456789abcdef01234567"
                  (trace.selectByID "0123456789abcdef01234567")) H).
Defined.

(** ** Reviews, from the handler to the database *)

(** X18. A review whose result is not one of the seven words, once trimmed
    and put in lower case, is answered 400 without any database call. For a
    recognised word the handler makes exactly the calls of the store's
    [Review] at the first clock reading; it replies 200 exactly when the
    COMMIT was issued and succeeded, with the representation, at the second
    clock reading, of the task [Review] returned; it replies 404 exactly when
    the SELECT finds no row; and a panic of the transition leaves the handler
    as a panic. *)
Theorem reviewTask_end_to_end (lower : string -> string) (e : server.Env)
        (n : nat) (id : string) (req : reviewRequest) :
  (reviewSwitch (strings.ToLower lower (strings.TrimSpace (Result req))) = None ->
   server.handleProg e n (reviewTask lower id (Some req))
   = (server.Replied
        (WriteJSON (writeError StatusBadRequest
                               "result must be 'remembered' or 'forgot'")),
      []))
  /\
  (forall remembered,
      reviewSwitch (strings.ToLower lower (strings.TrimSpace (Result req)))
      = Some remembered ->
      snd (server.handleProg e n (reviewTask lower id (Some req)))
      = snd (store.perform (server.db e)
               (store.Review id remembered (server.clock e n)))
      /\
      ((exists body,
           fst (server.handleProg e n (reviewTask lower id (Some req)))
           = server.Replied (WriteJSON (JSON StatusOK body)))
       <-> In store.CallCommit
              (snd (server.handleProg e n (reviewTask lower id (Some req))))
           /\ store.onCommit (server.db e) = None)
      /\
      (forall t',
          fst (store.perform (server.db e)
                 (store.Review id remembered (server.clock e n))) = Ok t' ->
          fst (server.handleProg e n (reviewTask lower id (Some req)))
          = server.Replied
              (WriteJSON
                 (JSON StatusOK (TaskBody (mapTask t' (server.clock e (S n)))))))
      /\
      (fst (server.handleProg e n (reviewTask lower id (Some req)))
       = server.Replied (WriteJSON (writeError StatusNotFound "task not found"))
       <-> store.onBeginTx (server.db e) = None /\
           store.onQueryRow (server.db e) true store.SelectByIDForUpdate
                            [sql.VString id]
           = store.ScanFailed sql.ErrNoRows)
      /\
      (forall msg,
          fst (store.perform (server.db e)
                 (store.Review id remembered (server.clock e n))) = Panic msg ->
          fst (server.handleProg e n (reviewTask lower id (Some req)))
          = server.Panicked msg)).
Proof.
  split.
  - intros Hsw. unfold reviewTask. rewrite Hsw. reflexivity.
  - intros remembered Hsw. unfold reviewTask. rewrite Hsw.
    cbn [server.handleProg].
    destruct (Review_runs (server.db e) id remembered (server.clock e n))
      as [(f & Hb & Hrun)
         | [(Hb & Hq & Hrun)
           | [(msg & Hb & Hq & Hrun)
             | [(r & t & msg & Hb & Hq & Ht & Happ & Hrun)
               | [(r & t & t' & msg & Hb & Hq & Ht & Happ & Hrun)
                 | [(r & t & t' & f & Hb & Hq & Ht & Happ & Hc & Hrun)
                   | (r & t & t' & Hb & Hq & Ht & Happ & Hc & Hrun)]]]]]];
      try destruct f;
      rewrite Hrun;
      cbn [server.handleProg error_is_NotFound sql.lift fst snd app];
      unfold trace.selectForUpdate, trace.updateReview;
      refine (conj _ (conj _ (conj _ (conj _ _))));
      settle;
      try (cbn; first [discriminate | tauto]).
Qed.

Lemma reviewTask_end_to_end_witness :
  reviewSwitch (strings.ToLower noUnicode (strings.TrimSpace "maybe")) = None /\
  server.handleProg sample_env 0
    (reviewTask noUnicode "0123456789abcdef01234567" (Some {| Result := "maybe" |}))
  = (server.Replied
       (WriteJSON (writeError StatusBadRequest
                              "result must be 'remembered' or 'forgot'")),
     []).
Proof.
  split; [reflexivity |].
  exact (proj1 (reviewTask_end_to_end noUnicode sample_env 0
                  "0123456789abcdef01234567" {| Result := "maybe" |}) eq_refl).
Defined.

(** ** The list and its filter *)

Lemma fold_listStep (filter_ : string) (now : Time) (all : list Task) :
  forall acc,
    fold_left (listStep filter_ now) all acc
    = (acc ++ map (fun t => mapTask t now)
                  (if String.eqb filter_ "" || String.eqb filter_ "all"
                   then all
                   else filter (fun t => String.eqb (tasks.Status t now) filter_)
                               all))%list.
Proof.
  induction all as [| t rest IH]; intros acc; cbn [fold_left].
  - destruct (String.eqb filter_ "" || String.eqb filter_ "all");
      cbn; rewrite app_nil_r; reflexivity.
  - rewrite IH. unfold listStep at 1. cbn [api.Status mapTask].
    destruct (String.eqb filter_ "" || String.eqb filter_ "all") eqn:Hall;
      cbn [orb].
    + rewrite <- app_assoc. reflexivity.
    + cbn [filter].
      destruct (String.eqb (tasks.Status t now) filter_).
      * cbn [map]. rewrite <- app_assoc. reflexivity.
      * reflexivity.
Qed.

(** X19. When the store returns the tasks, GET of the list replies 200
    with, in stored order: every task when the status parameter, trimmed and
    put in lower case, is empty or "all"; otherwise exactly the tasks whose
    status at the clock reading equals it. A value that is no status, such
    as "overdue", is therefore answered with an empty list, not an error. *)
Theorem listTasks_filter (lower : string -> string) (w : World) (n : nat)
        (query : string) (all : list Task) :
  onAll w = Got all ->
  run w n (listTasks lower query)
  = (JSON StatusOK
       (TaskListBody
          (map (fun t => mapTask t (clock w n))
               (if String.eqb (strings.ToLower lower (strings.TrimSpace query)) ""
                   || String.eqb (strings.ToLower lower (strings.TrimSpace query))
                                 "all"
                then all
                else filter
                       (fun t =>
                          String.eqb
                            (tasks.Status t (clock w n))
                            (strings.ToLower lower (strings.TrimSpace query)))
                       all))),
     [CallAll])
  /\
  (strings.ToLower lower (strings.TrimSpace query) <> "" ->
   strings.ToLower lower (strings.TrimSpace query) <> "all" ->
   strings.ToLower lower (strings.TrimSpace query) <> "done" ->
   strings.ToLower lower (strings.TrimSpace query) <> "ready" ->
   strings.ToLower lower (strings.TrimSpace query) <> "pending" ->
   run w n (listTasks lower query) = (JSON StatusOK (TaskListBody []), [CallAll])).
Proof.
  intros Hall.
  assert (run w n (listTasks lower query)
          = (JSON StatusOK
               (TaskListBody
                  (fold_left (listStep (strings.ToLower lower (strings.TrimSpace query))
                                       (clock w n)) all [])),
             [CallAll])) as Hrun
      by (unfold listTasks; cbn [run]; rewrite Hall; reflexivity).
  rewrite Hrun, fold_listStep. cbn [app]. split; [reflexivity |].
  intros N1 N2 N3 N4 N5.
  apply String.eqb_neq in N1. apply String.eqb_neq in N2. rewrite N1, N2.
  cbn [orb].
  replace (filter _ all) with (@nil Task); [reflexivity |].
  symmetry. clear Hrun Hall. induction all as [| t rest IH]; [reflexivity |].
  cbn [filter].
  destruct (String.eqb_spec (tasks.Status t (clock w n))
                            (strings.ToLower lower (strings.TrimSpace query)))
    as [E | _]; [| exact IH].
  exfalso.
  destruct (Status_cases t (clock w n))
    as [[_ Hs] | [(_ & _ & _ & Hs) | (_ & _ & _ & Hs)]];
    rewrite Hs in E; apply String.eqb_neq in N3, N4, N5;
    rewrite <- E in *; discriminate.
Qed.

Lemma listTasks_filter_witness :
  onAll sample_world = Got stored /\
  run sample_world 0 (listTasks noUnicode " Overdue ")
  = (JSON StatusOK (TaskListBody []), [CallAll]).
Proof.
  split; [reflexivity |].
  apply (proj2 (listTasks_filter noUnicode sample_world 0 " Overdue " stored
                  eq_refl)); discriminate.
Defined.

Lemma three_way_count {A : Type} (p1 p2 p3 : A -> bool) (l : list A) :
  (forall x, In x l ->
             (p1 x = true /\ p2 x = false /\ p3 x = false) \/
             (p1 x = false /\ p2 x = true /\ p3 x = false) \/
             (p1 x = false /\ p2 x = false /\ p3 x = true)) ->
  (List.length (filter p1 l) + List.length (filter p2 l)
   + List.length (filter p3 l) = List.length l)%nat.
Proof.
  induction l as [| x rest IH]; intros H; [reflexivity |].
  assert (List.length (filter p1 rest) + List.length (filter p2 rest)
          + List.length (filter p3 rest) = List.length rest)%nat as IH'
      by (apply IH; intros y Hy; apply H; right; exact Hy).
  cbn [filter List.length].
  destruct (H x (or_introl eq_refl))
    as [(-> & -> & ->) | [(-> & -> & ->) | (-> & -> & ->)]];
    cbn [List.length]; lia.
Qed.

(** X20. When the store returns the tasks, the lists for status "ready",
    "pending" and "done", taken at the same clock reading, together hold as
    many entries as the unfiltered list: every stored task is in exactly one
    of the three. *)
Theorem status_lists_partition (lower : string -> string) (w : World) (n : nat)
        (all : list Task) :
  onAll w = Got all ->
  exists ready pending done everything,
    fst (run w n (listTasks lower "ready")) = JSON StatusOK (TaskListBody ready) /\
    fst (run w n (listTasks lower "pending")) = JSON StatusOK (TaskListBody pending) /\
    fst (run w n (listTasks lower "done")) = JSON StatusOK (TaskListBody done) /\
    fst (run w n (listTasks lower "all")) = JSON StatusOK (TaskListBody everything) /\
    List.length everything = List.length all /\
    (List.length ready + List.length pending + List.length done
     = List.length everything)%nat.
Proof.
  intros Hall.
  assert (forall query,
             fst (run w n (listTasks lower query))
             = JSON StatusOK
                 (TaskListBody
                    (fold_left
                       (listStep (strings.ToLower lower (strings.TrimSpace query))
                                 (clock w n)) all []))) as Hrun
      by (intros query; unfold listTasks; cbn [run]; rewrite Hall; reflexivity).
  do 4 eexists.
  split; [rewrite Hrun, fold_listStep; reflexivity |].
  split; [rewrite Hrun, fold_listStep; reflexivity |].
  split; [rewrite Hrun, fold_listStep; reflexivity |].
  split; [rewrite Hrun, fold_listStep; reflexivity |].
  change (strings.ToLower lower (strings.TrimSpace "ready")) with "ready".
  change (strings.ToLower lower (strings.TrimSpace "pending")) with "pending".
  change (strings.ToLower lower (strings.TrimSpace "done")) with "done".
  change (strings.ToLower lower (strings.TrimSpace "all")) with "all".
  cbn [String.eqb Ascii.eqb Bool.eqb orb andb app].
  rewrite !length_map. split; [reflexivity |].
  apply three_way_count. intros t _.
  destruct (Status_cases t (clock w n))
    as [[_ Hs] | [(_ & _ & _ & Hs) | (_ & _ & _ & Hs)]]; rewrite Hs; cbn; tauto.
Qed.

Lemma status_lists_partition_witness :
  onAll sample_world = Got stored /\
  exists ready pending done everything,
    fst (run sample_world 0 (listTasks noUnicode "ready"))
    = JSON StatusOK (TaskListBody ready) /\
    fst (run sample_world 0 (listTasks noUnicode "pending"))
    = JSON StatusOK (TaskListBody pending) /\
    fst (run sample_world 0 (listTasks noUnicode "done"))
    = JSON StatusOK (TaskListBody done) /\
    fst (run sample_world 0 (listTasks noUnicode "all"))
    = JSON StatusOK (TaskListBody everything) /\
    List.length everything = List.length stored /\
    (List.length ready + List.length pending + List.length done
     = List.length everything)%nat.
Proof.
  split; [reflexivity |].
  exact (status_lists_partition noUnicode sample_world 0 stored eq_refl).
Defined.

(** ** Representations of reachable tasks *)

(** X21. In the representation of a task reachable from [NewTask] with
    every [now] at Go's zero time or later, [nextReviewAt] is omitted
    exactly when the status is "done", [completedAt] is present exactly when
    the status is "done", the stage is between 0 and [totalStages = 8], and
    equals 8 exactly when the status is "done". *)
Theorem mapTask_reachable (t : Task) (at_ : Time) :
  reachable (fun now => zero <= now) t ->
  (api.NextReviewAt (mapTask t at_) = None <-> api.Status (mapTask t at_) = "done") /\
  (api.CompletedAt (mapTask t at_) <> None <-> api.Status (mapTask t at_) = "done") /\
  api.TotalStages (mapTask t at_) = 8 /\
  0 <= api.Stage (mapTask t at_) <= 8 /\
  (api.Stage (mapTask t at_) = 8 <-> api.Status (mapTask t at_) = "done").
Proof.
  intros H. apply reachable_invariant in H.
  destruct H as (Hiff & Hrange & Hzero & Hpos).
  specialize (Hpos (fun now H => H)).
  rewrite TotalStages_eq in *.
  cbn [mapTask api.NextReviewAt api.Status api.CompletedAt api.TotalStages
       api.Stage].
  assert (tasks.Status t at_ = "done" <-> tasks.CompletedAt t <> None) as Hdone.
  { split.
    - intros Hs. apply Status_cases_done in Hs. rewrite TotalStages_eq in Hs.
      destruct Hs as [Hs | Hs]; [exact Hs |]. apply Hiff. lia.
    - intros Hc. unfold tasks.Status.
      destruct (tasks.CompletedAt t); [reflexivity | congruence]. }
  unfold IsZero, zero in *.
  destruct (tasks.CompletedAt t) as [c |] eqn:Hc.
  - rewrite Hzero by discriminate. cbn.
    assert (tasks.Status t at_ = "done") as -> by (apply Hdone; discriminate).
    assert (tasks.Stage t = 8) as -> by (apply Hiff; discriminate).
    repeat split; try discriminate; try lia; reflexivity.
  - specialize (Hpos eq_refl).
    destruct (Z.eqb_spec (tasks.NextReviewAt t) 0) as [E | N]; [lia |]. cbn [negb].
    assert (tasks.Status t at_ <> "done") as Hnot
        by (intros Hs; apply Hdone in Hs; congruence).
    assert (tasks.Stage t <> 8) as Hne
        by (intros Hs; apply Hiff in Hs; congruence).
    repeat split; try discriminate; try lia; try tauto; try congruence.
Qed.

Lemma mapTask_reachable_witness :
  reachable (fun now => zero <= now) (sample_task 0 300000000100 None) /\
  api.TotalStages (mapTask (sample_task 0 300000000100 None) 500) = 8.
Proof.
  assert (reachable (fun now => zero <= now) (sample_task 0 300000000100 None))
    as R by (apply (reach_new _ "q" "a" 100 entropy); [unfold zero; lia | reflexivity]).
  split; [exact R |].
  exact (proj1 (proj2 (proj2 (mapTask_reachable _ 500 R)))).
Defined.

(** * The web client *)

Lemma firstn_plus {A : Type} (a b : nat) :
  forall l : list A, firstn (a + b) l = (firstn a l ++ firstn b (skipn a l))%list.
Proof.
  induction a as [| a IH]; intros l; [reflexivity |].
  destruct l as [| x rest]; cbn [Nat.add firstn skipn app].
  - now rewrite firstn_nil.
  - now rewrite IH.
Qed.

Lemma concat_chunks {A : Type} (l : list A) (k : nat) :
  forall a,
    List.concat (map (fun i => firstn 10 (skipn (10 * i) l)) (seq a k))
    = firstn (10 * k) (skipn (10 * a) l).
Proof.
  induction k as [| k IH]; intros a; [reflexivity |].
  cbn [seq map List.concat]. rewrite IH.
  replace (10 * S k)%nat with (10 + 10 * k)%nat by lia.
  rewrite firstn_plus, skipn_skipn.
  replace (10 + 10 * a)%nat with (10 * S a)%nat by lia. reflexivity.
Qed.

Lemma pageCount_bounds (len : Z) :
  0 < len ->
  1 <= Z.max 1 (web.ceilDiv len web.pageSize) /\
  len <= 10 * Z.max 1 (web.ceilDiv len web.pageSize) /\
  10 * (Z.max 1 (web.ceilDiv len web.pageSize) - 1) < len /\
  (1 < Z.max 1 (web.ceilDiv len web.pageSize) <-> 10 < len).
Proof.
  intros Hlen. unfold web.ceilDiv, web.pageSize.
  pose proof (Z.div_mod (- len) 10 ltac:(lia)) as Hdm.
  pose proof (Z.mod_pos_bound (- len) 10 ltac:(lia)) as Hmod.
  lia.
Qed.

(** The view of a non-empty list. *)
Lemma renderList_view {A : Type} (tasks : list A) (page : Z) :
  tasks <> [] ->
  exists v,
    web.renderList tasks page = Some v /\
    web.pageCount v = Z.max 1 (web.ceilDiv (Z.of_nat (List.length tasks)) web.pageSize) /\
    web.currentPage v = Z.min (Z.max 1 page) (web.pageCount v) /\
    web.cards v
    = firstn 10 (skipn (10 * Z.to_nat (web.currentPage v - 1)) tasks) /\
    web.pager v = (1 <? web.pageCount v) /\
    web.prevDisabled v = (web.currentPage v =? 1) /\
    web.nextDisabled v = (web.currentPage v =? web.pageCount v).
Proof.
  intros Hne. unfold web.renderList.
  destruct (Z.eqb_spec (Z.of_nat (List.length tasks)) 0) as [E | N].
  - destruct tasks; [congruence | cbn [List.length] in E; lia].
  - eexists. split; [reflexivity |].
    cbn [web.pageCount web.currentPage web.cards web.pager web.prevDisabled
         web.nextDisabled].
    repeat split. unfold web.slice, web.pageSize.
    set (cur := Z.min (Z.max 1 page) _).
    replace (Z.to_nat ((cur - 1) * 10 + 10 - (cur - 1) * 10)) with 10%nat by lia.
    replace (Z.to_nat ((cur - 1) * 10)) with (10 * Z.to_nat (cur - 1))%nat by lia.
    reflexivity.
Qed.

Lemma cardsFrom_chunks {A : Type} (tasks : list A) (count : nat) :
  tasks <> [] ->
  forall first,
    1 <= first ->
    first + Z.of_nat count - 1
    <= Z.max 1 (web.ceilDiv (Z.of_nat (List.length tasks)) web.pageSize) ->
    web.cardsFrom tasks first count
    = map (fun i => firstn 10 (skipn (10 * i) tasks))
          (seq (Z.to_nat (first - 1)) count).
Proof.
  intros Hne. induction count as [| count IH]; intros first H1 H2; [reflexivity |].
  cbn [web.cardsFrom seq map].
  destruct (renderList_view tasks first Hne) as (v & -> & Hpc & Hcur & Hcards & _).
  rewrite Hcards, Hcur, Hpc.
  replace (Z.min (Z.max 1 first) _) with first by lia.
  rewrite IH by lia.
  replace (Z.to_nat (first + 1 - 1)) with (S (Z.to_nat (first - 1))) by lia.
  reflexivity.
Qed.

(** X22. [renderList] shows the placeholder for an empty list only. For a
    non-empty list, whatever page is asked for, the page shown is between 1
    and the page count and holds between 1 and 10 cards; the pager is shown
    exactly when there are more than 10 tasks; and the cards of the pages 1
    to the page count, one after the other, are the list itself. *)
Theorem pages_cover_list {A : Type} (tasks : list A) :
  (forall page, web.renderList (@nil A) page = None) /\
  (tasks <> [] ->
   exists count,
     1 <= count /\
     List.concat (web.cardsFrom tasks 1 (Z.to_nat count)) = tasks /\
     forall page,
     exists v,
       web.renderList tasks page = Some v /\
       web.pageCount v = count /\
       1 <= web.currentPage v <= count /\
       (1 <= List.length (web.cards v) <= 10)%nat /\
       (web.pager v = true <-> (10 < List.length tasks)%nat)).
Proof.
  split; [reflexivity |].
  intros Hne.
  assert (0 < Z.of_nat (List.length tasks)) as Hlen
      by (destruct tasks; [congruence | cbn [List.length]; lia]).
  destruct (pageCount_bounds _ Hlen) as (Hpc1 & Hup & Hlow & Hpager).
  set (count := Z.max 1 (web.ceilDiv (Z.of_nat (List.length tasks)) web.pageSize))
    in *.
  exists count. split; [exact Hpc1 |]. split.
  - rewrite cardsFrom_chunks by (try assumption; fold count; lia).
    change (Z.to_nat (1 - 1)) with 0%nat.
    rewrite concat_chunks. rewrite Nat.mul_0_r, skipn_O.
    apply firstn_all2. lia.
  - intros page.
    destruct (renderList_view tasks page Hne)
      as (v & Hv & Hpc & Hcur & Hcards & Hpg & _).
    fold count in Hpc. rewrite Hpc in Hcur, Hpg.
    exists v. split; [exact Hv |]. split; [exact Hpc |].
    split; [lia |]. split.
    + rewrite Hcards, length_firstn, length_skipn. lia.
    + rewrite Hpg. rewrite Z.ltb_lt. split; intros H; [apply Hpager in H |];
        lia.
Qed.

Lemma pages_cover_list_witness :
  twenty_three <> [] /\
  exists count,
    1 <= count /\
    List.concat (web.cardsFrom twenty_three 1 (Z.to_nat count)) = twenty_three.
Proof.
  split; [discriminate |].
  destruct (proj2 (pages_cover_list twenty_three) ltac:(discriminate))
    as (count & H1 & H2 & _).
  exists count. split; assumption.
Defined.

(** X23. A click on an enabled button of the pager asks for the page just
    before or just after the one shown, and that page exists: rendering it
    shows exactly that page, not a clamped one. No button is enabled when
    there is a single page, "previous" is disabled on page 1 and "next" on
    the last page. *)
Theorem pager_click {A : Type} (tasks : list A) (page : Z) (v : web.View A)
        (c : web.Click) (target : Z) :
  web.renderList tasks page = Some v ->
  web.onClick v c = Some target ->
  target = (match c with
            | web.Prev => web.currentPage v - 1
            | web.Next => web.currentPage v + 1
            end) /\
  1 <= target <= web.pageCount v /\
  1 < web.pageCount v /\
  exists v',
    web.renderList tasks target = Some v' /\
    web.currentPage v' = target /\
    web.pageCount v' = web.pageCount v.
Proof.
  intros Hv Hclick.
  assert (tasks <> []) as Hne by (intros ->; discriminate Hv).
  destruct (renderList_view tasks page Hne)
    as (v0 & Hv0 & Hpc & Hcur & _ & Hpg & Hprev & Hnext).
  rewrite Hv in Hv0. injection Hv0 as <-.
  destruct (renderList_view tasks target Hne) as (v' & Hv' & Hpc' & Hcur' & _).
  assert (0 < Z.of_nat (List.length tasks)) as Hlen
      by (destruct tasks; [congruence | cbn [List.length]; lia]).
  destruct (pageCount_bounds _ Hlen) as (Hpc1 & _).
  unfold web.onClick in Hclick. rewrite Hpg, Hprev, Hnext in Hclick.
  destruct (Z.ltb_spec 1 (web.pageCount v)) as [Hmany | Hone];
    cbn [negb] in Hclick; [| discriminate].
  assert (web.pageCount v' = web.pageCount v) as Hsame by congruence.
  destruct c.
  - destruct (Z.eqb_spec (web.currentPage v) 1) as [E | N]; [discriminate |].
    injection Hclick as <-.
    split; [reflexivity |]. split; [lia |]. split; [exact Hmany |].
    exists v'. split; [exact Hv' |]. split; [lia | exact Hsame].
  - destruct (Z.eqb_spec (web.currentPage v) (web.pageCount v)) as [E | N];
      [discriminate |].
    injection Hclick as <-.
    split; [reflexivity |]. split; [lia |]. split; [exact Hmany |].
    exists v'. split; [exact Hv' |]. split; [lia | exact Hsame].
Qed.

Lemma pager_click_witness :
  web.renderList twenty_three 2
  = Some {| web.cards := [10; 11; 12; 13; 14; 15; 16; 17; 18; 19];
            web.currentPage := 2; web.pageCount := 3; web.pager := true;
            web.prevDisabled := false; web.nextDisabled := false |} /\
  web.onClick {| web.cards := [10; 11; 12; 13; 14; 15; 16; 17; 18; 19];
                 web.currentPage := 2; web.pageCount := 3; web.pager := true;
                 web.prevDisabled := false; web.nextDisabled := false |}
              web.Next = Some 3 /\
  1 <= 3 <= 3.
Proof.
  split; [reflexivity |]. split; [reflexivity |].
  exact (proj1 (proj2 (pager_click twenty_three 2 _ web.Next 3 eq_refl eq_refl))).
Defined.
